(** * Water-recovery calculator (src/App.tsx): calculation, validation,
      formatting and crop defaulting, over IEEE-754 binary64 numbers.

    The TypeScript source computes with JavaScript [number]s and keeps every
    form field as a [string].  The embedding therefore has three layers:

    - [JS]: the part of the ECMAScript run-time the source calls
      ([parseFloat], [isNaN], the arithmetic and comparison operators,
      [Number.prototype.toString], [Number.prototype.toFixed]), written over
      the bit-level binary64 model [spec_float];
    - the data of the source ([CropType], [FormData], [ValidationErrors],
      [CROP_TYPES]) and the component state;
    - the functions of the component ([validateInputs],
      [calculateWaterVolume], the crop-change effect, [formatResult]) as
      state-passing functions; the handlers and the two effects with their
      dependency lists; and the pause of [calculateWaterVolume], during
      which the user can go on acting on the form.

    The finite numbers are also read as rationals ([value]), to measure
    what the operators return against the exact results. *)

From Stdlib Require Import ZArith Bool List String Ascii Lia.
From Stdlib Require Import QArith Qabs Qpower Lqa.
From Stdlib Require Import Numbers.DecimalString Numbers.DecimalPos.
From Stdlib Require Import Floats.SpecFloat.
Import ListNotations.

Local Open Scope string_scope.
Local Open Scope Z_scope.

(** ** The ECMAScript run-time used by the source *)

Module JS.

(** A JavaScript [number] is a binary64 value; [spec_float] has a single
    NaN, as the language does. *)
Definition number : Type := spec_float.

Definition prec : Z := 53.
Definition emax : Z := 1024.

Definition nan : number := S754_nan.

(** Arithmetic operators [*], [/] and [-]: the exact result rounded to
    the nearest number, ties to even. *)
Definition mul (x y : number) : number := SFmul prec emax x y.
Definition div (x y : number) : number := SFdiv prec emax x y.
Definition sub (x y : number) : number := SFsub prec emax x y.

(** Relational operators: every comparison with NaN is [false]. *)
Definition lt (x y : number) : bool := SFltb x y.
Definition le (x y : number) : bool := SFleb x y.
Definition gt (x y : number) : bool := SFltb y x.
Definition ge (x y : number) : bool := SFleb y x.

(** The global [isNaN], applied to a number. *)
Definition isNaN (x : number) : bool :=
  match x with
  | S754_nan => true
  | _ => false
  end.

(** The number denoted by the decimal [(-1)^sign * m * 10^e] with [0 <= m]:
    the binary64 value nearest to it, ties to even, overflowing to an
    infinity.  This is the rounding of numeric literals and of the text
    accepted by [parseFloat] (beyond 20 significant digits the standard
    also allows a neighbouring value; the nearest one is taken here). *)
Definition of_decimal (sign : bool) (m e : Z) : number :=
  match m with
  | Zpos p =>
      if 0 <=? e then binary_round prec emax sign (Z.to_pos (m * 10 ^ e)) 0
      else
        let '(q, e', l) := SFdiv_core_binary prec emax m 0 (10 ^ (- e)) 0 in
        binary_round_aux prec emax sign q e' l
  | _ => S754_zero sign
  end.

(** An integer literal. *)
Definition of_Z (n : Z) : number := of_decimal (n <? 0) (Z.abs n) 0.

(** *** [parseFloat] *)

(** StrWhiteSpaceChar, for code units below 256: TAB, LF, VT, FF, CR,
    SP and NBSP. *)
Definition isStrWhiteSpaceChar (c : ascii) : bool :=
  let n := Z.of_nat (nat_of_ascii c) in
  ((9 <=? n) && (n <=? 13)) || (n =? 32) || (n =? 160).

Fixpoint trimStart (s : string) : string :=
  match s with
  | String c s' => if isStrWhiteSpaceChar c then trimStart s' else s
  | EmptyString => s
  end.

Definition digit_val (c : ascii) : option Z :=
  let n := Z.of_nat (nat_of_ascii c) in
  if (48 <=? n) && (n <=? 57) then Some (n - 48) else None.

(** Longest run of decimal digits at the head of [s]: the value read
    (continuing [acc]), the number of digits read (continuing [cnt]) and
    the rest of the text. *)
Fixpoint scan_digits (s : string) (acc cnt : Z) : Z * Z * string :=
  match s with
  | String c s' =>
      match digit_val c with
      | Some d => scan_digits s' (10 * acc + d) (cnt + 1)
      | None => (acc, cnt, s)
      end
  | EmptyString => (acc, cnt, s)
  end.

Definition scan_sign (s : string) : bool * string :=
  match s with
  | String "-" s' => (true, s')
  | String "+" s' => (false, s')
  | _ => (false, s)
  end.

(** ExponentPart, when well formed; otherwise it is not part of the
    longest prefix and counts as exponent 0. *)
Definition scan_exponent (s : string) : Z :=
  match s with
  | String c s' =>
      if (Ascii.eqb c "e" || Ascii.eqb c "E")%bool then
        let (sg, s1) := scan_sign s' in
        let '(v, cnt, _) := scan_digits s1 0 0 in
        if cnt =? 0 then 0 else if sg then - v else v
      else 0
  | EmptyString => 0
  end.

(** [parseFloat]: leading white space is dropped, the longest prefix that
    is a StrDecimalLiteral is read, and NaN is returned when there is
    none. *)
Definition parseFloat (input : string) : number :=
  let (sg, s1) := scan_sign (trimStart input) in
  if String.prefix "Infinity" s1 then S754_infinity sg
  else
    let '(ip, ni, s2) := scan_digits s1 0 0 in
    let '(m, nf, s3) :=
      match s2 with
      | String "." s' => scan_digits s' ip 0
      | _ => (ip, 0, s2)
      end in
    if (ni =? 0) && (nf =? 0) then nan
    else of_decimal sg m (scan_exponent s3 - nf).

(** *** Number to text *)

(** Structural equality; the values the operators produce are canonical,
    so this is equality of numbers with [+0] and [-0] kept apart. *)
Definition number_eqb (x y : number) : bool :=
  match x, y with
  | S754_nan, S754_nan => true
  | S754_zero s, S754_zero t => Bool.eqb s t
  | S754_infinity s, S754_infinity t => Bool.eqb s t
  | S754_finite s m e, S754_finite t n f =>
      Bool.eqb s t && Pos.eqb m n && Z.eqb e f
  | _, _ => false
  end.

(** The real [m * 2^e * 10^k] as the fraction [scaled_num / scaled_den]
    of two positive integers. *)
Definition scaled_num (m e k : Z) : Z :=
  m * 2 ^ (Z.max e 0) * 10 ^ (Z.max k 0).
Definition scaled_den (e k : Z) : Z :=
  2 ^ (Z.max (- e) 0) * 10 ^ (Z.max (- k) 0).

(** Decimal digits of a natural number, most significant first. *)
Definition digits (n : Z) : string :=
  NilEmpty.string_of_uint (N.to_uint (Z.to_N n)).

Definition nb_digits (n : Z) : Z := Z.of_nat (String.length (digits n)).

Fixpoint zeros (n : nat) : string :=
  match n with
  | O => EmptyString
  | S n' => String "0" (zeros n')
  end.

(** The integer [n] with [10^(n-1) <= m * 2^e < 10^n]. *)
Definition decimal_exponent (m e : Z) : Z :=
  let N := scaled_num m e 0 in
  let D := scaled_den e 0 in
  if D <=? N then nb_digits (N / D)
  else 1 - nb_digits ((D + N - 1) / N - 1).

(** Number::toString, step 5: the least [k] and the [s], [n] with
    [10^(k-1) <= s < 10^k] such that [s * 10^(n-k)] reads back as [x];
    of two such [s] the one nearer to [x], the even one on a tie.  The
    candidates for a given [k] are the two neighbours of [x * 10^(k-n0)];
    17 digits always suffice. *)
Fixpoint shortest (fuel : nat) (k : Z) (x : number) (m e n0 : Z)
  : Z * Z * Z :=
  let num := scaled_num m e (k - n0) in
  let den := scaled_den e (k - n0) in
  let lo := num / den in
  let hi := lo + 1 in
  let '(shi, nhi) := if hi =? 10 ^ k then (10 ^ (k - 1), n0 + 1)
                     else (hi, n0) in
  match fuel with
  | O => (lo, n0, k)
  | S fuel' =>
      let ok_lo := number_eqb (of_decimal false lo (n0 - k)) x in
      let ok_hi := number_eqb (of_decimal false shi (nhi - k)) x in
      let lo_nearer :=
        match (num - lo * den) ?= (hi * den - num) with
        | Lt => true
        | Gt => false
        | Eq => Z.even lo
        end in
      if ok_lo && ok_hi then
        if lo_nearer then (lo, n0, k) else (shi, nhi, k)
      else if ok_lo then (lo, n0, k)
      else if ok_hi then (shi, nhi, k)
      else shortest fuel' (k + 1) x m e n0
  end.

(** Number::toString for a positive finite [x = m * 2^e], steps 5 to 10. *)
Definition toString_pos (x : number) (m e : Z) : string :=
  let '(s, n, k) := shortest 17 1 x m e (decimal_exponent m e) in
  let ds := digits s in
  if (k <=? n) && (n <=? 21) then
    ds ++ zeros (Z.to_nat (n - k))
  else if (0 <? n) && (n <=? 21) then
    substring 0 (Z.to_nat n) ds ++ "." ++
    substring (Z.to_nat n) (Z.to_nat (k - n)) ds
  else if (-6 <? n) && (n <=? 0) then
    "0." ++ zeros (Z.to_nat (- n)) ++ ds
  else
    let ex := ((if n - 1 <? 0 then "-" else "+") ++ digits (Z.abs (n - 1)))
    in
    if k =? 1 then ds ++ "e" ++ ex
    else substring 0 1 ds ++ "." ++ substring 1 (Z.to_nat (k - 1)) ds
         ++ "e" ++ ex.

(** [Number.prototype.toString()], radix 10. *)
Definition toString (x : number) : string :=
  match x with
  | S754_nan => "NaN"
  | S754_zero _ => "0"
  | S754_infinity s => if s then "-Infinity" else "Infinity"
  | S754_finite s m e =>
      (if s then "-" else "") ++
      toString_pos (S754_finite false m e) (Zpos m) e
  end.

(** [Number.prototype.toFixed(f)] for [0 <= f <= 100] (the source passes
    0 and 2).  A value that is not finite, or of magnitude [10^21] and
    more, is printed by [toString]; otherwise the integer [n] nearest to
    [x * 10^f] (the larger on a tie) is printed with [f] digits after the
    point. *)
Definition fixed_digits (num den : Z) (f : nat) : string :=
  let n := (2 * num + den) / (2 * den) in
  let m := digits n in
  match f with
  | O => m
  | S _ =>
      let m' :=
        if (String.length m <=? f)%nat
        then zeros (f + 1 - String.length m) ++ m else m in
      let k := String.length m' in
      substring 0 (k - f) m' ++ "." ++ substring (k - f) f m'
  end.

Definition toFixed (x : number) (f : nat) : string :=
  match x with
  | S754_zero _ => fixed_digits 0 1 f
  | S754_finite s m e =>
      (if s then "-" else "") ++
      (if le (of_decimal false 1 21) (S754_finite false m e)
       then toString (S754_finite false m e)
       else fixed_digits (scaled_num (Zpos m) e (Z.of_nat f))
                         (scaled_den e (Z.of_nat f)) f)
  | _ => toString x
  end.

End JS.

Import JS.

(** ** Data of the source *)

(** [interface CropType]. *)
Module CropType.
Record t : Type := mk {
  id : string;
  name : string;
  scientificName : string;
  biomassFactor : number;
  moistureContent : number
}.
End CropType.

(** [interface FormData]: every field is the text of an input element. *)
Module FormData.
Record t : Type := mk {
  cropType : string;
  totalMass : string;
  lossFraction : string;
  processingFactor : string;
  moistureContent : string;
  recoveryEfficiency : string;
  biomassFactor : string
}.
End FormData.

(** [interface ValidationErrors]: six optional messages; [None] is an absent
    property. *)
Module ValidationErrors.
Record t : Type := mk {
  totalMass : option string;
  lossFraction : option string;
  processingFactor : option string;
  moistureContent : option string;
  recoveryEfficiency : option string;
  biomassFactor : option string
}.

(** The object literal [{}]. *)
Definition empty : t := mk None None None None None None.

(** [Object.keys]: the own properties, in insertion order, which in
    [validateInputs] is the order of the six checks. *)
Definition keys (e : t) : list string :=
  let key (k : string) (v : option string) : list string :=
    match v with Some _ => [k] | None => [] end in
  (key "totalMass" (totalMass e) ++ key "lossFraction" (lossFraction e) ++
   key "processingFactor" (processingFactor e) ++
   key "moistureContent" (moistureContent e) ++
   key "recoveryEfficiency" (recoveryEfficiency e) ++
   key "biomassFactor" (biomassFactor e))%list.
End ValidationErrors.

(** The catalog.  A numeric literal denotes the binary64 value nearest to
    its decimal. *)
Definition CROP_TYPES : list CropType.t :=
  [ CropType.mk "tunisian-olive" "Tunisian Olive"
      "Olea europaea L. cv. Chemlali"
      (of_decimal false 175 (-3)) (of_decimal false 725 (-1));
    CropType.mk "koroneiki-olive" "Koroneiki Olive"
      "Olea europaea L. cv. Koroneiki"
      (of_decimal false 20 (-2)) (of_Z 70);
    CropType.mk "leccino-olive" "Leccino Olive"
      "Olea europaea L. cv. Leccino"
      (of_decimal false 16 (-2)) (of_decimal false 725 (-1));
    CropType.mk "apple-tree" "Apple Tree"
      "Malus domestica"
      (of_decimal false 12 (-2)) (of_Z 80) ].

(** [CROP_TYPES.find(crop => crop.id === id)]; [None] is [undefined]. *)
Definition find_crop (id : string) : option CropType.t :=
  List.find (fun crop => String.eqb (CropType.id crop) id) CROP_TYPES.

(** ** The component state *)

Record AppState : Type := mkAppState {
  formData : FormData.t;
  errors : ValidationErrors.t;
  result : option number;
  isCalculating : bool;
  showResult : bool;
  isDropdownOpen : bool;
  showCreditsModal : bool
}.

(** The arguments of the [useState] calls. *)
Definition initialState : AppState :=
  mkAppState
    (FormData.mk "tunisian-olive" "" "20" "1.0" "72.5" "50" "0.175")
    ValidationErrors.empty None false false false false.

Definition WATER_DENSITY : number := of_Z 1.

(** [selectedCrop]: the catalog entry of the form's crop, or [CROP_TYPES[0]]
    when there is none. *)
Definition selectedCrop (st : AppState) : option CropType.t :=
  match find_crop (FormData.cropType (formData st)) with
  | Some crop => Some crop
  | None => nth_error CROP_TYPES 0
  end.

(** ** Validation *)

(** A non-empty string is truthy. *)
Definition truthy (s : string) : bool :=
  match s with
  | EmptyString => false
  | String _ _ => true
  end.

(** The conditions of the six [if] statements of [validateInputs]. *)
Definition totalMass_fails (s : string) : bool :=
  let totalMass := parseFloat s in
  negb (truthy s) || isNaN totalMass || le totalMass (of_Z 0).

Definition percent_fails (s : string) : bool :=
  let v := parseFloat s in
  isNaN v || lt v (of_Z 0) || gt v (of_Z 100).

Definition positive_fails (s : string) : bool :=
  let v := parseFloat s in
  isNaN v || le v (of_Z 0).

(** The object [newErrors] at the end of [validateInputs]: one assignment
    per failing check, none of which reads what an earlier one wrote. *)
Definition newErrors (fd : FormData.t) : ValidationErrors.t :=
  let e := ValidationErrors.empty in
  let e :=
    if totalMass_fails (FormData.totalMass fd)
    then ValidationErrors.mk
           (Some "Please enter a valid positive mass value")
           (ValidationErrors.lossFraction e)
           (ValidationErrors.processingFactor e)
           (ValidationErrors.moistureContent e)
           (ValidationErrors.recoveryEfficiency e)
           (ValidationErrors.biomassFactor e)
    else e in
  let e :=
    if percent_fails (FormData.lossFraction fd)
    then ValidationErrors.mk
           (ValidationErrors.totalMass e)
           (Some "Loss fraction must be between 0 and 100%")
           (ValidationErrors.processingFactor e)
           (ValidationErrors.moistureContent e)
           (ValidationErrors.recoveryEfficiency e)
           (ValidationErrors.biomassFactor e)
    else e in
  let e :=
    if positive_fails (FormData.processingFactor fd)
    then ValidationErrors.mk
           (ValidationErrors.totalMass e)
           (ValidationErrors.lossFraction e)
           (Some "Processing factor must be a positive number")
           (ValidationErrors.moistureContent e)
           (ValidationErrors.recoveryEfficiency e)
           (ValidationErrors.biomassFactor e)
    else e in
  let e :=
    if percent_fails (FormData.moistureContent fd)
    then ValidationErrors.mk
           (ValidationErrors.totalMass e)
           (ValidationErrors.lossFraction e)
           (ValidationErrors.processingFactor e)
           (Some "Moisture content must be between 0 and 100%")
           (ValidationErrors.recoveryEfficiency e)
           (ValidationErrors.biomassFactor e)
    else e in
  let e :=
    if percent_fails (FormData.recoveryEfficiency fd)
    then ValidationErrors.mk
           (ValidationErrors.totalMass e)
           (ValidationErrors.lossFraction e)
           (ValidationErrors.processingFactor e)
           (ValidationErrors.moistureContent e)
           (Some "Recovery efficiency must be between 0 and 100%")
           (ValidationErrors.biomassFactor e)
    else e in
  let e :=
    if positive_fails (FormData.biomassFactor fd)
    then ValidationErrors.mk
           (ValidationErrors.totalMass e)
           (ValidationErrors.lossFraction e)
           (ValidationErrors.processingFactor e)
           (ValidationErrors.moistureContent e)
           (ValidationErrors.recoveryEfficiency e)
           (Some "Biomass factor must be a positive number")
    else e in
  e.

(** [validateInputs]: stores [newErrors] with [setErrors] and returns
    whether it has no key. *)
Definition validateInputs (st : AppState) : AppState * bool :=
  let e := newErrors (formData st) in
  (mkAppState (formData st) e (result st) (isCalculating st)
     (showResult st) (isDropdownOpen st) (showCreditsModal st),
   (List.length (ValidationErrors.keys e) =? 0)%nat).

(** ** Calculation *)

(** The constant [waterVolume] of [calculateWaterVolume]; the operators
    associate to the left as in the source. *)
Definition waterVolume (fd : FormData.t) : number :=
  let M_h := parseFloat (FormData.totalMass fd) in
  let L_c := div (parseFloat (FormData.lossFraction fd)) (of_Z 100) in
  let E_p := parseFloat (FormData.processingFactor fd) in
  let MC := div (parseFloat (FormData.moistureContent fd)) (of_Z 100) in
  let eta := div (parseFloat (FormData.recoveryEfficiency fd)) (of_Z 100) in
  let F_b := parseFloat (FormData.biomassFactor fd) in
  div (mul (mul (mul (mul (mul M_h F_b) (sub (of_Z 1) L_c)) E_p) MC) eta)
      WATER_DENSITY.

(** [calculateWaterVolume].  Nothing but the stored errors changes when
    validation fails.  Otherwise the function makes two batches of updates:
    first the flags of a run under way and then, after the pause of 800 ms
    unless [skipAnimation] is set, the volume and the flags of a result on
    display.  The volume is computed from the form the function was called
    with, the [formData] of its closure; the second batch is applied to the
    state as it is when the pause ends, which [during] gives from the state
    at the start of the pause. *)
Definition calculateWaterVolume_with (during : AppState -> AppState)
           (skipAnimation : bool) (st : AppState) : AppState :=
  let (st1, ok) := validateInputs st in
  if negb ok then st1
  else
    let started :=
      mkAppState (formData st1) (errors st1) (result st1) true false
        (isDropdownOpen st1) (showCreditsModal st1) in
    let resumed := if skipAnimation then started else during started in
    mkAppState (formData resumed) (errors resumed)
      (Some (waterVolume (formData st))) false true
      (isDropdownOpen resumed) (showCreditsModal resumed).

(** The run during whose pause, if it has one, nothing else happens. *)
Definition calculateWaterVolume (skipAnimation : bool) (st : AppState)
  : AppState :=
  calculateWaterVolume_with (fun started => started) skipAnimation st.

(** ** Crop selection *)

(** The update made by the effect that depends on [formData.cropType]. *)
Definition cropChangeEffect (fd : FormData.t) : FormData.t :=
  match find_crop (FormData.cropType fd) with
  | Some crop =>
      FormData.mk (FormData.cropType fd) (FormData.totalMass fd)
        (FormData.lossFraction fd) (FormData.processingFactor fd)
        (toString (CropType.moistureContent crop))
        (FormData.recoveryEfficiency fd)
        (toString (CropType.biomassFactor crop))
  | None => fd
  end.

(** [handleCropTypeChange]. *)
Definition handleCropTypeChange (cropId : string) (st : AppState)
  : AppState :=
  let fd := formData st in
  mkAppState
    (FormData.mk cropId (FormData.totalMass fd) (FormData.lossFraction fd)
       (FormData.processingFactor fd) (FormData.moistureContent fd)
       (FormData.recoveryEfficiency fd) (FormData.biomassFactor fd))
    (errors st) (result st) (isCalculating st) (showResult st) false
    (showCreditsModal st).

(** Choosing an entry of the dropdown: the handler, then the effect, which
    runs when its dependency [formData.cropType] has changed.  (The second
    effect of the component, which recomputes a result that is on display,
    changes no field of the form and is not modelled.) *)
Definition selectCrop (cropId : string) (st : AppState) : AppState :=
  let st1 := handleCropTypeChange cropId st in
  if String.eqb (FormData.cropType (formData st)) cropId then st1
  else
    mkAppState (cropChangeEffect (formData st1)) (errors st1) (result st1)
      (isCalculating st1) (showResult st1) (isDropdownOpen st1)
      (showCreditsModal st1).

(** ** Formatting *)

(** The code unit U+00B3 (superscript three). *)
Definition superscript_three : ascii := ascii_of_nat 179.

Definition formatResult (volume : number) : string :=
  if lt volume (of_decimal false 1 (-3)) then
    toFixed (mul volume (of_Z 1000)) 2 ++ " mL"
  else if lt volume (of_Z 1) then
    toFixed (mul volume (of_Z 1000)) 0 ++ " mL"
  else if lt volume (of_Z 1000) then
    toFixed volume 2 ++ " L"
  else
    toFixed (div volume (of_Z 1000)) 2 ++ " m" ++
    String superscript_three EmptyString.

(** ** Definitions used to state the properties *)

(** The formula of the specification, in its own words: the product of the
    six inputs, the three percentages as fractions, over the water density
    of 1 kg per litre.  The operators are those of the numbers of the
    program. *)
Definition waterDensity : number := of_Z 1.

Definition waterVolumeLiters
    (totalMassKg biomassFactor lossFractionPercent processingFactor
     moistureContentPercent recoveryEfficiencyPercent : number) : number :=
  div
    (mul
       (mul
          (mul
             (mul (mul totalMassKg biomassFactor)
                  (sub (of_Z 1) (div lossFractionPercent (of_Z 100))))
             processingFactor)
          (div moistureContentPercent (of_Z 100)))
       (div recoveryEfficiencyPercent (of_Z 100)))
    waterDensity.

(** The numbers a program can hold: the canonical binary64 values. *)
Definition wf (x : number) : bool := valid_binary prec emax x.

(** Numbers that are not negative: NaN, a zero of either sign, and the
    positive numbers up to [+Infinity]. *)
Definition nonneg_or_nan (x : number) : bool :=
  match x with
  | S754_nan | S754_zero _ => true
  | S754_infinity s | S754_finite s _ _ => negb s
  end.

(** Text in fixed notation with exactly [d] decimal places: an optional
    minus sign, one digit or more and, when [d] is not zero, a point
    followed by [d] digits. *)
Definition is_digit (c : ascii) : bool :=
  match digit_val c with
  | Some _ => true
  | None => false
  end.

Fixpoint all_digits (s : string) : bool :=
  match s with
  | EmptyString => true
  | String c s' => is_digit c && all_digits s'
  end.

Fixpoint unsigned_fixed (d : nat) (seen : bool) (s : string) : bool :=
  match s with
  | EmptyString => seen && (d =? 0)%nat
  | String c s' =>
      if is_digit c then unsigned_fixed d true s'
      else seen && Ascii.eqb c "." && negb (d =? 0)%nat &&
           all_digits s' && (String.length s' =? d)%nat
  end.

Definition fixed_notation (d : nat) (s : string) : bool :=
  match s with
  | String "-" t => unsigned_fixed d false t
  | _ => unsigned_fixed d false s
  end.

(** [s] shows a number with [d] decimal places followed by a space and
    the unit [u]. *)
Definition rendered (d : nat) (u s : string) : Prop :=
  exists t : string, s = t ++ " " ++ u /\ fixed_notation d t = true.

(** The unit of cubic metres as the source writes it. *)
Definition cubic_metres : string := "m" ++ String superscript_three EmptyString.

(** The mantissa and exponent that a right shift by [n] places leaves
    (nothing moves when [n] is not positive), and the exponent at which a
    quotient is taken; both name steps of the rounding of [spec_float]. *)
Definition shifted (m e n : Z) : Z * Z :=
  if 0 <? n then (m / 2 ^ n, e + n) else (m, e).

Definition div_exponent (m1 e1 m2 e2 : Z) : Z :=
  Z.min (fexp prec emax (Zdigits2 m1 + e1 - (Zdigits2 m2 + e2))) (e1 - e2).

(** The form of the end-to-end scenarios: the Tunisian olive with the
    default factors and a given mass. *)
Definition scenario (mass : string) : AppState :=
  mkAppState
    (FormData.mk "tunisian-olive" mass "20" "1.0" "72.5" "50" "0.175")
    ValidationErrors.empty None false false false false.

(** The order of the numbers: every number but NaN has a key, and
    numbers compare as their keys do, lexicographically. *)
Definition key (x : number) : option (Z * Z * Z) :=
  match x with
  | S754_nan => None
  | S754_zero _ => Some (0, 0, 0)
  | S754_infinity s => Some (if s then -2 else 2, 0, 0)
  | S754_finite s m e =>
      Some (if s then (-1, - e, Zneg m) else (1, e, Zpos m))
  end.

Definition lex (a b : Z * Z * Z) : comparison :=
  let '(a1, a2, a3) := a in
  let '(b1, b2, b3) := b in
  match a1 ?= b1 with
  | Eq => match a2 ?= b2 with
          | Eq => a3 ?= b3
          | c => c
          end
  | c => c
  end.

(** A mantissa and exponent in canonical position: at most 53 bits, and
    exactly 53 unless the exponent is the least one. *)
Definition in_format (me : Z * Z) : Prop :=
  0 <= fst me < 2 ^ 53 /\
  (snd me = -1074 \/ 2 ^ 52 <= fst me) /\ -1074 <= snd me.

(** ** Editing a field, and the effects that follow a change *)

(** [keyof FormData]. *)
Module Field.
Inductive t : Type :=
| cropType | totalMass | lossFraction | processingFactor
| moistureContent | recoveryEfficiency | biomassFactor.
End Field.

(** [formData[field]] and the object [{ ...prev, [field]: value }]. *)
Definition get_field (field : Field.t) (fd : FormData.t) : string :=
  match field with
  | Field.cropType => FormData.cropType fd
  | Field.totalMass => FormData.totalMass fd
  | Field.lossFraction => FormData.lossFraction fd
  | Field.processingFactor => FormData.processingFactor fd
  | Field.moistureContent => FormData.moistureContent fd
  | Field.recoveryEfficiency => FormData.recoveryEfficiency fd
  | Field.biomassFactor => FormData.biomassFactor fd
  end.

Definition set_field (field : Field.t) (value : string) (fd : FormData.t)
  : FormData.t :=
  match field with
  | Field.cropType =>
      FormData.mk value (FormData.totalMass fd) (FormData.lossFraction fd)
        (FormData.processingFactor fd) (FormData.moistureContent fd)
        (FormData.recoveryEfficiency fd) (FormData.biomassFactor fd)
  | Field.totalMass =>
      FormData.mk (FormData.cropType fd) value (FormData.lossFraction fd)
        (FormData.processingFactor fd) (FormData.moistureContent fd)
        (FormData.recoveryEfficiency fd) (FormData.biomassFactor fd)
  | Field.lossFraction =>
      FormData.mk (FormData.cropType fd) (FormData.totalMass fd) value
        (FormData.processingFactor fd) (FormData.moistureContent fd)
        (FormData.recoveryEfficiency fd) (FormData.biomassFactor fd)
  | Field.processingFactor =>
      FormData.mk (FormData.cropType fd) (FormData.totalMass fd)
        (FormData.lossFraction fd) value (FormData.moistureContent fd)
        (FormData.recoveryEfficiency fd) (FormData.biomassFactor fd)
  | Field.moistureContent =>
      FormData.mk (FormData.cropType fd) (FormData.totalMass fd)
        (FormData.lossFraction fd) (FormData.processingFactor fd) value
        (FormData.recoveryEfficiency fd) (FormData.biomassFactor fd)
  | Field.recoveryEfficiency =>
      FormData.mk (FormData.cropType fd) (FormData.totalMass fd)
        (FormData.lossFraction fd) (FormData.processingFactor fd)
        (FormData.moistureContent fd) value (FormData.biomassFactor fd)
  | Field.biomassFactor =>
      FormData.mk (FormData.cropType fd) (FormData.totalMass fd)
        (FormData.lossFraction fd) (FormData.processingFactor fd)
        (FormData.moistureContent fd) (FormData.recoveryEfficiency fd) value
  end.

(** [errors[field]]: the errors have no property for the crop. *)
Definition error_of (field : Field.t) (e : ValidationErrors.t)
  : option string :=
  match field with
  | Field.cropType => None
  | Field.totalMass => ValidationErrors.totalMass e
  | Field.lossFraction => ValidationErrors.lossFraction e
  | Field.processingFactor => ValidationErrors.processingFactor e
  | Field.moistureContent => ValidationErrors.moistureContent e
  | Field.recoveryEfficiency => ValidationErrors.recoveryEfficiency e
  | Field.biomassFactor => ValidationErrors.biomassFactor e
  end.

(** The object [{ ...prev, [field]: undefined }].  A property that holds
    [undefined] reads like an absent one wherever the component reads the
    stored errors (it only tests [errors.x] for truth), so it is [None]. *)
Definition clear_error (field : Field.t) (e : ValidationErrors.t)
  : ValidationErrors.t :=
  match field with
  | Field.cropType => e
  | Field.totalMass =>
      ValidationErrors.mk None (ValidationErrors.lossFraction e)
        (ValidationErrors.processingFactor e)
        (ValidationErrors.moistureContent e)
        (ValidationErrors.recoveryEfficiency e)
        (ValidationErrors.biomassFactor e)
  | Field.lossFraction =>
      ValidationErrors.mk (ValidationErrors.totalMass e) None
        (ValidationErrors.processingFactor e)
        (ValidationErrors.moistureContent e)
        (ValidationErrors.recoveryEfficiency e)
        (ValidationErrors.biomassFactor e)
  | Field.processingFactor =>
      ValidationErrors.mk (ValidationErrors.totalMass e)
        (ValidationErrors.lossFraction e) None
        (ValidationErrors.moistureContent e)
        (ValidationErrors.recoveryEfficiency e)
        (ValidationErrors.biomassFactor e)
  | Field.moistureContent =>
      ValidationErrors.mk (ValidationErrors.totalMass e)
        (ValidationErrors.lossFraction e)
        (ValidationErrors.processingFactor e) None
        (ValidationErrors.recoveryEfficiency e)
        (ValidationErrors.biomassFactor e)
  | Field.recoveryEfficiency =>
      ValidationErrors.mk (ValidationErrors.totalMass e)
        (ValidationErrors.lossFraction e)
        (ValidationErrors.processingFactor e)
        (ValidationErrors.moistureContent e) None
        (ValidationErrors.biomassFactor e)
  | Field.biomassFactor =>
      ValidationErrors.mk (ValidationErrors.totalMass e)
        (ValidationErrors.lossFraction e)
        (ValidationErrors.processingFactor e)
        (ValidationErrors.moistureContent e)
        (ValidationErrors.recoveryEfficiency e) None
  end.

(** A message that is present and not empty is truthy. *)
Definition truthy_error (m : option string) : bool :=
  match m with
  | Some s => truthy s
  | None => false
  end.

(** [handleInputChange]: the field takes the value typed, and the error
    shown for that field, if any, is cleared. *)
Definition handleInputChange (field : Field.t) (value : string)
           (st : AppState) : AppState :=
  let fd := set_field field value (formData st) in
  if truthy_error (error_of field (errors st)) then
    mkAppState fd (clear_error field (errors st)) (result st)
      (isCalculating st) (showResult st) (isDropdownOpen st)
      (showCreditsModal st)
  else
    mkAppState fd (errors st) (result st) (isCalculating st) (showResult st)
      (isDropdownOpen st) (showCreditsModal st).

(** The body of the second effect: when a result is on display and the
    mass is not empty, the form is validated and, if it is valid, the
    volume is computed again without the pause. *)
Definition recalculateEffect (st : AppState) : AppState :=
  if showResult st && truthy (FormData.totalMass (formData st)) then
    let (st1, ok) := validateInputs st in
    if ok then calculateWaterVolume true st1 else st1
  else st.

(** The effects that run after a render showing [cur] when the previous
    render showed [prev].  The first effect depends on the crop; the second
    on the crop, the biomass factor and the moisture content.  Both read the
    state of the render they follow; the first updates the form, the second
    the errors, the result and the flags, and the next render shows both
    updates. *)
Definition runEffects (prev cur : AppState) : AppState :=
  let crop_changed :=
    negb (String.eqb (FormData.cropType (formData prev))
                     (FormData.cropType (formData cur))) in
  let refill_changed :=
    crop_changed ||
    negb (String.eqb (FormData.biomassFactor (formData prev))
                     (FormData.biomassFactor (formData cur))) ||
    negb (String.eqb (FormData.moistureContent (formData prev))
                     (FormData.moistureContent (formData cur))) in
  let st2 := if refill_changed then recalculateEffect cur else cur in
  if crop_changed then
    mkAppState (cropChangeEffect (formData cur)) (errors st2) (result st2)
      (isCalculating st2) (showResult st2) (isDropdownOpen st2)
      (showCreditsModal st2)
  else st2.

(** The state once the effects that follow an update of [prev] into [cur]
    have run: the pass after the update and the pass after that one. *)
Definition settle (prev cur : AppState) : AppState :=
  runEffects cur (runEffects prev cur).

(** Choosing a crop from the list, and typing into a field, with the
    effects that follow. *)
Definition chooseCrop (cropId : string) (st : AppState) : AppState :=
  settle st (handleCropTypeChange cropId st).

Definition typeInto (field : Field.t) (value : string) (st : AppState)
  : AppState :=
  settle st (handleInputChange field value st).

(** What the results card shows: the formatted result when there is one
    to show, and the invitation to calculate otherwise ([None]). *)
Definition resultCard (st : AppState) : option string :=
  match result st with
  | Some r => if showResult st then Some (formatResult r) else None
  | None => None
  end.

(** Finite numbers: the zeros and the numbers with a mantissa. *)
Definition is_finite (x : number) : bool :=
  match x with
  | S754_zero _ | S754_finite _ _ _ => true
  | _ => false
  end.

(** A zero of either sign, or NaN. *)
Definition zero_or_nan (x : number) : bool :=
  match x with
  | S754_zero _ | S754_nan => true
  | _ => false
  end.

(** ** What can happen while a calculation pauses *)

(** The controls that stay live during the pause: the six inputs, the
    entries of the crop list, the button that opens and closes the list and
    the two buttons of the credits.  The Calculate button is disabled while
    [isCalculating] holds, so no second run starts. *)
Inductive Action : Type :=
| TypeInto (field : Field.t) (value : string)
| ChooseCrop (cropId : string)
| ToggleDropdown
| OpenCredits
| CloseCredits.

Definition act (a : Action) (st : AppState) : AppState :=
  match a with
  | TypeInto field value => typeInto field value st
  | ChooseCrop cropId => chooseCrop cropId st
  | ToggleDropdown =>
      mkAppState (formData st) (errors st) (result st) (isCalculating st)
        (showResult st) (negb (isDropdownOpen st)) (showCreditsModal st)
  | OpenCredits =>
      mkAppState (formData st) (errors st) (result st) (isCalculating st)
        (showResult st) (isDropdownOpen st) true
  | CloseCredits =>
      mkAppState (formData st) (errors st) (result st) (isCalculating st)
        (showResult st) (isDropdownOpen st) false
  end.

Definition perform (actions : list Action) (st : AppState) : AppState :=
  fold_left (fun s a => act a s) actions st.

(** A click on Calculate, [calculateWaterVolume(false)], with what the
    user does during its pause. *)
Definition clickCalculate (pause : list Action) (st : AppState) : AppState :=
  calculateWaterVolume_with (perform pause) false st.

(** ** The numbers as rationals *)

(** The rational number that a finite number stands for (zero for the
    zeros; the infinities and NaN stand for none and are given zero). *)
Definition value (x : number) : Q :=
  match x with
  | S754_finite s m e =>
      (inject_Z (if s then Zneg m else Zpos m) * 2 ^ e)%Q
  | _ => 0%Q
  end.

(** The unit in the last place of a finite number: the weight of the last
    bit of its mantissa, which for a zero is that of the least exponent. *)
Definition ulp (x : number) : Q :=
  match x with
  | S754_finite _ _ e => (2 ^ e)%Q
  | _ => (2 ^ (-1074))%Q
  end.

(** The formula of the specification over the rationals, where nothing is
    rounded. *)
Definition exactVolume
    (totalMassKg biomassFactor lossFractionPercent processingFactor
     moistureContentPercent recoveryEfficiencyPercent : Q) : Q :=
  (totalMassKg * biomassFactor * (1 - lossFractionPercent / 100)
   * processingFactor * (moistureContentPercent / 100)
   * (recoveryEfficiencyPercent / 100) / 1)%Q.

(** ** Facts about the binary64 model *)

Section Rounding.

Lemma digits2_pos_bounds (p : positive) :
  2 ^ (Zpos (digits2_pos p) - 1) <= Zpos p < 2 ^ Zpos (digits2_pos p).
Proof.
  induction p as [p IH | p IH | ]; cbn [digits2_pos].
  - rewrite Pos2Z.inj_succ.
    replace (Z.succ (Zpos (digits2_pos p)) - 1) with (Z.succ (Zpos (digits2_pos p) - 1)) by lia.
    rewrite !Z.pow_succ_r by lia. lia.
  - rewrite Pos2Z.inj_succ.
    replace (Z.succ (Zpos (digits2_pos p)) - 1) with (Z.succ (Zpos (digits2_pos p) - 1)) by lia.
    rewrite !Z.pow_succ_r by lia. lia.
  - cbn. lia.
Qed.

Lemma Zdigits2_bounds (m : Z) :
  0 < m -> 2 ^ (Zdigits2 m - 1) <= m < 2 ^ Zdigits2 m.
Proof.
  destruct m as [ | p | p ]; try lia. intros _. apply digits2_pos_bounds.
Qed.

Lemma Zdigits2_nonneg (m : Z) : 0 <= Zdigits2 m.
Proof. destruct m; cbn; lia. Qed.

(** A number below [2^k] has at most [k] binary digits. *)
Lemma Zdigits2_le (m k : Z) : 0 <= k -> 0 <= m < 2 ^ k -> Zdigits2 m <= k.
Proof.
  intros Hk [H0 Hm].
  destruct (Z.eq_dec m 0) as [-> | Hne]; [cbn; lia | ].
  destruct (Zdigits2_bounds m ltac:(lia)) as [Hlo _].
  destruct (Z_le_gt_dec (Zdigits2 m) k) as [ | Hgt]; [assumption | exfalso].
  assert (2 ^ k <= 2 ^ (Zdigits2 m - 1)) by (apply Z.pow_le_mono_r; lia).
  lia.
Qed.

(** A number from [2^k] on has more than [k] binary digits. *)
Lemma Zdigits2_gt (m k : Z) : 0 <= k -> 2 ^ k <= m -> k < Zdigits2 m.
Proof.
  intros Hk Hm.
  assert (0 < 2 ^ k) by (apply Z.pow_pos_nonneg; lia).
  destruct (Zdigits2_bounds m ltac:(lia)) as [_ Hhi].
  destruct (Z_lt_le_dec k (Zdigits2 m)) as [ | Hle]; [assumption | exfalso].
  assert (2 ^ Zdigits2 m <= 2 ^ k)
    by (apply Z.pow_le_mono_r; [lia | assumption]).
  lia.
Qed.

Lemma shr_1_m (mrs : shr_record) :
  0 <= shr_m mrs -> shr_m (shr_1 mrs) = shr_m mrs / 2.
Proof.
  destruct mrs as [m r s]; cbn [shr_m].
  destruct m as [ | [p | p | ] | p ]; intros H; cbn [shr_1 shr_m]; try lia.
  all: destruct r, s; cbn [shr_m orb]; try reflexivity.
  all: try rewrite (Pos2Z.inj_xI p); try rewrite (Pos2Z.inj_xO p).
  all: first [ apply Z.div_unique with (r := 1); lia
             | apply Z.div_unique with (r := 0); lia ].
Qed.

Lemma iter_shr_1_m (p : positive) :
  forall mrs, 0 <= shr_m mrs ->
    shr_m (iter_pos shr_1 p mrs) = shr_m mrs / 2 ^ Zpos p.
Proof.
  assert (Hnn : forall mrs, 0 <= shr_m mrs -> 0 <= shr_m (shr_1 mrs)).
  { intros mrs H. rewrite shr_1_m by assumption.
    apply Z.div_pos; lia. }
  induction p as [p IH | p IH | ]; intros mrs H; cbn [iter_pos].
  - assert (H1 := Hnn _ H).
    assert (0 <= shr_m (iter_pos shr_1 p (shr_1 mrs))).
    { rewrite IH by assumption. apply Z.div_pos; [assumption | ].
      apply Z.pow_pos_nonneg; lia. }
    rewrite IH, IH, shr_1_m by assumption.
    rewrite !Z.div_div by (try apply Z.pow_pos_nonneg; lia).
    f_equal. rewrite (Pos2Z.inj_xI p), Z.pow_add_r, Z.pow_twice_r by lia.
    change (2 ^ 1) with 2. ring.
  - assert (0 <= shr_m (iter_pos shr_1 p mrs)).
    { rewrite IH by assumption. apply Z.div_pos; [assumption | ].
      apply Z.pow_pos_nonneg; lia. }
    rewrite IH, IH by assumption.
    rewrite !Z.div_div by (try apply Z.pow_pos_nonneg; lia).
    f_equal. rewrite (Pos2Z.inj_xO p), Z.pow_twice_r. ring.
  - rewrite shr_1_m by assumption. reflexivity.
Qed.

Lemma shr_record_of_loc_m (m : Z) (l : location) :
  shr_m (shr_record_of_loc m l) = m.
Proof. destruct l as [ | [ | | ] ]; reflexivity. Qed.

Lemma shr_fexp_shifted (m e : Z) (l : location) :
  0 <= m ->
  let n := fexp prec emax (Zdigits2 m + e) - e in
  (shr_m (fst (shr_fexp prec emax m e l)), snd (shr_fexp prec emax m e l))
  = shifted m e n.
Proof.
  intros Hm n. unfold shr_fexp, shr, shifted. fold n.
  destruct n as [ | p | p ]; cbn [fst snd Z.ltb Z.compare].
  - now rewrite shr_record_of_loc_m.
  - rewrite iter_shr_1_m by (now rewrite shr_record_of_loc_m).
    now rewrite shr_record_of_loc_m.
  - now rewrite shr_record_of_loc_m.
Qed.

Lemma round_nearest_even_bounds (m : Z) (l : location) :
  m <= round_nearest_even m l <= m + 1.
Proof.
  destruct l as [ | [ | | ] ]; cbn; try lia. destruct (Z.even m); lia.
Qed.

End Rounding.

Section RoundingShape.

Lemma shifted_nonneg (m e n : Z) : 0 <= m -> 0 <= fst (shifted m e n).
Proof.
  intros H. unfold shifted. destruct (0 <? n) eqn:Hn; cbn [fst]; [ | assumption].
  apply Z.div_pos; [assumption | apply Z.pow_pos_nonneg; lia].
Qed.

(** What [binary_round_aux] returns on a non-negative mantissa: the
    mantissa is shifted to its exponent, moved up by at most one, and
    shifted again. *)
Lemma binary_round_aux_shape (sx : bool) (mx ex : Z) (lx : location) :
  0 <= mx ->
  exists m2 : Z,
    let s1 := shifted mx ex (fexp prec emax (Zdigits2 mx + ex) - ex) in
    let s3 := shifted m2 (snd s1)
                (fexp prec emax (Zdigits2 m2 + snd s1) - snd s1) in
    fst s1 <= m2 <= fst s1 + 1 /\
    binary_round_aux prec emax sx mx ex lx =
      match fst s3 with
      | Z0 => S754_zero sx
      | Zpos m =>
          if snd s3 <=? emax - prec then S754_finite sx m (snd s3)
          else S754_infinity sx
      | Zneg _ => S754_nan
      end.
Proof.
  intros Hm. unfold binary_round_aux.
  pose proof (shr_fexp_shifted mx ex lx Hm) as H1. cbv zeta in H1.
  destruct (shr_fexp prec emax mx ex lx) as [mrs' e'] eqn:E1.
  cbn [fst snd] in H1.
  set (m2 := round_nearest_even (shr_m mrs') (loc_of_shr_record mrs')).
  exists m2. cbv zeta. rewrite <- H1. cbn [fst snd].
  pose proof (round_nearest_even_bounds (shr_m mrs') (loc_of_shr_record mrs'))
    as Hb. fold m2 in Hb. split; [exact Hb | ].
  assert (0 <= shr_m mrs').
  { change (shr_m mrs') with (fst (shr_m mrs', e')). rewrite H1.
    now apply shifted_nonneg. }
  pose proof (shr_fexp_shifted m2 e' loc_Exact ltac:(lia)) as H3.
  cbv zeta in H3.
  destruct (shr_fexp prec emax m2 e' loc_Exact) as [mrs'' e''] eqn:E3.
  cbn [fst snd] in H3. rewrite <- H3. cbn [fst snd].
  reflexivity.
Qed.

(** The sign of a rounded value is the sign asked for; a non-negative
    mantissa never rounds to NaN. *)
Lemma binary_round_aux_sign (sx : bool) (mx ex : Z) (lx : location) :
  0 <= mx ->
  match binary_round_aux prec emax sx mx ex lx with
  | S754_nan => False
  | S754_zero s | S754_infinity s | S754_finite s _ _ => s = sx
  end.
Proof.
  intros Hm.
  destruct (binary_round_aux_shape sx mx ex lx Hm) as [m2 [Hb ->]].
  cbv zeta in *.
  set (s1 := shifted mx ex _) in *. set (s3 := shifted m2 _ _) in *.
  assert (0 <= fst s1) by (now apply shifted_nonneg).
  assert (0 <= fst s3) by (apply shifted_nonneg; lia).
  destruct (fst s3); try reflexivity; try lia.
  now destruct (snd s3 <=? emax - prec).
Qed.

(** The mantissa of a rounded value has at most [prec] bits. *)
Lemma binary_round_aux_mantissa (sx : bool) (mx ex : Z) (lx : location) :
  0 <= mx ->
  forall s m e,
    binary_round_aux prec emax sx mx ex lx = S754_finite s m e ->
    Zpos m < 2 ^ prec.
Proof.
  intros Hm s m e.
  destruct (binary_round_aux_shape sx mx ex lx Hm) as [m2 [Hb ->]].
  cbv zeta in *.
  set (s1 := shifted mx ex _) in *.
  assert (H1 : 0 <= fst s1) by (now apply shifted_nonneg).
  generalize (snd s1). intros e1.
  unfold shifted at 1 2 3.
  set (n := fexp prec emax (Zdigits2 m2 + e1) - e1).
  assert (Hn : Zdigits2 m2 - prec <= n) by (unfold n, fexp; lia).
  destruct (0 <? n) eqn:En; cbn [fst snd].
  - apply Z.ltb_lt in En.
    destruct (m2 / 2 ^ n) eqn:Eq; try discriminate.
    destruct (_ <=? _); try discriminate.
    intros [= _ <- _]. rewrite <- Eq.
    assert (0 < m2).
    { destruct (Z.eq_dec m2 0) as [-> | ]; [ | lia].
      rewrite Z.div_0_l in Eq by (apply Z.pow_nonzero; lia). discriminate. }
    destruct (Zdigits2_bounds m2 ltac:(lia)) as [_ Hhi].
    apply Z.div_lt_upper_bound; [apply Z.pow_pos_nonneg; lia | ].
    rewrite <- Z.pow_add_r by (unfold prec; lia).
    eapply Z.lt_le_trans; [exact Hhi | ].
    apply Z.pow_le_mono_r; lia.
  - apply Z.ltb_ge in En.
    destruct m2 eqn:Em; try discriminate.
    destruct (_ <=? _); try discriminate.
    intros [= _ <- _].
    destruct (Zdigits2_bounds (Zpos p) ltac:(lia)) as [_ Hhi].
    eapply Z.lt_le_trans; [exact Hhi | ].
    apply Z.pow_le_mono_r; lia.
Qed.

End RoundingShape.

Section RoundingBound.

Lemma pow2_split (a b : Z) : 0 <= a -> 0 <= b -> 2 ^ (a + b) = 2 ^ a * 2 ^ b.
Proof. intros. now apply Z.pow_add_r. Qed.

(** Shifting to the exponent of the format keeps a bound by a power of
    two that the format can hold. *)
Lemma shifted_bound (m e k : Z) :
  emin prec emax <= k -> e <= k -> 0 <= m <= 2 ^ (k - e) ->
  let s := shifted m e (fexp prec emax (Zdigits2 m + e) - e) in
  snd s <= k /\ 0 <= fst s <= 2 ^ (k - snd s) /\
  (m < 2 ^ (k - e) -> fst s < 2 ^ (k - snd s)).
Proof.
  intros Hk He [H0 Hm] s. subst s. unfold shifted.
  set (n := fexp prec emax (Zdigits2 m + e) - e).
  destruct (0 <? n) eqn:En; cbn [fst snd]; [ | repeat split; auto; lia].
  apply Z.ltb_lt in En.
  assert (Hd : Zdigits2 m <= k - e + 1).
  { apply Zdigits2_le; [lia | split; [assumption | ] ].
    rewrite pow2_split by lia. change (2 ^ 1) with 2.
    assert (0 < 2 ^ (k - e)) by (apply Z.pow_pos_nonneg; lia). lia. }
  assert (Hn : e + n <= k).
  { unfold n, fexp, emin, prec, emax in *. lia. }
  assert (Hp : 0 < 2 ^ n) by (apply Z.pow_pos_nonneg; lia).
  assert (Hs : 2 ^ (k - e) = 2 ^ n * 2 ^ (k - (e + n))).
  { rewrite <- pow2_split by lia. f_equal. lia. }
  repeat split.
  - exact Hn.
  - apply Z.div_pos; lia.
  - apply Z.div_le_upper_bound; [exact Hp | lia].
  - intros Hlt. apply Z.div_lt_upper_bound; [exact Hp | lia].
Qed.

(** A value below [2^k] rounds to a value that is at most [2^k]; in
    particular it is finite. *)
Lemma binary_round_aux_le_pow2 (sx : bool) (mx ex : Z) (lx : location)
      (k : Z) :
  emin prec emax <= k <= emax - prec ->
  ex <= k -> 0 <= mx < 2 ^ (k - ex) ->
  match binary_round_aux prec emax sx mx ex lx with
  | S754_zero s => s = sx
  | S754_finite s m e => s = sx /\ e <= k /\ Zpos m <= 2 ^ (k - e)
  | _ => False
  end.
Proof.
  intros [Hk Hk'] He [H0 Hm].
  destruct (binary_round_aux_shape sx mx ex lx H0) as [m2 [Hb ->]].
  cbv zeta in *.
  destruct (shifted_bound mx ex k Hk He ltac:(lia)) as (He1 & Hm1 & Hlt).
  cbv zeta in *. specialize (Hlt Hm).
  set (s1 := shifted mx ex _) in *.
  destruct (shifted_bound m2 (snd s1) k Hk He1 ltac:(lia)) as (He3 & Hm3 & _).
  cbv zeta in *.
  set (s3 := shifted m2 _ _) in *.
  destruct (fst s3) eqn:E3; try reflexivity; try lia.
  replace (snd s3 <=? emax - prec) with true
    by (symmetry; apply Z.leb_le; lia).
  repeat split; auto; lia.
Qed.

End RoundingBound.

Section Signs.

Lemma binary_round_aux_nonneg (mx ex : Z) (lx : location) :
  0 <= mx ->
  nonneg_or_nan (binary_round_aux prec emax false mx ex lx) = true.
Proof.
  intros H. pose proof (binary_round_aux_sign false mx ex lx H) as Hs.
  destruct (binary_round_aux prec emax false mx ex lx);
    cbn; subst; auto.
Qed.

Lemma div_exponent_le (m1 e1 m2 e2 : Z) :
  div_exponent m1 e1 m2 e2 <= e1 - e2.
Proof. unfold div_exponent. apply Z.le_min_r. Qed.

Lemma SFdiv_core_binary_spec (m1 e1 m2 e2 : Z) :
  0 <= m1 -> 0 < m2 ->
  exists l : location,
    SFdiv_core_binary prec emax m1 e1 m2 e2
    = (m1 * 2 ^ (e1 - e2 - div_exponent m1 e1 m2 e2) / m2,
       div_exponent m1 e1 m2 e2, l).
Proof.
  intros H1 H2. unfold SFdiv_core_binary.
  fold (div_exponent m1 e1 m2 e2).
  pose proof (div_exponent_le m1 e1 m2 e2) as He.
  set (e' := div_exponent m1 e1 m2 e2) in *.
  set (m' := match e1 - e2 - e' with
             | Zpos _ => Z.shiftl m1 (e1 - e2 - e')
             | Z0 => m1
             | Zneg _ => 0
             end).
  assert (Hm' : m' = m1 * 2 ^ (e1 - e2 - e')).
  { unfold m'. destruct (e1 - e2 - e') as [ | p | p ] eqn:E.
    - change (2 ^ 0) with 1. lia.
    - rewrite Z.shiftl_mul_pow2 by lia. reflexivity.
    - exfalso. lia. }
  rewrite <- Hm'. unfold Z.div.
  destruct (Z.div_eucl m' m2) as [q r]. eexists. reflexivity.
Qed.

Lemma SFdiv_core_binary_nonneg (m1 e1 m2 e2 : Z) :
  0 <= m1 -> 0 < m2 ->
  0 <= fst (fst (SFdiv_core_binary prec emax m1 e1 m2 e2)).
Proof.
  intros H1 H2.
  destruct (SFdiv_core_binary_spec m1 e1 m2 e2 H1 H2) as [l ->].
  cbn [fst].
  apply Z.div_pos; [ | assumption].
  apply Z.mul_nonneg_nonneg; [assumption | ].
  apply Z.pow_nonneg; lia.
Qed.

Lemma mul_nonneg (x y : number) :
  nonneg_or_nan x = true -> nonneg_or_nan y = true ->
  nonneg_or_nan (mul x y) = true.
Proof.
  destruct x as [sx | sx | | sx mx ex], y as [sy | sy | | sy my ey];
    cbn; intros Hx Hy; try reflexivity; try discriminate;
    repeat match goal with
           | H : negb ?s = true |- _ => apply negb_true_iff in H; subst s
           end; cbn; try reflexivity.
  apply binary_round_aux_nonneg. lia.
Qed.

(** Division by a positive finite number. *)
Lemma div_nonneg (x : number) (my : positive) (ey : Z) :
  nonneg_or_nan x = true ->
  nonneg_or_nan (div x (S754_finite false my ey)) = true.
Proof.
  destruct x as [sx | sx | | sx mx ex];
    cbn; intros Hx; try reflexivity; try discriminate;
    repeat match goal with
           | H : negb ?s = true |- _ => apply negb_true_iff in H; subst s
           end; cbn; try reflexivity.
  pose proof (SFdiv_core_binary_nonneg (Zpos mx) ex (Zpos my) ey
                ltac:(lia) ltac:(lia)) as Hq.
  destruct (SFdiv_core_binary prec emax (Zpos mx) ex (Zpos my) ey)
    as [[q e'] l].
  cbn [fst] in Hq. apply binary_round_aux_nonneg. exact Hq.
Qed.

Lemma nonneg_or_nan_ge_0 (x : number) :
  nonneg_or_nan x = true -> isNaN x = true \/ ge x (of_Z 0) = true.
Proof.
  destruct x as [s | s | | s m e]; cbn; intros H; auto;
    apply negb_true_iff in H; subst; cbn; auto.
Qed.

End Signs.

Section Parsing.

Lemma of_decimal_nonneg (m e : Z) :
  nonneg_or_nan (of_decimal false m e) = true.
Proof.
  unfold of_decimal. destruct m as [ | p | p ]; try reflexivity.
  destruct (0 <=? e) eqn:He; [ | apply Z.leb_gt in He].
  - unfold binary_round.
    destruct (shl_align _ _ _) as [mz ez].
    apply binary_round_aux_nonneg. lia.
  - pose proof (SFdiv_core_binary_nonneg (Zpos p) 0 (10 ^ (- e)) 0
                  ltac:(lia) ltac:(apply Z.pow_pos_nonneg; lia)) as Hq.
    destruct (SFdiv_core_binary _ _ _ _ _ _) as [[q e'] l].
    apply binary_round_aux_nonneg. exact Hq.
Qed.

(** A decimal is read as a number of the sign written, never as NaN. *)
Lemma of_decimal_sign (sg : bool) (m e : Z) :
  match of_decimal sg m e with
  | S754_nan => False
  | S754_zero s | S754_infinity s | S754_finite s _ _ => s = sg
  end.
Proof.
  unfold of_decimal. destruct m as [ | p | p ]; try reflexivity.
  destruct (0 <=? e) eqn:He; [ | apply Z.leb_gt in He].
  - unfold binary_round.
    destruct (shl_align _ _ _) as [mz ez].
    apply binary_round_aux_sign. lia.
  - pose proof (SFdiv_core_binary_nonneg (Zpos p) 0 (10 ^ (- e)) 0
                  ltac:(lia) ltac:(apply Z.pow_pos_nonneg; lia)) as Hq.
    destruct (SFdiv_core_binary _ _ _ _ _ _) as [[q e'] l].
    apply binary_round_aux_sign. exact Hq.
Qed.

Lemma of_decimal_mantissa (sg : bool) (m e : Z) :
  forall s' m' e',
    of_decimal sg m e = S754_finite s' m' e' -> Zpos m' < 2 ^ prec.
Proof.
  unfold of_decimal. destruct m as [ | p | p ]; try discriminate.
  destruct (0 <=? e) eqn:He; [ | apply Z.leb_gt in He].
  - unfold binary_round.
    destruct (shl_align _ _ _) as [mz ez].
    apply binary_round_aux_mantissa. lia.
  - pose proof (SFdiv_core_binary_nonneg (Zpos p) 0 (10 ^ (- e)) 0
                  ltac:(lia) ltac:(apply Z.pow_pos_nonneg; lia)) as Hq.
    destruct (SFdiv_core_binary _ _ _ _ _ _) as [[q e'] l].
    apply binary_round_aux_mantissa. exact Hq.
Qed.

(** What [parseFloat] can return. *)
Lemma parseFloat_cases (input : string) :
  parseFloat input = S754_nan \/
  (exists sg, parseFloat input = S754_infinity sg) \/
  (exists sg m e, parseFloat input = of_decimal sg m e).
Proof.
  unfold parseFloat.
  destruct (scan_sign (trimStart input)) as [sg s1].
  destruct (String.prefix "Infinity" s1); [right; left; eauto | ].
  destruct (scan_digits s1 0 0) as [[ip ni] s2].
  destruct (match s2 with
            | String "." s' => scan_digits s' ip 0
            | _ => (ip, 0, s2)
            end) as [[m nf] s3].
  destruct ((ni =? 0) && (nf =? 0)); [left; reflexivity | ].
  right; right; eauto.
Qed.

Lemma parseFloat_mantissa (input : string) :
  forall s m e, parseFloat input = S754_finite s m e -> Zpos m < 2 ^ prec.
Proof.
  intros s m e H.
  destruct (parseFloat_cases input) as [E | [[sg E] | [sg [m0 [e0 E]]]]];
    rewrite E in H; try discriminate.
  eapply of_decimal_mantissa; eassumption.
Qed.

End Parsing.

Section Constants.

Lemma of_Z_0 : of_Z 0 = S754_zero false.
Proof. reflexivity. Qed.

Lemma of_Z_1 : of_Z 1 = S754_finite false 4503599627370496 (-52).
Proof. vm_compute. reflexivity. Qed.

Lemma of_Z_100 : of_Z 100 = S754_finite false 7036874417766400 (-46).
Proof. vm_compute. reflexivity. Qed.

Lemma of_Z_1000 : of_Z 1000 = S754_finite false 8796093022208000 (-43).
Proof. vm_compute. reflexivity. Qed.

End Constants.

Section Percentages.

Lemma iter_xO_pow2 (m d : positive) :
  Zpos (Pos.iter xO m d) = Zpos m * 2 ^ Zpos d.
Proof.
  induction d as [ | d IH ] using Pos.peano_ind.
  - cbn [Pos.iter]. rewrite (Pos2Z.inj_xO m). change (2 ^ 1) with 2. lia.
  - rewrite Pos.iter_succ, (Pos2Z.inj_xO (Pos.iter xO m d)), IH.
    rewrite Pos2Z.inj_succ, Z.pow_succ_r by lia. ring.
Qed.

Lemma shl_align_fst (mx : positive) (ex ez : Z) :
  ez <= ex -> Zpos (fst (shl_align mx ex ez)) = Zpos mx * 2 ^ (ex - ez).
Proof.
  intros H. unfold shl_align.
  destruct (ez - ex) as [ | d | d ] eqn:E; cbn [fst].
  - replace (ex - ez) with 0 by lia. change (2 ^ 0) with 1. lia.
  - exfalso. lia.
  - replace (ex - ez) with (Zpos d) by lia. apply iter_xO_pow2.
Qed.

Lemma binary_normalize_nonneg (z e : Z) :
  0 <= z -> nonneg_or_nan (binary_normalize prec emax z e false) = true.
Proof.
  intros H. destruct z as [ | p | p ]; try lia; cbn [binary_normalize].
  - reflexivity.
  - unfold binary_round. destruct (shl_align _ _ _) as [mz ez].
    apply binary_round_aux_nonneg. lia.
Qed.

(** A number that the percentage check accepts is a zero, or positive
    and at most 100. *)
Lemma percent_ok_cases (s : string) :
  percent_fails s = false ->
  (exists sg, parseFloat s = S754_zero sg) \/
  (exists m e, parseFloat s = S754_finite false m e /\
               Zpos m < 2 ^ prec /\
               (e < -46 \/ (e = -46 /\ Zpos m <= 7036874417766400))).
Proof.
  unfold percent_fails.
  pose proof (parseFloat_mantissa s) as Hm.
  rewrite of_Z_0, of_Z_100.
  destruct (parseFloat s) as [sg | sg | | sg m e].
  - eauto.
  - destruct sg; discriminate.
  - discriminate.
  - destruct sg; [discriminate | ].
    intros H. apply orb_false_iff in H. destruct H as [_ H].
    right. exists m, e. split; [reflexivity | ].
    split; [eapply Hm; reflexivity | ].
    unfold gt, SFltb, SFcompare in H.
    destruct (Z.compare_spec (-46) e) as [E | E | E].
    + right. split; [now symmetry | ].
      change (Pos.compare_cont Eq 7036874417766400 m)
        with (Pos.compare 7036874417766400 m) in H.
      destruct (Pos.compare_spec 7036874417766400 m) as [C | C | C];
        try discriminate H.
      * rewrite <- C. apply Z.le_refl.
      * apply Z.lt_le_incl. exact C.
    + discriminate H.
    + left. exact E.
Qed.

(** A hundredth of such a number is at most one. *)
Lemma div_100_le_1 (m : positive) (e : Z) :
  Zpos m < 2 ^ prec ->
  e < -46 \/ (e = -46 /\ Zpos m <= 7036874417766400) ->
  match div (S754_finite false m e) (of_Z 100) with
  | S754_zero s => s = false
  | S754_finite s m' e' => s = false /\ e' <= 0 /\ Zpos m' <= 2 ^ (0 - e')
  | _ => False
  end.
Proof.
  intros Hm He. rewrite of_Z_100.
  destruct (Z.eq_dec e (-46)) as [E46 | E46];
    [destruct (Pos.eq_dec m 7036874417766400) as [Em | Em] | ].
  - subst. vm_compute. repeat split; discriminate.
  - unfold div, SFdiv.
    destruct (SFdiv_core_binary_spec (Zpos m) e 7036874417766400 (-46)
                ltac:(lia) ltac:(lia)) as [l ->].
    pose proof (div_exponent_le (Zpos m) e 7036874417766400 (-46)) as He'.
    set (e' := div_exponent _ _ _ _) in *. clearbody e'.
    set (t := e - -46 - e') in *.
    assert (Ht : 0 <= t) by (unfold t; lia).
    assert (Hp : 0 < 2 ^ t) by (apply Z.pow_pos_nonneg; lia).
    cbn [xorb].
    apply binary_round_aux_le_pow2;
      [unfold emin, prec, emax; lia | lia | ].
    split.
    { apply Z.div_pos; [ | lia]. apply Z.mul_nonneg_nonneg; lia. }
    apply Z.div_lt_upper_bound; [lia | ].
    replace (0 - e') with t by (unfold t; lia).
    assert (Zpos m < 7036874417766400) by lia.
    apply Z.mul_lt_mono_pos_r; assumption.
  - assert (He46 : e < -46) by lia.
    unfold div, SFdiv.
    destruct (SFdiv_core_binary_spec (Zpos m) e 7036874417766400 (-46)
                ltac:(lia) ltac:(lia)) as [l ->].
    pose proof (div_exponent_le (Zpos m) e 7036874417766400 (-46)) as He'.
    set (e' := div_exponent _ _ _ _) in *. clearbody e'.
    set (t := e - -46 - e') in *.
    assert (Ht : 0 <= t) by (unfold t; lia).
    assert (Hp : 0 < 2 ^ t) by (apply Z.pow_pos_nonneg; lia).
    cbn [xorb].
    apply binary_round_aux_le_pow2;
      [unfold emin, prec, emax; lia | lia | ].
    split.
    { apply Z.div_pos; [ | lia]. apply Z.mul_nonneg_nonneg; lia. }
    apply Z.div_lt_upper_bound; [lia | ].
    replace (0 - e') with (t + (-46 - e)) by (unfold t; lia).
    rewrite pow2_split by lia.
    assert (Hu : 2 ^ 1 <= 2 ^ (-46 - e)) by (apply Z.pow_le_mono_r; lia).
    change (2 ^ 1) with 2 in Hu.
    assert (Hm2 : Zpos m < 2 * 7036874417766400).
    { unfold prec in Hm. change (2 ^ 53) with 9007199254740992 in Hm.
      lia. }
    generalize dependent (2 ^ t). generalize dependent (2 ^ (-46 - e)).
    intros; nia.
Qed.

(** One minus a number that is at most one is not negative. *)
Lemma sub_1_nonneg (x : number) :
  match x with
  | S754_zero _ => True
  | S754_finite s m e => s = false /\ e <= 0 /\ Zpos m <= 2 ^ (0 - e)
  | _ => False
  end ->
  nonneg_or_nan (sub (of_Z 1) x) = true.
Proof.
  rewrite of_Z_1.
  destruct x as [s | s | | s m e]; try contradiction; [reflexivity | ].
  intros (-> & He & Hm). unfold sub, SFsub. cbn [cond_Zopp].
  apply binary_normalize_nonneg.
  set (ez := Z.min (-52) e).
  rewrite !shl_align_fst by (unfold ez; lia).
  assert (H1 : 4503599627370496 * 2 ^ (-52 - ez) = 2 ^ (0 - ez)).
  { change 4503599627370496 with (2 ^ 52).
    rewrite <- pow2_split by (unfold ez; lia). f_equal. lia. }
  rewrite H1.
  assert (H2 : 2 ^ (0 - ez) = 2 ^ (0 - e) * 2 ^ (e - ez)).
  { rewrite <- pow2_split by (unfold ez; lia). f_equal. lia. }
  rewrite H2.
  assert (0 <= 2 ^ (e - ez)) by (apply Z.pow_nonneg; lia).
  nia.
Qed.

Lemma one_minus_percent_nonneg (s : string) :
  percent_fails s = false ->
  nonneg_or_nan (sub (of_Z 1) (div (parseFloat s) (of_Z 100))) = true.
Proof.
  intros H. apply sub_1_nonneg.
  destruct (percent_ok_cases s H) as [[sg ->] | (m & e & -> & Hm & He)].
  - rewrite of_Z_100. exact I.
  - pose proof (div_100_le_1 m e Hm He) as Hd.
    destruct (div _ _); auto.
Qed.

Lemma percent_nonneg (s : string) :
  percent_fails s = false ->
  nonneg_or_nan (div (parseFloat s) (of_Z 100)) = true.
Proof.
  intros H. rewrite of_Z_100. apply div_nonneg.
  destruct (percent_ok_cases s H) as [[sg ->] | (m & e & -> & _)];
    reflexivity.
Qed.

Lemma positive_nonneg (s : string) :
  positive_fails s = false -> nonneg_or_nan (parseFloat s) = true.
Proof.
  unfold positive_fails. rewrite of_Z_0.
  destruct (parseFloat s) as [sg | sg | | sg m e]; cbn; try discriminate;
    destruct sg; cbn; (discriminate || reflexivity).
Qed.

End Percentages.

(** ** Validation *)

Section Validation.

(** Each entry of [newErrors] is decided by the text of its own field. *)
Lemma newErrors_fields (fd : FormData.t) :
  newErrors fd =
  ValidationErrors.mk
    (if totalMass_fails (FormData.totalMass fd)
     then Some "Please enter a valid positive mass value" else None)
    (if percent_fails (FormData.lossFraction fd)
     then Some "Loss fraction must be between 0 and 100%" else None)
    (if positive_fails (FormData.processingFactor fd)
     then Some "Processing factor must be a positive number" else None)
    (if percent_fails (FormData.moistureContent fd)
     then Some "Moisture content must be between 0 and 100%" else None)
    (if percent_fails (FormData.recoveryEfficiency fd)
     then Some "Recovery efficiency must be between 0 and 100%" else None)
    (if positive_fails (FormData.biomassFactor fd)
     then Some "Biomass factor must be a positive number" else None).
Proof.
  cbv beta delta [newErrors].
  generalize (totalMass_fails (FormData.totalMass fd)),
    (percent_fails (FormData.lossFraction fd)),
    (positive_fails (FormData.processingFactor fd)),
    (percent_fails (FormData.moistureContent fd)),
    (percent_fails (FormData.recoveryEfficiency fd)),
    (positive_fails (FormData.biomassFactor fd)).
  intros [ | ] [ | ] [ | ] [ | ] [ | ] [ | ]; vm_compute; reflexivity.
Qed.

(** [validateInputs] answers [true] exactly when none of the six checks
    fails. *)
Lemma validateInputs_true (st : AppState) :
  snd (validateInputs st) = true <->
  totalMass_fails (FormData.totalMass (formData st)) = false /\
  percent_fails (FormData.lossFraction (formData st)) = false /\
  positive_fails (FormData.processingFactor (formData st)) = false /\
  percent_fails (FormData.moistureContent (formData st)) = false /\
  percent_fails (FormData.recoveryEfficiency (formData st)) = false /\
  positive_fails (FormData.biomassFactor (formData st)) = false.
Proof.
  unfold validateInputs. cbn [snd]. rewrite newErrors_fields.
  unfold ValidationErrors.keys. cbn [ValidationErrors.totalMass
    ValidationErrors.lossFraction ValidationErrors.processingFactor
    ValidationErrors.moistureContent ValidationErrors.recoveryEfficiency
    ValidationErrors.biomassFactor].
  destruct (totalMass_fails _), (percent_fails (FormData.lossFraction _)),
    (positive_fails (FormData.processingFactor _)),
    (percent_fails (FormData.moistureContent _)),
    (percent_fails (FormData.recoveryEfficiency _)),
    (positive_fails (FormData.biomassFactor _));
    cbn; split; intros H; try discriminate H;
    repeat match goal with
           | H : _ /\ _ |- _ => destruct H
           end; try discriminate; repeat split; reflexivity.
Qed.

Lemma calculateWaterVolume_valid (skipAnimation : bool) (st : AppState) :
  snd (validateInputs st) = true ->
  calculateWaterVolume skipAnimation st =
  mkAppState (formData st) (newErrors (formData st))
    (Some (waterVolume (formData st))) false true
    (isDropdownOpen st) (showCreditsModal st).
Proof.
  unfold calculateWaterVolume, calculateWaterVolume_with.
  destruct (validateInputs st) as [st1 ok] eqn:E. cbn [snd].
  intros ->. cbn [negb].
  unfold validateInputs in E. injection E as <- _.
  destruct skipAnimation; reflexivity.
Qed.

Lemma calculateWaterVolume_invalid (skipAnimation : bool) (st : AppState) :
  snd (validateInputs st) = false ->
  calculateWaterVolume skipAnimation st = fst (validateInputs st).
Proof.
  unfold calculateWaterVolume, calculateWaterVolume_with.
  destruct (validateInputs st) as [st1 ok]. cbn [fst snd].
  intros ->. reflexivity.
Qed.

Lemma totalMass_nonneg (s : string) :
  totalMass_fails s = false -> nonneg_or_nan (parseFloat s) = true.
Proof.
  unfold totalMass_fails. intros H. apply positive_nonneg.
  unfold positive_fails.
  destruct (negb (truthy s)); [discriminate | exact H].
Qed.

(** The volume computed from a valid form is not negative. *)
Lemma waterVolume_nonneg (fd : FormData.t) :
  totalMass_fails (FormData.totalMass fd) = false ->
  percent_fails (FormData.lossFraction fd) = false ->
  positive_fails (FormData.processingFactor fd) = false ->
  percent_fails (FormData.moistureContent fd) = false ->
  percent_fails (FormData.recoveryEfficiency fd) = false ->
  positive_fails (FormData.biomassFactor fd) = false ->
  nonneg_or_nan (waterVolume fd) = true.
Proof.
  intros HM HL HE HMC HR HF. unfold waterVolume, WATER_DENSITY.
  rewrite of_Z_1. apply div_nonneg. rewrite <- of_Z_1.
  repeat apply mul_nonneg.
  - now apply totalMass_nonneg.
  - now apply positive_nonneg.
  - now apply one_minus_percent_nonneg.
  - now apply positive_nonneg.
  - now apply percent_nonneg.
  - now apply percent_nonneg.
Qed.

End Validation.

(** ** Comparisons *)

Section Comparisons.

Lemma SFcompare_antisym (x y : number) :
  SFcompare y x = option_map CompOpp (SFcompare x y).
Proof.
  destruct x as [sx | sx | | sx mx ex], y as [sy | sy | | sy my ey];
    try reflexivity;
    try (destruct sx; reflexivity); try (destruct sy; reflexivity);
    try (destruct sx, sy; reflexivity).
  unfold SFcompare.
  change (Pos.compare_cont Eq my mx) with (Pos.compare my mx).
  change (Pos.compare_cont Eq mx my) with (Pos.compare mx my).
  rewrite (Z.compare_antisym ex ey), (Pos.compare_antisym mx my).
  destruct sx, sy; cbn [option_map]; try reflexivity;
    destruct (ex ?= ey); reflexivity.
Qed.

(** Among numbers, [x <= y] fails exactly when [y < x]. *)
Lemma le_negb_lt (x y : number) :
  isNaN x = false -> isNaN y = false -> le x y = negb (lt y x).
Proof.
  intros Hx Hy. unfold le, lt, SFleb, SFltb.
  rewrite (SFcompare_antisym x y).
  destruct (SFcompare x y) as [[ | | ] | ] eqn:E; try reflexivity.
  destruct x, y; try discriminate;
    repeat match goal with
           | s : bool |- _ => destruct s
           end; discriminate.
Qed.

Lemma lt_negb_le (x y : number) :
  isNaN x = false -> isNaN y = false -> lt x y = negb (le y x).
Proof.
  intros Hx Hy. rewrite (le_negb_lt y x Hy Hx). now rewrite negb_involutive.
Qed.

(** The positivity check, as a range. *)
Lemma positive_fails_range (s : string) :
  positive_fails s = negb (lt (of_Z 0) (parseFloat s)).
Proof.
  unfold positive_fails.
  destruct (isNaN (parseFloat s)) eqn:E.
  - destruct (parseFloat s); try discriminate. reflexivity.
  - cbn [orb]. now rewrite (le_negb_lt _ (of_Z 0) E eq_refl).
Qed.

(** The percentage check, as a range. *)
Lemma percent_fails_range (s : string) :
  percent_fails s =
  negb (le (of_Z 0) (parseFloat s) && le (parseFloat s) (of_Z 100)).
Proof.
  unfold percent_fails, gt.
  destruct (isNaN (parseFloat s)) eqn:E.
  - destruct (parseFloat s); try discriminate. reflexivity.
  - cbn [orb].
    rewrite (le_negb_lt (of_Z 0) _ eq_refl E).
    rewrite (le_negb_lt _ (of_Z 100) E eq_refl).
    now rewrite negb_andb, !negb_involutive.
Qed.

Lemma totalMass_fails_range (s : string) :
  totalMass_fails s = negb (truthy s && lt (of_Z 0) (parseFloat s)).
Proof.
  unfold totalMass_fails.
  rewrite <- orb_assoc. fold (positive_fails s).
  rewrite positive_fails_range. now rewrite negb_andb.
Qed.

End Comparisons.

(** ** Text in fixed notation *)

Section FixedNotation.

Lemma all_digits_app (a b : string) :
  all_digits (a ++ b) = all_digits a && all_digits b.
Proof.
  induction a as [ | c a IH ]; cbn [append all_digits]; [reflexivity | ].
  now rewrite IH, andb_assoc.
Qed.

Lemma all_digits_zeros (n : nat) : all_digits (zeros n) = true.
Proof. induction n as [ | n IH ]; cbn; [reflexivity | exact IH]. Qed.

Lemma length_app (a b : string) :
  String.length (a ++ b) = (String.length a + String.length b)%nat.
Proof.
  induction a as [ | c a IH ]; cbn [append String.length plus];
    [reflexivity | now rewrite IH].
Qed.

Lemma length_zeros (n : nat) : String.length (zeros n) = n.
Proof. induction n as [ | n IH ]; cbn; [reflexivity | now rewrite IH]. Qed.

Lemma all_digits_substring (s : string) :
  all_digits s = true ->
  forall n m, all_digits (substring n m s) = true.
Proof.
  induction s as [ | c s IH ]; intros H n m.
  - destruct n, m; reflexivity.
  - cbn [all_digits] in H. apply andb_true_iff in H. destruct H as [Hc Hs].
    destruct n as [ | n ]; cbn [substring].
    + destruct m as [ | m ]; [reflexivity | ].
      cbn [all_digits]. rewrite Hc. cbn [andb]. now apply IH.
    + now apply IH.
Qed.

Lemma length_substring (s : string) :
  forall n m, (n + m <= String.length s)%nat ->
              String.length (substring n m s) = m.
Proof.
  induction s as [ | c s IH ]; intros n m H; cbn [String.length] in H.
  - destruct n, m; cbn in *; try reflexivity; lia.
  - destruct n as [ | n ]; cbn [substring].
    + destruct m as [ | m ]; [reflexivity | ].
      cbn [String.length]. f_equal. apply (IH 0%nat). cbn. lia.
    + apply IH. lia.
Qed.

Lemma all_digits_string_of_uint (u : Decimal.uint) :
  all_digits (NilEmpty.string_of_uint u) = true.
Proof. induction u; cbn; auto. Qed.

Lemma string_of_uint_nonempty (u : Decimal.uint) :
  u <> Decimal.Nil -> NilEmpty.string_of_uint u <> "".
Proof. destruct u; cbn; congruence. Qed.

(** The digits of a number are digits, and there is at least one. *)
Lemma digits_all_digits (n : Z) : all_digits (digits n) = true.
Proof. apply all_digits_string_of_uint. Qed.

Lemma digits_nonempty (n : Z) : digits n <> "".
Proof.
  unfold digits. apply string_of_uint_nonempty.
  destruct (Z.to_N n) as [ | p ]; cbn [N.to_uint]; [discriminate | ].
  apply DecimalPos.Unsigned.to_uint_nonnil.
Qed.

Lemma unsigned_fixed_digits (d : nat) (a r : string) :
  all_digits a = true ->
  forall seen,
    unsigned_fixed d seen (a ++ r)
    = unsigned_fixed d (seen || negb (String.eqb a "")) r.
Proof.
  induction a as [ | c a IH ]; intros H seen.
  - cbn. now rewrite orb_false_r.
  - cbn [all_digits] in H. apply andb_true_iff in H. destruct H as [Hc Ha].
    cbn [append unsigned_fixed]. rewrite Hc, (IH Ha).
    cbn. now rewrite orb_true_r.
Qed.

(** A digit is not the minus sign. *)
Lemma fixed_notation_unsigned (d : nat) (c : ascii) (s : string) :
  is_digit c = true ->
  fixed_notation d (String c s) = unsigned_fixed d false (String c s).
Proof.
  destruct c as [[ | ] [ | ] [ | ] [ | ] [ | ] [ | ] [ | ] [ | ]];
    intros H; try discriminate H; reflexivity.
Qed.

(** The shape of the digits that [toFixed] prints. *)
Lemma fixed_digits_shape (num den : Z) (f : nat) :
  exists a b : string,
    fixed_digits num den f
    = a ++ match f with O => "" | S _ => "." ++ b end /\
    all_digits a = true /\ a <> "" /\
    all_digits b = true /\ String.length b = f.
Proof.
  unfold fixed_digits.
  set (m := digits ((2 * num + den) / (2 * den))).
  assert (Hm : all_digits m = true) by apply digits_all_digits.
  assert (Hn : m <> "") by apply digits_nonempty.
  destruct f as [ | f ].
  - exists m, "". repeat split; auto.
    clear. induction m; cbn; congruence.
  - set (m' := if (String.length m <=? S f)%nat
               then zeros (S f + 1 - String.length m) ++ m else m).
    assert (Hm' : all_digits m' = true).
    { unfold m'. destruct (_ <=? _)%nat; [ | exact Hm].
      now rewrite all_digits_app, all_digits_zeros. }
    assert (Hl : (S f + 1 <= String.length m')%nat).
    { unfold m'. destruct (Nat.leb_spec (String.length m) (S f)).
      - rewrite length_app, length_zeros. lia.
      - lia. }
    exists (substring 0 (String.length m' - S f) m'),
           (substring (String.length m' - S f) (S f) m').
    repeat split.
    + now apply all_digits_substring.
    + intros E.
      assert (L : String.length
                    (substring 0 (String.length m' - S f) m')
                  = (String.length m' - S f)%nat)
        by (apply length_substring; lia).
      rewrite E in L. cbn in L. lia.
    + now apply all_digits_substring.
    + apply length_substring. lia.
Qed.

Lemma fixed_notation_shape (d : nat) (a b : string) (sg : bool) :
  all_digits a = true -> a <> "" ->
  all_digits b = true -> String.length b = d ->
  fixed_notation d
    ((if sg then "-" else "") ++
     a ++ match d with O => "" | S _ => "." ++ b end) = true.
Proof.
  intros Ha Hn Hb Hl.
  assert (U : unsigned_fixed d false
                (a ++ match d with O => "" | S _ => "." ++ b end) = true).
  { rewrite (unsigned_fixed_digits d a _ Ha).
    assert (E : String.eqb a "" = false) by (now apply String.eqb_neq).
    rewrite E. cbn [orb negb].
    destruct d as [ | d ]; [reflexivity | ].
    cbn [append unsigned_fixed]. cbn [is_digit digit_val].
    change (is_digit ".") with false. cbn iota.
    rewrite Hb, Hl, Nat.eqb_refl. reflexivity. }
  destruct sg.
  - exact U.
  - cbn [append]. destruct a as [ | c a ]; [congruence | ].
    cbn [all_digits] in Ha. apply andb_true_iff in Ha.
    cbn [append] in *. rewrite fixed_notation_unsigned by tauto. exact U.
Qed.

(** [toFixed] prints a zero or a finite number of magnitude below
    [10^21] in fixed notation. *)
Lemma toFixed_fixed (x : number) (f : nat) :
  match x with
  | S754_zero _ => True
  | S754_finite s m e =>
      le (of_decimal false 1 21) (S754_finite false m e) = false
  | _ => False
  end ->
  fixed_notation f (toFixed x f) = true.
Proof.
  destruct x as [s | s | | s m e]; try contradiction; intros H;
    unfold toFixed.
  - destruct (fixed_digits_shape 0 1 f) as (a & b & -> & Ha & Hn & Hb & Hl).
    exact (fixed_notation_shape f a b false Ha Hn Hb Hl).
  - rewrite H.
    destruct (fixed_digits_shape (scaled_num (Zpos m) e (Z.of_nat f))
                (scaled_den e (Z.of_nat f)) f)
      as (a & b & -> & Ha & Hn & Hb & Hl).
    exact (fixed_notation_shape f a b s Ha Hn Hb Hl).
Qed.

End FixedNotation.

(** ** The order of the numbers *)

Section Order.

Lemma SFcompare_lex (x y : number) :
  SFcompare x y =
  match key x, key y with
  | Some a, Some b => Some (lex a b)
  | _, _ => None
  end.
Proof.
  destruct x as [sx | sx | | sx mx ex], y as [sy | sy | | sy my ey];
    try reflexivity;
    try (destruct sx; reflexivity); try (destruct sy; reflexivity);
    try (destruct sx, sy; reflexivity).
  unfold SFcompare, key, lex.
  destruct sx, sy; try reflexivity.
  rewrite Z.compare_opp, (Z.compare_antisym ex ey).
  change (Z.neg mx ?= Z.neg my) with (CompOpp (Pos.compare mx my)).
  change (Pos.compare_cont Eq mx my) with (Pos.compare mx my).
  change (-1 ?= -1) with Eq.
  destruct (ex ?= ey); reflexivity.
Qed.

Lemma lex_trans (a b c : Z * Z * Z) :
  lex a b <> Gt -> lex b c = Lt -> lex a c = Lt.
Proof.
  destruct a as [[a1 a2] a3], b as [[b1 b2] b3], c as [[c1 c2] c3].
  unfold lex.
  destruct (Z.compare_spec a1 b1), (Z.compare_spec b1 c1),
    (Z.compare_spec a1 c1); try congruence; try lia;
    destruct (Z.compare_spec a2 b2), (Z.compare_spec b2 c2),
    (Z.compare_spec a2 c2); try congruence; try lia;
    destruct (Z.compare_spec a3 b3), (Z.compare_spec b3 c3),
    (Z.compare_spec a3 c3); try congruence; lia.
Qed.

Lemma le_lt_trans (x y z : number) :
  le x y = true -> lt y z = true -> lt x z = true.
Proof.
  unfold le, lt, SFleb, SFltb. rewrite !SFcompare_lex.
  destruct (key x) as [a | ], (key y) as [b | ], (key z) as [c | ];
    try discriminate.
  intros H1 H2.
  assert (Hab : lex a b <> Gt) by (destruct (lex a b); congruence).
  assert (Hbc : lex b c = Lt) by (destruct (lex b c); congruence).
  now rewrite (lex_trans a b c Hab Hbc).
Qed.

Lemma le_true_numbers (x y : number) :
  le x y = true -> isNaN x = false /\ isNaN y = false.
Proof.
  unfold le, SFleb. rewrite SFcompare_lex.
  destruct x, y; cbn; try discriminate; auto.
Qed.

Lemma lt_true_numbers (x y : number) :
  lt x y = true -> isNaN x = false /\ isNaN y = false.
Proof.
  unfold lt, SFltb. rewrite SFcompare_lex.
  destruct x, y; cbn; try discriminate; auto.
Qed.

Lemma lt_asym (x y : number) : lt x y = true -> lt y x = false.
Proof.
  unfold lt, SFltb. rewrite (SFcompare_antisym x y).
  destruct (SFcompare x y) as [[ | | ] | ]; cbn; congruence.
Qed.

(** From a number on, nothing is below a smaller number. *)
Lemma le_not_lt_below (c d v : number) :
  lt c d = true -> le d v = true -> lt v c = false.
Proof.
  intros Hcd Hdv.
  destruct (lt v c) eqn:E; [ | reflexivity].
  pose proof (le_lt_trans d v c Hdv E) as H.
  rewrite (lt_asym c d Hcd) in H. discriminate.
Qed.

(** Two positive finite numbers compare by exponent, then mantissa. *)
Lemma lt_finite_pos (m1 m2 : positive) (e1 e2 : Z) :
  lt (S754_finite false m1 e1) (S754_finite false m2 e2) = true <->
  e1 < e2 \/ (e1 = e2 /\ Zpos m1 < Zpos m2).
Proof.
  unfold lt, SFltb. rewrite SFcompare_lex. cbn [key]. unfold lex.
  change (1 ?= 1) with Eq.
  destruct (Z.compare_spec e1 e2);
    destruct (Z.compare_spec (Zpos m1) (Zpos m2));
    split; intros H'; try discriminate H'; try reflexivity; lia.
Qed.

Lemma le_finite_pos (m1 m2 : positive) (e1 e2 : Z) :
  le (S754_finite false m1 e1) (S754_finite false m2 e2) = true <->
  e1 < e2 \/ (e1 = e2 /\ Zpos m1 <= Zpos m2).
Proof.
  unfold le, SFleb. rewrite SFcompare_lex. cbn [key]. unfold lex.
  change (1 ?= 1) with Eq.
  destruct (Z.compare_spec e1 e2);
    destruct (Z.compare_spec (Zpos m1) (Zpos m2));
    split; intros H'; try discriminate H'; try reflexivity; lia.
Qed.

End Order.

(** ** The bands of [formatResult] *)

Section Bands.

Lemma lit_0_001 :
  of_decimal false 1 (-3) = S754_finite false 4611686018427388 (-62).
Proof. vm_compute. reflexivity. Qed.

Lemma lit_1e21 :
  of_decimal false 1 21 = S754_finite false 7629394531250000 17.
Proof. vm_compute. reflexivity. Qed.

(** A canonical finite number: at most 53 bits, and exactly 53 unless
    the exponent is the least one. *)
Lemma wf_finite (s : bool) (m : positive) (e : Z) :
  wf (S754_finite s m e) = true ->
  Zpos m < 2 ^ 53 /\ (e = -1074 \/ 2 ^ 52 <= Zpos m) /\ -1074 <= e <= 971.
Proof.
  unfold wf, valid_binary, bounded, canonical_mantissa. intros H.
  apply andb_true_iff in H. destruct H as [H1 H2].
  apply Z.eqb_eq in H1. apply Z.leb_le in H2.
  destruct (digits2_pos_bounds m) as [Hlo Hhi].
  unfold fexp, emin, prec, emax in H1, H2.
  set (d := Zpos (digits2_pos m)) in *.
  assert (Hd : d <= 53) by lia.
  split.
  { eapply Z.lt_le_trans; [exact Hhi | ].
    apply Z.pow_le_mono_r; [lia | exact Hd]. }
  split.
  - destruct (Z.eq_dec e (-1074)) as [ | Hne]; [now left | right].
    assert (E : d = 53) by lia.
    rewrite E in Hlo. exact Hlo.
  - clear Hlo Hhi. lia.
Qed.

Lemma lt_le_incl (x y : number) : lt x y = true -> le x y = true.
Proof.
  unfold lt, le, SFltb, SFleb.
  destruct (SFcompare x y) as [[ | | ] | ]; congruence.
Qed.

Lemma lt_trans (x y z : number) :
  lt x y = true -> lt y z = true -> lt x z = true.
Proof. intros H. apply le_lt_trans. now apply lt_le_incl. Qed.

(** What is not below a number that is not negative is itself not
    negative. *)
Lemma le_nonneg (c v : number) :
  nonneg_or_nan c = true -> le c v = true -> nonneg_or_nan v = true.
Proof.
  destruct c as [sc | sc | | sc mc ec], v as [sv | sv | | sv mv ev];
    cbn; try reflexivity; try discriminate;
    intros Hc H; try (apply negb_true_iff in Hc; subst sc);
    destruct sv; try reflexivity; try discriminate;
    destruct sc; discriminate.
Qed.

Lemma nonneg_le_0 (v : number) :
  nonneg_or_nan v = true -> isNaN v = false -> le (of_Z 0) v = true.
Proof.
  rewrite of_Z_0.
  destruct v as [s | s | | s m e]; cbn; intros H1 H2;
    try discriminate; try reflexivity;
    apply negb_true_iff in H1; subst s; reflexivity.
Qed.

Lemma toFixed_fixed_nonneg (x : number) (f : nat) :
  nonneg_or_nan x = true -> lt x (of_decimal false 1 21) = true ->
  fixed_notation f (toFixed x f) = true.
Proof.
  intros Hn Hlt. apply toFixed_fixed. rewrite lit_1e21 in *.
  destruct x as [s | s | | s m e]; try exact I.
  - destruct s; discriminate.
  - discriminate.
  - cbn in Hn. apply negb_true_iff in Hn. subst s.
    destruct (lt_true_numbers _ _ Hlt) as [H1 H2].
    rewrite (le_negb_lt _ _ H2 H1), Hlt. reflexivity.
Qed.

(** A thousand times a number from zero to below one is below 10^21. *)
Lemma mul_1000_small (v : number) :
  wf v = true -> le (of_Z 0) v = true -> lt v (of_Z 1) = true ->
  lt (mul v (of_Z 1000)) (of_decimal false 1 21) = true.
Proof.
  rewrite of_Z_0, of_Z_1, of_Z_1000, lit_1e21.
  destruct v as [s | s | | s m e]; intros Hwf H0 H1;
    try discriminate; try reflexivity.
  - destruct s; discriminate.
  - destruct s; [discriminate | ].
    destruct (wf_finite _ _ _ Hwf) as (Hm & _ & _).
    assert (He : e < -52 \/ (e = -52 /\ Zpos m < 4503599627370496))
      by (now apply lt_finite_pos).
    unfold mul, SFmul. cbn [xorb].
    pose proof (binary_round_aux_le_pow2 false
                  (Zpos (m * 8796093022208000)) (e + -43) loc_Exact 10)
      as B.
    assert (Hb : 0 <= Zpos (m * 8796093022208000) < 2 ^ (10 - (e + -43))).
    { split; [lia | ].
      rewrite Pos2Z.inj_mul.
      destruct He as [He | [He Hm52]].
      - replace (10 - (e + -43)) with (106 + (-53 - e)) by lia.
        rewrite pow2_split by lia.
        assert (1 <= 2 ^ (-53 - e))
          by (apply (Z.pow_le_mono_r 2 0); lia).
        change (2 ^ 53) with 9007199254740992 in Hm.
        change (2 ^ 106) with (9007199254740992 * 9007199254740992).
        generalize dependent (2 ^ (-53 - e)). intros; nia.
      - subst e.
        change (2 ^ (10 - (-52 + -43)))
          with (4503599627370496 * 9007199254740992).
        clear Hm. nia. }
    specialize (B ltac:(unfold emin, prec, emax; lia) ltac:(lia) Hb).
    destruct (binary_round_aux _ _ _ _ _ _) as [s' | s' | | s' m' e'];
      try contradiction.
    + reflexivity.
    + destruct B as (-> & He' & _).
      unfold lt, SFltb, SFcompare.
      apply lt_finite_pos. left. lia.
Qed.

End Bands.

(** ** Just below one litre *)

Section NearOne.

Lemma lit_0_9995 :
  of_decimal false 9995 (-4) = S754_finite false 9002695655113622 (-53).
Proof. vm_compute. reflexivity. Qed.

(** A thousand times a number from 0.9995 to below 1 is a number from
    999.5 to 1000. *)
Lemma mul_1000_near_one (m : positive) :
  9002695655113622 <= Zpos m < 9007199254740992 ->
  exists p : positive,
    mul (S754_finite false m (-53)) (of_Z 1000) = S754_finite false p (-43) /\
    8791694975696896 <= Zpos p <= 8796093022208000.
Proof.
  intros [Hlo Hhi]. rewrite of_Z_1000. unfold mul, SFmul. cbn [xorb].
  destruct (binary_round_aux_shape false (Zpos (m * 8796093022208000))
              (-53 + -43) loc_Exact ltac:(lia)) as [m2 [Hb ->]].
  cbv zeta in Hb |- *.
  rewrite Pos2Z.inj_mul in *.
  set (M := Zpos m * 8796093022208000) in *.
  assert (HM : 2 ^ 105 <= M < 2 ^ 106).
  { change (2 ^ 105) with 40564819207303340847894502572032.
    change (2 ^ 106) with 81129638414606681695789005144064.
    unfold M. lia. }
  assert (Hd : Zdigits2 M = 106).
  { assert (L : Zdigits2 M <= 106) by (apply Zdigits2_le; lia).
    assert (G : 105 < Zdigits2 M) by (apply Zdigits2_gt; lia).
    clear - L G. lia. }
  rewrite Hd in *.
  change (fexp prec emax (106 + (-53 + -43)) - (-53 + -43)) with 53 in *.
  assert (Hs : shifted M (-53 + -43) 53 = (M / 2 ^ 53, -43))
    by reflexivity.
  rewrite Hs in *. cbn [fst snd] in *.
  assert (H1 : 8791694975696896 <= M / 2 ^ 53 < 8796093022208000).
  { change (2 ^ 53) with 9007199254740992. split.
    - apply Z.div_le_lower_bound; unfold M; lia.
    - apply Z.div_lt_upper_bound; unfold M; lia. }
  assert (H2 : 2 ^ 52 <= m2 < 2 ^ 53).
  { change (2 ^ 52) with 4503599627370496.
    change (2 ^ 53) with 9007199254740992. lia. }
  assert (Hd2 : Zdigits2 m2 = 53).
  { assert (L : Zdigits2 m2 <= 53) by (apply Zdigits2_le; lia).
    assert (G : 52 < Zdigits2 m2) by (apply Zdigits2_gt; lia).
    clear - L G. lia. }
  rewrite Hd2.
  change (fexp prec emax (53 + -43) - -43) with 0.
  unfold shifted. change (0 <? 0) with false. cbn [fst snd].
  destruct m2 as [ | p | p ]; try lia.
  exists p. split; [reflexivity | lia].
Qed.

(** Every volume from 0.9995 to below 1 is shown as 1000 mL. *)
Lemma formatResult_near_one (v : number) :
  wf v = true ->
  le (of_decimal false 9995 (-4)) v = true -> lt v (of_Z 1) = true ->
  formatResult v = "1000 mL".
Proof.
  intros Hwf Hlo Hhi.
  unfold formatResult. rewrite Hhi.
  rewrite lit_0_9995 in Hlo. rewrite of_Z_1 in Hhi. rewrite lit_0_001.
  destruct v as [s | s | | s m e]; try discriminate;
    try (destruct s; discriminate).
  destruct s; [discriminate | ].
  apply le_finite_pos in Hlo. apply lt_finite_pos in Hhi.
  destruct (wf_finite _ _ _ Hwf) as (Hm & Hn & _).
  change (2 ^ 53) with 9007199254740992 in Hm.
  change (2 ^ 52) with 4503599627370496 in Hn.
  assert (He : e = -53) by lia. subst e.
  assert (Hm0 : 9002695655113622 <= Zpos m < 9007199254740992) by lia.
  replace (lt (S754_finite false m (-53))
             (S754_finite false 4611686018427388 (-62))) with false.
  2:{ symmetry.
      destruct (lt _ _) eqn:E; [ | reflexivity].
      apply lt_finite_pos in E. lia. }
  destruct (mul_1000_near_one m Hm0) as (p & -> & Hp).
  unfold toFixed. rewrite lit_1e21.
  replace (le (S754_finite false 7629394531250000 17)
             (S754_finite false p (-43))) with false.
  2:{ symmetry.
      destruct (le _ _) eqn:E; [ | reflexivity].
      apply le_finite_pos in E. lia. }
  cbn [append]. unfold fixed_digits.
  change (Z.of_nat 0) with 0.
  change (scaled_den (-43) 0) with 8796093022208.
  replace (scaled_num (Zpos p) (-43) 0) with (Zpos p).
  2:{ unfold scaled_num. change (2 ^ Z.max (-43) 0) with 1.
      change (10 ^ Z.max 0 0) with 1. lia. }
  replace ((2 * Zpos p + 8796093022208) / (2 * 8796093022208)) with 1000.
  - reflexivity.
  - assert (L : 1000 <= (2 * Zpos p + 8796093022208) / (2 * 8796093022208))
      by (apply Z.div_le_lower_bound; lia).
    assert (G : (2 * Zpos p + 8796093022208) / (2 * 8796093022208) < 1001)
      by (apply Z.div_lt_upper_bound; lia).
    clear - L G. lia.
Qed.

End NearOne.

(** ** Rounding yields canonical numbers *)

Section Canonical.

Lemma fexp_eq (x : Z) : fexp prec emax x = Z.max (x - 53) (-1074).
Proof. reflexivity. Qed.

(** The exponent of the format at a mantissa in canonical position. *)
Lemma fexp_in_format (m e : Z) :
0 < m -> in_format (m, e) -> fexp prec emax (Zdigits2 m + e) = e.
Proof.
intros Hm ([_ Hhi] & Hn & He). cbn [fst snd] in *.
assert (L : Zdigits2 m <= 53) by (apply Zdigits2_le; lia).
rewrite fexp_eq.
destruct Hn as [-> | Hn].
- clear - L. lia.
- assert (G : 52 < Zdigits2 m) by (apply Zdigits2_gt; lia).
  clear - L G He. lia.
Qed.

Lemma wf_finite_intro (s : bool) (m : positive) (e : Z) :
in_format (Zpos m, e) -> e <= 971 -> wf (S754_finite s m e) = true.
Proof.
intros H He. unfold wf, valid_binary, bounded, canonical_mantissa.
apply andb_true_iff. split.
- apply Z.eqb_eq.
  exact (fexp_in_format (Zpos m) e ltac:(lia) H).
- apply Z.leb_le. exact He.
Qed.

(** The first shift of [binary_round_aux] puts the mantissa in canonical
  position, provided it does not have to move left. *)
Lemma shifted_in_format (mx ex : Z) :
0 <= mx -> ex <= fexp prec emax (Zdigits2 mx + ex) ->
in_format (shifted mx ex (fexp prec emax (Zdigits2 mx + ex) - ex)).
Proof.
intros Hm Hp. rewrite fexp_eq in *.
set (d := Zdigits2 mx) in *.
assert (Hd0 : 0 <= d) by apply Zdigits2_nonneg.
assert (Hb : mx = 0 /\ d = 0 \/ 0 < mx /\ 2 ^ (d - 1) <= mx < 2 ^ d).
{ destruct (Z.eq_dec mx 0) as [-> | Hne]; [left; now split | right].
  split; [lia | ]. apply Zdigits2_bounds. lia. }
unfold shifted, in_format.
set (e1 := Z.max (d + ex - 53) (-1074)) in *.
destruct (0 <? e1 - ex) eqn:En; cbn [fst snd].
- apply Z.ltb_lt in En.
  assert (Hp2 : 0 < 2 ^ (e1 - ex)) by (apply Z.pow_pos_nonneg; lia).
  replace (ex + (e1 - ex)) with e1 by lia.
  split; [split | split].
  + apply Z.div_pos; lia.
  + apply Z.div_lt_upper_bound; [exact Hp2 | ].
    rewrite <- pow2_split by lia.
    destruct Hb as [[-> _] | [_ [_ Hhi]]].
    * apply Z.pow_pos_nonneg; lia.
    * eapply Z.lt_le_trans; [exact Hhi | ].
      apply Z.pow_le_mono_r; unfold e1; lia.
  + destruct (Z.eq_dec e1 (-1074)) as [ | Hne]; [now left | right].
    assert (E : e1 = d + ex - 53) by (unfold e1 in *; lia).
    destruct Hb as [[_ Hd] | [_ [Hlo _]]]; [unfold e1 in *; lia | ].
    apply Z.div_le_lower_bound; [exact Hp2 | ].
    rewrite <- pow2_split by lia.
    replace (e1 - ex + 52) with (d - 1) by lia. exact Hlo.
  + unfold e1. lia.
- apply Z.ltb_ge in En.
  assert (E : ex = e1) by lia.
  split; [split | split].
  + exact Hm.
  + destruct Hb as [[-> _] | [_ [_ Hhi]]]; [reflexivity | ].
    eapply Z.lt_le_trans; [exact Hhi | ].
    apply Z.pow_le_mono_r; unfold e1 in *; lia.
  + destruct (Z.eq_dec ex (-1074)) as [ | Hne]; [now left | right].
    destruct Hb as [[_ Hd] | [_ [Hlo _]]]; [unfold e1 in *; lia | ].
    assert (Ed : d = 53) by (unfold e1 in *; lia).
    rewrite Ed in Hlo. exact Hlo.
  + unfold e1 in *. lia.
Qed.

(** Moving up by at most one and shifting again keeps the position. *)
Lemma shifted_again_in_format (m1 e1 m2 : Z) :
in_format (m1, e1) -> m1 <= m2 <= m1 + 1 ->
in_format (shifted m2 e1 (fexp prec emax (Zdigits2 m2 + e1) - e1)).
Proof.
intros H Hb. pose proof H as ([H0 Hhi] & Hn & He). cbn [fst snd] in *.
change (2 ^ 53) with 9007199254740992 in *.
change (2 ^ 52) with 4503599627370496 in *.
destruct (Z.eq_dec m2 9007199254740992) as [-> | Hne].
- change (Zdigits2 9007199254740992) with 54.
  rewrite fexp_eq. replace (Z.max (54 + e1 - 53) (-1074)) with (e1 + 1) by lia.
  replace (e1 + 1 - e1) with 1 by lia.
  unfold shifted, in_format. cbn [Z.ltb Z.compare fst snd].
  change (9007199254740992 / 2 ^ 1) with 4503599627370496.
  change (2 ^ 53) with 9007199254740992.
  change (2 ^ 52) with 4503599627370496. lia.
- destruct (Z.eq_dec m2 0) as [-> | Hpos].
  + change (Zdigits2 0) with 0. rewrite fexp_eq.
    assert (E : e1 = -1074) by lia. subst e1.
    unfold shifted, in_format. cbn. lia.
  + assert (F : in_format (m2, e1)).
    { unfold in_format. cbn [fst snd].
      change (2 ^ 53) with 9007199254740992.
      change (2 ^ 52) with 4503599627370496. lia. }
    rewrite (fexp_in_format m2 e1 ltac:(lia) F).
    replace (e1 - e1) with 0 by lia. exact F.
Qed.

(** [binary_round_aux] returns a canonical number when its mantissa does
  not have to move left. *)
Lemma binary_round_aux_wf (sx : bool) (mx ex : Z) (lx : location) :
0 <= mx -> ex <= fexp prec emax (Zdigits2 mx + ex) ->
wf (binary_round_aux prec emax sx mx ex lx) = true.
Proof.
intros Hm Hp.
destruct (binary_round_aux_shape sx mx ex lx Hm) as [m2 [Hb ->]].
cbv zeta in Hb |- *.
pose proof (shifted_in_format mx ex Hm Hp) as H1.
destruct (shifted mx ex _) as [m1 e1]. cbn [fst snd] in *.
pose proof (shifted_again_in_format m1 e1 m2 H1 Hb) as H3.
destruct (shifted m2 e1 _) as [m3 e3]. cbn [fst snd] in *.
destruct m3 as [ | p | p ]; try reflexivity.
destruct (e3 <=? emax - prec) eqn:E; [ | reflexivity].
apply Z.leb_le in E. apply wf_finite_intro; [exact H3 | exact E].
Qed.

End Canonical.

(** ** The operators return canonical numbers *)

Section WellFormed.

Lemma Zdigits2_shift (m d : Z) :
0 < m -> 0 <= d -> Zdigits2 (m * 2 ^ d) = Zdigits2 m + d.
Proof.
intros Hm Hd.
destruct (Zdigits2_bounds m Hm) as [Hlo Hhi].
assert (H0 : 0 < Zdigits2 m).
{ destruct m; try lia. cbn. lia. }
assert (Hp : 0 < 2 ^ d) by (apply Z.pow_pos_nonneg; lia).
assert (L : Zdigits2 (m * 2 ^ d) <= Zdigits2 m + d).
{ apply Zdigits2_le; [lia | ]. rewrite pow2_split by lia.
  split; [apply Z.mul_nonneg_nonneg; lia | ].
  apply Z.mul_lt_mono_pos_r; assumption. }
assert (G : Zdigits2 m + d - 1 < Zdigits2 (m * 2 ^ d)).
{ apply Zdigits2_gt; [lia | ].
  replace (Zdigits2 m + d - 1) with (Zdigits2 m - 1 + d) by lia.
  rewrite pow2_split by lia.
  apply Z.mul_le_mono_nonneg_r; [lia | exact Hlo]. }
clear - L G. lia.
Qed.

Lemma fexp_mono (x y : Z) : x <= y -> fexp prec emax x <= fexp prec emax y.
Proof. intros H. rewrite !fexp_eq. lia. Qed.

Lemma binary_round_wf (s : bool) (m : positive) (e : Z) :
wf (binary_round prec emax s m e) = true.
Proof.
unfold binary_round.
set (e' := fexp prec emax (Zpos (digits2_pos m) + e)).
destruct (shl_align m e e') as [mz ez] eqn:E.
apply binary_round_aux_wf; [lia | ].
unfold shl_align in E.
destruct (e' - e) as [ | d | d ] eqn:Ed; injection E as <- <-.
- change (Zdigits2 (Zpos m)) with (Zpos (digits2_pos m)). fold e'. lia.
- change (Zdigits2 (Zpos m)) with (Zpos (digits2_pos m)). fold e'. lia.
- rewrite iter_xO_pow2, Zdigits2_shift by lia.
  change (Zdigits2 (Zpos m)) with (Zpos (digits2_pos m)).
  replace (Zpos (digits2_pos m) + Zpos d + e')
    with (Zpos (digits2_pos m) + e) by lia.
  fold e'. lia.
Qed.

Lemma binary_normalize_wf (z e : Z) (s : bool) :
wf (binary_normalize prec emax z e s) = true.
Proof. destruct z; [reflexivity | | ]; apply binary_round_wf. Qed.

(** The quotient that [SFdiv_core_binary] hands to the rounding does not
  have to move left. *)
Lemma SFdiv_core_binary_position (m1 e1 m2 e2 : Z) :
0 < m1 -> 0 < m2 ->
let q := m1 * 2 ^ (e1 - e2 - div_exponent m1 e1 m2 e2) / m2 in
0 <= q /\
div_exponent m1 e1 m2 e2
<= fexp prec emax (Zdigits2 q + div_exponent m1 e1 m2 e2).
Proof.
intros H1 H2 q.
pose proof (div_exponent_le m1 e1 m2 e2) as Hle.
assert (Hx : div_exponent m1 e1 m2 e2
             <= fexp prec emax (Zdigits2 m1 + e1 - (Zdigits2 m2 + e2)))
  by (unfold div_exponent; apply Z.le_min_l).
set (e' := div_exponent m1 e1 m2 e2) in *. clearbody e'.
set (s := e1 - e2 - e') in *.
assert (Hs : 0 <= s) by (unfold s; lia).
assert (Hp : 0 < 2 ^ s) by (apply Z.pow_pos_nonneg; lia).
destruct (Zdigits2_bounds m1 H1) as [Hlo1 _].
destruct (Zdigits2_bounds m2 H2) as [_ Hhi2].
set (d1 := Zdigits2 m1) in *. set (d2 := Zdigits2 m2) in *.
assert (Hd1 : 0 < d1) by (unfold d1; destruct m1; cbn; lia).
assert (Hd2 : 0 < d2) by (unfold d2; destruct m2; cbn; lia).
assert (Hq : 0 <= q).
{ unfold q. apply Z.div_pos; [ | lia]. apply Z.mul_nonneg_nonneg; lia. }
split; [exact Hq | ].
assert (Hn : m1 * 2 ^ s >= 2 ^ (d1 - 1 + s)).
{ rewrite pow2_split by lia. apply Z.le_ge.
  apply Z.mul_le_mono_nonneg_r; [lia | exact Hlo1]. }
assert (Hk : d1 + s - d2 <= Zdigits2 q).
{ destruct (Z_le_gt_dec 0 (d1 - 1 + s - d2)) as [Hk0 | Hk0].
  - assert (G : d1 - 1 + s - d2 < Zdigits2 q).
    { apply Zdigits2_gt; [exact Hk0 | ].
      unfold q. apply Z.div_le_lower_bound; [exact H2 | ].
      assert (E : 2 ^ (d1 - 1 + s) = 2 ^ d2 * 2 ^ (d1 - 1 + s - d2)).
      { rewrite <- pow2_split by lia. f_equal. lia. }
      assert (0 <= 2 ^ (d1 - 1 + s - d2)) by (apply Z.pow_nonneg; lia).
      rewrite E in Hn.
      generalize dependent (2 ^ (d1 - 1 + s - d2)).
      generalize dependent (2 ^ d2). generalize dependent (m1 * 2 ^ s).
      intros; nia. }
    clear - G. lia.
  - pose proof (Zdigits2_nonneg q). lia. }
eapply Z.le_trans; [exact Hx | ].
apply fexp_mono. unfold s in Hk. lia.
Qed.

Lemma div_wf (x y : number) : wf (div x y) = true.
Proof.
destruct x as [sx | sx | | sx mx ex], y as [sy | sy | | sy my ey];
  try reflexivity.
unfold div, SFdiv.
destruct (SFdiv_core_binary_spec (Zpos mx) ex (Zpos my) ey
            ltac:(lia) ltac:(lia)) as [l ->].
destruct (SFdiv_core_binary_position (Zpos mx) ex (Zpos my) ey
            ltac:(lia) ltac:(lia)) as [Hq Hp].
now apply binary_round_aux_wf.
Qed.

Lemma of_decimal_wf (sg : bool) (m e : Z) : wf (of_decimal sg m e) = true.
Proof.
unfold of_decimal. destruct m as [ | p | p ]; try reflexivity.
destruct (0 <=? e) eqn:He; [apply binary_round_wf | ].
apply Z.leb_gt in He.
assert (Hten : 0 < 10 ^ (- e)) by (apply Z.pow_pos_nonneg; lia).
destruct (SFdiv_core_binary_spec (Zpos p) 0 (10 ^ (- e)) 0
            ltac:(lia) Hten) as [l ->].
destruct (SFdiv_core_binary_position (Zpos p) 0 (10 ^ (- e)) 0
            ltac:(lia) Hten) as [Hq Hp].
now apply binary_round_aux_wf.
Qed.

Lemma parseFloat_wf (input : string) : wf (parseFloat input) = true.
Proof.
destruct (parseFloat_cases input) as [-> | [[sg ->] | [sg [m [e ->]]]]];
  try reflexivity.
apply of_decimal_wf.
Qed.

Lemma mul_wf (x y : number) :
wf x = true -> wf y = true -> wf (mul x y) = true.
Proof.
destruct x as [sx | sx | | sx mx ex], y as [sy | sy | | sy my ey];
  try reflexivity.
intros Hx Hy. unfold mul, SFmul.
apply binary_round_aux_wf; [lia | ].
destruct (wf_finite _ _ _ Hx) as (Hmx & Hnx & Hex).
destruct (wf_finite _ _ _ Hy) as (Hmy & Hny & Hey).
rewrite fexp_eq, Pos2Z.inj_mul.
change (2 ^ 52) with 4503599627370496 in *.
clear Hmx Hmy Hx Hy.
assert (Hd : 0 < Zdigits2 (Zpos mx * Zpos my)).
{ apply (Zdigits2_gt _ 0); lia. }
assert (H52 : Zpos mx >= 4503599627370496 \/ Zpos my >= 4503599627370496 ->
              52 < Zdigits2 (Zpos mx * Zpos my)).
{ intros H. apply Zdigits2_gt; [lia | ].
  change (2 ^ 52) with 4503599627370496. nia. }
assert (H104 : Zpos mx >= 4503599627370496 -> Zpos my >= 4503599627370496 ->
               104 < Zdigits2 (Zpos mx * Zpos my)).
{ intros H H'. apply Zdigits2_gt; [lia | ].
  change (2 ^ 104) with (4503599627370496 * 4503599627370496). nia. }
destruct Hnx as [-> | Hnx], Hny as [-> | Hny].
- lia.
- specialize (H52 ltac:(lia)). lia.
- specialize (H52 ltac:(lia)). lia.
- specialize (H104 ltac:(lia) ltac:(lia)). lia.
Qed.

Lemma sub_wf (x y : number) :
wf x = true -> wf y = true -> wf (sub x y) = true.
Proof.
destruct x as [sx | sx | | sx mx ex], y as [sy | sy | | sy my ey];
  intros Hx Hy; try reflexivity; try assumption;
  try (destruct sx, sy; reflexivity).
apply binary_normalize_wf.
Qed.

(** The volume that the formula yields is a canonical number. *)
Lemma waterVolume_wf (fd : FormData.t) : wf (waterVolume fd) = true.
Proof. apply div_wf. Qed.

End WellFormed.

(** ** Division by one *)

Section DivisionByOne.

Lemma new_location_0 (nb : Z) : new_location nb 0 = loc_Exact.
Proof.
unfold new_location, new_location_even, new_location_odd.
destruct (Z.even nb); reflexivity.
Qed.

(** A quotient without remainder is handed over as exact. *)
Lemma SFdiv_core_binary_exact (m1 e1 m2 e2 q : Z) :
0 < m2 ->
m1 * 2 ^ (e1 - e2 - div_exponent m1 e1 m2 e2) = q * m2 ->
SFdiv_core_binary prec emax m1 e1 m2 e2
= (q, div_exponent m1 e1 m2 e2, loc_Exact).
Proof.
intros H2 Hq. unfold SFdiv_core_binary.
fold (div_exponent m1 e1 m2 e2).
pose proof (div_exponent_le m1 e1 m2 e2) as He.
set (e' := div_exponent m1 e1 m2 e2) in *.
set (m' := match e1 - e2 - e' with
           | Zpos _ => Z.shiftl m1 (e1 - e2 - e')
           | Z0 => m1
           | Zneg _ => 0
           end).
assert (Hm' : m' = q * m2).
{ rewrite <- Hq. unfold m'.
  destruct (e1 - e2 - e') as [ | p | p ] eqn:E.
  - change (2 ^ 0) with 1. lia.
  - rewrite Z.shiftl_mul_pow2 by lia. reflexivity.
  - exfalso. lia. }
rewrite Hm'.
pose proof (Z.div_mul q m2 ltac:(lia)) as Hd.
pose proof (Z.mod_mul q m2 ltac:(lia)) as Hr.
unfold Z.div, Z.modulo in Hd, Hr.
destruct (Z.div_eucl (q * m2) m2) as [q' r']. subst q' r'.
now rewrite new_location_0.
Qed.

(** A mantissa in canonical position that needs no rounding is returned
  as it is. *)
Lemma binary_round_aux_exact (s : bool) (m : positive) (e : Z) :
in_format (Zpos m, e) -> e <= 971 ->
binary_round_aux prec emax s (Zpos m) e loc_Exact = S754_finite s m e.
Proof.
intros H He. unfold binary_round_aux.
assert (S : shr_fexp prec emax (Zpos m) e loc_Exact
            = (Build_shr_record (Zpos m) false false, e)).
{ unfold shr_fexp. rewrite (fexp_in_format (Zpos m) e ltac:(lia) H).
  replace (e - e) with 0 by lia. reflexivity. }
rewrite S. cbn [shr_m loc_of_shr_record round_nearest_even].
rewrite S. cbn [shr_m].
replace (e <=? emax - prec) with true; [reflexivity | ].
symmetry. apply Z.leb_le. exact He.
Qed.

(** Twice a 53-bit mantissa, one exponent lower, is the same number. *)
Lemma binary_round_aux_double (s : bool) (m : positive) (e : Z) :
2 ^ 52 <= Zpos m < 2 ^ 53 -> -1074 < e <= 971 ->
binary_round_aux prec emax s (Zpos m~0) (e - 1) loc_Exact
= S754_finite s m e.
Proof.
intros Hm He.
assert (F : in_format (Zpos m, e)).
{ unfold in_format. cbn [fst snd]. lia. }
assert (D : Zdigits2 (Zpos m~0) = 54).
{ assert (L : Zdigits2 (Zpos m~0) <= 54).
  { apply Zdigits2_le; [lia | ]. rewrite (Pos2Z.inj_xO m).
    change (2 ^ 54) with (2 * 2 ^ 53). lia. }
  assert (G : 53 < Zdigits2 (Zpos m~0)).
  { apply Zdigits2_gt; [lia | ]. rewrite (Pos2Z.inj_xO m).
    change (2 ^ 53) with (2 * 2 ^ 52). lia. }
  clear - L G. lia. }
unfold binary_round_aux.
assert (S : shr_fexp prec emax (Zpos m~0) (e - 1) loc_Exact
            = (Build_shr_record (Zpos m) false false, e)).
{ unfold shr_fexp. rewrite D, fexp_eq.
  replace (Z.max (54 + (e - 1) - 53) (-1074) - (e - 1)) with 1 by lia.
  unfold shr. cbn [iter_pos shr_record_of_loc shr_1 orb].
  f_equal. lia. }
assert (S' : shr_fexp prec emax (Zpos m) e loc_Exact
             = (Build_shr_record (Zpos m) false false, e)).
{ unfold shr_fexp. rewrite (fexp_in_format (Zpos m) e ltac:(lia) F).
  replace (e - e) with 0 by lia. reflexivity. }
rewrite S. cbn [shr_m loc_of_shr_record round_nearest_even].
rewrite S'. cbn [shr_m].
replace (e <=? emax - prec) with true; [reflexivity | ].
symmetry. apply Z.leb_le. unfold emax, prec. lia.
Qed.

(** Dividing a canonical number by one returns it. *)
Lemma div_one (x : number) : wf x = true -> div x (of_Z 1) = x.
Proof.
rewrite of_Z_1.
destruct x as [s | s | | s m e]; intros Hwf; try reflexivity.
- cbn. now rewrite xorb_false_r.
- cbn. now rewrite xorb_false_r.
- destruct (wf_finite _ _ _ Hwf) as (Hm & Hn & He).
  unfold div, SFdiv. rewrite xorb_false_r.
  assert (Hd : Zdigits2 (Zpos m) <= 53) by (apply Zdigits2_le; lia).
  destruct (Z.eq_dec e (-1074)) as [-> | Hne].
  + assert (E : div_exponent (Zpos m) (-1074) 4503599627370496 (-52)
                = -1074).
    { unfold div_exponent. rewrite fexp_eq.
      change (Zdigits2 4503599627370496) with 53. lia. }
    rewrite (SFdiv_core_binary_exact _ _ _ _ (Zpos m)); rewrite ?E.
    * apply binary_round_aux_exact; [ | lia].
      unfold in_format. cbn [fst snd]. lia.
    * lia.
    * change (2 ^ (-1074 - -52 - -1074)) with 4503599627370496. lia.
  + assert (Hm52 : 2 ^ 52 <= Zpos m) by (destruct Hn; [lia | assumption]).
    assert (G : 52 < Zdigits2 (Zpos m)) by (apply Zdigits2_gt; lia).
    assert (E : div_exponent (Zpos m) e 4503599627370496 (-52) = e - 1).
    { unfold div_exponent. rewrite fexp_eq.
      change (Zdigits2 4503599627370496) with 53. lia. }
    rewrite (SFdiv_core_binary_exact _ _ _ _ (Zpos m~0)); rewrite ?E.
    * apply binary_round_aux_double; lia.
    * lia.
    * replace (e - -52 - (e - 1)) with 53 by lia.
      rewrite (Pos2Z.inj_xO m).
      change (2 ^ 53) with (2 * 4503599627370496). lia.
Qed.

End DivisionByOne.

(** ** The calculation *)

Lemma waterVolume_is_formula (fd : FormData.t) :
  waterVolume fd =
  waterVolumeLiters
    (parseFloat (FormData.totalMass fd))
    (parseFloat (FormData.biomassFactor fd))
    (parseFloat (FormData.lossFraction fd))
    (parseFloat (FormData.processingFactor fd))
    (parseFloat (FormData.moistureContent fd))
    (parseFloat (FormData.recoveryEfficiency fd)).
Proof. reflexivity. Qed.

(** The product of the formula is a canonical number, so dividing it by
    the density 1 returns it. *)
Lemma waterVolumeLiters_is_product
      (totalMassKg biomassFactor lossFractionPercent processingFactor
       moistureContentPercent recoveryEfficiencyPercent : number) :
  wf totalMassKg = true -> wf biomassFactor = true ->
  wf processingFactor = true ->
  waterVolumeLiters totalMassKg biomassFactor lossFractionPercent
    processingFactor moistureContentPercent recoveryEfficiencyPercent
  = mul (mul (mul (mul (mul totalMassKg biomassFactor)
                       (sub (of_Z 1) (div lossFractionPercent (of_Z 100))))
                  processingFactor)
             (div moistureContentPercent (of_Z 100)))
        (div recoveryEfficiencyPercent (of_Z 100)).
Proof.
  intros HM HF HE. unfold waterVolumeLiters, waterDensity.
  apply div_one.
  repeat apply mul_wf; try assumption; try apply div_wf.
  apply sub_wf; [ | apply div_wf].
  rewrite of_Z_1. reflexivity.
Qed.

(** C9, as the code has it.  For every form that passes [validateInputs]
    the value that [calculateWaterVolume] stores is never negative: it is
    NaN, or it compares greater than or equal to zero (a zero, a positive
    number or [+Infinity]). *)
Theorem calculate_never_negative (skipAnimation : bool) (st : AppState) :
  snd (validateInputs st) = true ->
  exists v : number,
    result (calculateWaterVolume skipAnimation st) = Some v /\
    (isNaN v = true \/ ge v (of_Z 0) = true).
Proof.
  intros Hv. exists (waterVolume (formData st)). split.
  - rewrite (calculateWaterVolume_valid skipAnimation st Hv). reflexivity.
  - apply nonneg_or_nan_ge_0.
    apply validateInputs_true in Hv.
    destruct Hv as (HM & HL & HE & HMC & HR & HF).
    now apply waterVolume_nonneg.
Qed.

Lemma calculate_never_negative_witness :
  snd (validateInputs (scenario "100")) = true /\
  exists v : number,
    result (calculateWaterVolume false (scenario "100")) = Some v /\
    (isNaN v = true \/ ge v (of_Z 0) = true).
Proof.
  split; [vm_compute; reflexivity | ].
  apply (calculate_never_negative false (scenario "100")).
  vm_compute; reflexivity.
Defined.

(** C9, as stated, fails.  The form with mass 1e308, biomass factor 1e308
    and loss fraction 100 passes [validateInputs]; the product of the first
    two overflows to [+Infinity], one minus the loss fraction is zero, and
    their product, which is stored, is NaN: it is not greater than or equal
    to zero. *)
Lemma calculate_overflow_is_NaN :
  let st := mkAppState
              (FormData.mk "tunisian-olive" "1e308" "100" "1.0" "72.5" "50"
                 "1e308")
              ValidationErrors.empty None false false false false in
  snd (validateInputs st) = true /\
  result (calculateWaterVolume false st) = Some S754_nan /\
  ge S754_nan (of_Z 0) = false.
Proof. vm_compute. repeat split; reflexivity. Qed.

(** C4, as the code has it.  With the Tunisian-olive defaults and mass
    100 the stored volume is the number 5.075 and is shown as [5.08 L];
    with mass 10 the stored volume is 0.5075000000000001, the binary64
    number next above 0.5075, and is shown as [508 mL]. *)
Theorem scenarios_1_and_2 :
  result (calculateWaterVolume false (scenario "100"))
    = Some (of_decimal false 5075 (-3)) /\
  formatResult (of_decimal false 5075 (-3)) = "5.08 L" /\
  result (calculateWaterVolume false (scenario "10"))
    = Some (of_decimal false 5075000000000001 (-16)) /\
  toString (of_decimal false 5075000000000001 (-16)) = "0.5075000000000001" /\
  of_decimal false 5075000000000001 (-16)
    = S754_finite false 4571153621781054 (-53) /\
  of_decimal false 5075 (-4) = S754_finite false 4571153621781053 (-53) /\
  formatResult (of_decimal false 5075000000000001 (-16)) = "508 mL".
Proof. vm_compute. repeat split; reflexivity. Qed.

(** C4, as stated, fails in its second half: with mass 10 the stored
    volume is not the number 0.5075. *)
Lemma scenario_2_is_not_0_5075 :
  result (calculateWaterVolume false (scenario "10"))
    <> Some (of_decimal false 5075 (-4)).
Proof. vm_compute. discriminate. Qed.

(** ** The catalog *)

(** C5.  The catalog holds exactly the four profiles tunisian-olive (0.175,
    72.5), koroneiki-olive (0.20, 70), leccino-olive (0.16, 72.5) and
    apple-tree (0.12, 80), each value being the binary64 number nearest to
    the decimal, given here bit for bit; and the lookup of each of the four
    identifiers returns its profile. *)
Theorem catalog_entries :
  CROP_TYPES =
    [ CropType.mk "tunisian-olive" "Tunisian Olive"
        "Olea europaea L. cv. Chemlali"
        (S754_finite false 6305039478318694 (-55))
        (S754_finite false 5101733952880640 (-46));
      CropType.mk "koroneiki-olive" "Koroneiki Olive"
        "Olea europaea L. cv. Koroneiki"
        (S754_finite false 7205759403792794 (-55))
        (S754_finite false 4925812092436480 (-46));
      CropType.mk "leccino-olive" "Leccino Olive"
        "Olea europaea L. cv. Leccino"
        (S754_finite false 5764607523034235 (-55))
        (S754_finite false 5101733952880640 (-46));
      CropType.mk "apple-tree" "Apple Tree" "Malus domestica"
        (S754_finite false 8646911284551352 (-56))
        (S754_finite false 5629499534213120 (-46)) ] /\
  map (fun c => (CropType.biomassFactor c, CropType.moistureContent c))
      CROP_TYPES =
    [ (parseFloat "0.175", parseFloat "72.5");
      (parseFloat "0.20", parseFloat "70");
      (parseFloat "0.16", parseFloat "72.5");
      (parseFloat "0.12", parseFloat "80") ] /\
  find_crop "tunisian-olive" = nth_error CROP_TYPES 0 /\
  find_crop "koroneiki-olive" = nth_error CROP_TYPES 1 /\
  find_crop "leccino-olive" = nth_error CROP_TYPES 2 /\
  find_crop "apple-tree" = nth_error CROP_TYPES 3 /\
  nth_error CROP_TYPES 4 = None.
Proof. vm_compute. repeat split; reflexivity. Qed.

(** C7, as the code has it.  When the form's crop is found in the
    catalog, the crop-change effect overwrites exactly [biomassFactor] and
    [moistureContent] with the profile's values (their decimal text, which
    reads back as the profile's numbers) and leaves the mass, the loss
    fraction, the processing factor, the recovery efficiency and the crop
    itself as they were; running it again, or choosing the same crop again,
    changes nothing further.  Choosing the crop from the list does the same
    to the form of the component when another crop was selected; when the
    crop was selected already the effect does not run and the form stays as
    it is. *)
Theorem crop_change_overwrites_two_fields (fd : FormData.t)
        (crop : CropType.t) :
  find_crop (FormData.cropType fd) = Some crop ->
  let fd' := cropChangeEffect fd in
  FormData.biomassFactor fd' = toString (CropType.biomassFactor crop) /\
  FormData.moistureContent fd' = toString (CropType.moistureContent crop) /\
  parseFloat (FormData.biomassFactor fd') = CropType.biomassFactor crop /\
  parseFloat (FormData.moistureContent fd') = CropType.moistureContent crop /\
  FormData.cropType fd' = FormData.cropType fd /\
  FormData.totalMass fd' = FormData.totalMass fd /\
  FormData.lossFraction fd' = FormData.lossFraction fd /\
  FormData.processingFactor fd' = FormData.processingFactor fd /\
  FormData.recoveryEfficiency fd' = FormData.recoveryEfficiency fd /\
  cropChangeEffect fd' = fd' /\
  (forall st, selectCrop (FormData.cropType fd)
                (selectCrop (FormData.cropType fd) st)
              = selectCrop (FormData.cropType fd) st) /\
  (forall st,
     FormData.cropType (formData st) <> FormData.cropType fd ->
     formData (selectCrop (FormData.cropType fd) st)
     = FormData.mk (FormData.cropType fd)
         (FormData.totalMass (formData st))
         (FormData.lossFraction (formData st))
         (FormData.processingFactor (formData st))
         (toString (CropType.moistureContent crop))
         (FormData.recoveryEfficiency (formData st))
         (toString (CropType.biomassFactor crop))) /\
  (forall st,
     FormData.cropType (formData st) = FormData.cropType fd ->
     formData (selectCrop (FormData.cropType fd) st) = formData st).
Proof.
  intros Hf fd'.
  assert (E : fd' = FormData.mk (FormData.cropType fd) (FormData.totalMass fd)
                      (FormData.lossFraction fd) (FormData.processingFactor fd)
                      (toString (CropType.moistureContent crop))
                      (FormData.recoveryEfficiency fd)
                      (toString (CropType.biomassFactor crop))).
  { unfold fd', cropChangeEffect. now rewrite Hf. }
  assert (Hin : In crop CROP_TYPES).
  { unfold find_crop in Hf. apply find_some in Hf. tauto. }
  assert (Hrt : parseFloat (toString (CropType.biomassFactor crop))
                = CropType.biomassFactor crop /\
                parseFloat (toString (CropType.moistureContent crop))
                = CropType.moistureContent crop).
  { cbn [In CROP_TYPES] in Hin.
    destruct Hin as [<- | [<- | [<- | [<- | []]]]];
      split; vm_compute; reflexivity. }
  rewrite E. cbn [FormData.biomassFactor FormData.moistureContent
    FormData.cropType FormData.totalMass FormData.lossFraction
    FormData.processingFactor FormData.recoveryEfficiency].
  repeat split; try reflexivity; try apply Hrt.
  - unfold cropChangeEffect. cbn [FormData.cropType]. now rewrite Hf.
  - intros st. unfold selectCrop at 1.
    assert (Hc : FormData.cropType (formData (selectCrop (FormData.cropType fd) st))
                 = FormData.cropType fd).
    { unfold selectCrop.
      destruct (String.eqb _ _); cbn [formData handleCropTypeChange
        FormData.cropType]; [reflexivity | ].
      unfold cropChangeEffect. cbn [FormData.cropType]. rewrite Hf.
      reflexivity. }
    rewrite Hc, String.eqb_refl.
    unfold selectCrop, handleCropTypeChange.
    destruct (String.eqb _ _); cbn; [reflexivity | ].
    unfold cropChangeEffect. cbn [FormData.cropType]. rewrite Hf.
    reflexivity.
  - intros st Hne. unfold selectCrop.
    apply String.eqb_neq in Hne. rewrite Hne.
    cbn [formData handleCropTypeChange].
    unfold cropChangeEffect. cbn [FormData.cropType]. rewrite Hf.
    reflexivity.
  - intros st Heq. unfold selectCrop.
    rewrite Heq, String.eqb_refl. unfold handleCropTypeChange.
    cbn [formData]. rewrite <- Heq. now destruct (formData st).
Qed.

Lemma crop_change_overwrites_two_fields_witness :
  let fd := FormData.mk "apple-tree" "250" "15" "1.2" "72.5" "60" "0.175" in
  find_crop (FormData.cropType fd) = nth_error CROP_TYPES 3 /\
  FormData.biomassFactor (cropChangeEffect fd) = "0.12" /\
  FormData.moistureContent (cropChangeEffect fd) = "80" /\
  FormData.totalMass (cropChangeEffect fd) = "250" /\
  cropChangeEffect (cropChangeEffect fd) = cropChangeEffect fd.
Proof.
  intros fd. split; [reflexivity | ].
  destruct (crop_change_overwrites_two_fields fd
              (CropType.mk "apple-tree" "Apple Tree" "Malus domestica"
                 (of_decimal false 12 (-2)) (of_Z 80))
              eq_refl)
    as (Hb & Hm & _ & _ & _ & Ht & _ & _ & _ & Hi & _ & _).
  exact (conj Hb (conj Hm (conj Ht Hi))).
Defined.

(** C7, as stated, fails for the crop that is selected already.  After
    the user has typed 0.3 over the biomass factor of the Tunisian olive,
    choosing the Tunisian olive from the list again leaves 0.3 in the form:
    the crop id has not changed, so the effect that refills the form does
    not run, and the profile's 0.175 is not written. *)
Lemma same_crop_is_not_refilled :
  let st := typeInto Field.biomassFactor "0.3" initialState in
  FormData.cropType (formData st) = "tunisian-olive" /\
  option_map CropType.biomassFactor (find_crop "tunisian-olive")
  = Some (of_decimal false 175 (-3)) /\
  toString (of_decimal false 175 (-3)) = "0.175" /\
  FormData.biomassFactor (formData (chooseCrop "tunisian-olive" st))
  = "0.3" /\
  FormData.biomassFactor (formData (selectCrop "tunisian-olive" st))
  = "0.3" /\
  parseFloat "0.3" <> of_decimal false 175 (-3).
Proof. vm_compute. repeat split; discriminate. Qed.


(** C6, as the code has it.  For every identifier that is not in the
    catalog the lookup finds nothing and [selectedCrop], which the display
    uses, falls back to the first entry, tunisian-olive (0.175, 72.5); the
    form, however, is not refilled: after choosing such an identifier its
    [biomassFactor] and [moistureContent], like its other numeric fields,
    are what they were before. *)
Theorem unknown_crop_display_falls_back (id : string) (st : AppState) :
  find_crop id = None ->
  let st' := selectCrop id st in
  selectedCrop st' = nth_error CROP_TYPES 0 /\
  option_map CropType.id (selectedCrop st') = Some "tunisian-olive" /\
  option_map CropType.biomassFactor (selectedCrop st')
    = Some (parseFloat "0.175") /\
  option_map CropType.moistureContent (selectedCrop st')
    = Some (parseFloat "72.5") /\
  FormData.cropType (formData st') = id /\
  FormData.biomassFactor (formData st') = FormData.biomassFactor (formData st) /\
  FormData.moistureContent (formData st')
    = FormData.moistureContent (formData st) /\
  FormData.totalMass (formData st') = FormData.totalMass (formData st) /\
  FormData.lossFraction (formData st') = FormData.lossFraction (formData st) /\
  FormData.processingFactor (formData st')
    = FormData.processingFactor (formData st) /\
  FormData.recoveryEfficiency (formData st')
    = FormData.recoveryEfficiency (formData st).
Proof.
  intros Hf st'.
  assert (E : formData st' = formData (handleCropTypeChange id st)).
  { unfold st', selectCrop.
    destruct (String.eqb _ _); [reflexivity | ].
    cbn [formData]. unfold cropChangeEffect, handleCropTypeChange.
    cbn [formData FormData.cropType]. now rewrite Hf. }
  assert (S : selectedCrop st' = nth_error CROP_TYPES 0).
  { unfold selectedCrop. rewrite E. cbn [handleCropTypeChange formData
      FormData.cropType]. now rewrite Hf. }
  rewrite S, E. repeat split.
Qed.

Lemma unknown_crop_display_falls_back_witness :
  find_crop "date-palm" = None /\
  option_map CropType.id (selectedCrop (selectCrop "date-palm" initialState))
    = Some "tunisian-olive" /\
  FormData.cropType (formData (selectCrop "date-palm" initialState))
    = "date-palm".
Proof.
  split; [reflexivity | ].
  destruct (unknown_crop_display_falls_back "date-palm" initialState eq_refl)
    as (_ & Hid & _ & _ & Hc & _).
  exact (conj Hid Hc).
Defined.

(** C6, as stated, fails.  After the Koroneiki olive has been chosen the
    form holds 0.2 and 70; choosing an identifier that is not in the
    catalog leaves them there, and they are not the first entry's 0.175 and
    72.5. *)
Lemma unknown_crop_keeps_form_values :
  let st := selectCrop "date-palm" (selectCrop "koroneiki-olive" initialState)
  in
  find_crop "date-palm" = None /\
  FormData.biomassFactor (formData st) = "0.2" /\
  FormData.moistureContent (formData st) = "70" /\
  parseFloat (FormData.biomassFactor (formData st)) <> parseFloat "0.175" /\
  parseFloat (FormData.moistureContent (formData st)) <> parseFloat "72.5".
Proof. vm_compute. repeat split; discriminate. Qed.

(** ** Validation, field by field *)

(** C8.  [validateInputs] checks the six fields independently and without
    stopping at the first failure: the entry of each field in the result is
    present exactly when that field's own check fails, whatever the other
    fields hold, so several entries can be present at once; the answer is
    [true] exactly when no entry is present; and the errors are a value
    that is returned, the form and the result being left as they were.  A
    loss fraction of 150 yields the entry of that field alone. *)
Theorem validate_checks_each_field :
  (forall fd : FormData.t,
     newErrors fd =
     ValidationErrors.mk
       (if totalMass_fails (FormData.totalMass fd)
        then Some "Please enter a valid positive mass value" else None)
       (if percent_fails (FormData.lossFraction fd)
        then Some "Loss fraction must be between 0 and 100%" else None)
       (if positive_fails (FormData.processingFactor fd)
        then Some "Processing factor must be a positive number" else None)
       (if percent_fails (FormData.moistureContent fd)
        then Some "Moisture content must be between 0 and 100%" else None)
       (if percent_fails (FormData.recoveryEfficiency fd)
        then Some "Recovery efficiency must be between 0 and 100%" else None)
       (if positive_fails (FormData.biomassFactor fd)
        then Some "Biomass factor must be a positive number" else None)) /\
  (forall st : AppState,
     fst (validateInputs st) =
     mkAppState (formData st) (newErrors (formData st)) (result st)
       (isCalculating st) (showResult st) (isDropdownOpen st)
       (showCreditsModal st)) /\
  (forall st : AppState,
     snd (validateInputs st) = true <->
     newErrors (formData st) = ValidationErrors.empty) /\
  newErrors (FormData.mk "tunisian-olive" "100" "150" "1.0" "72.5" "50" "0.175")
  = ValidationErrors.mk None
      (Some "Loss fraction must be between 0 and 100%") None None None None /\
  newErrors (FormData.mk "tunisian-olive" "" "150" "0" "72.5" "abc" "0.175")
  = ValidationErrors.mk
      (Some "Please enter a valid positive mass value")
      (Some "Loss fraction must be between 0 and 100%")
      (Some "Processing factor must be a positive number")
      None
      (Some "Recovery efficiency must be between 0 and 100%")
      None.
Proof.
  split; [exact newErrors_fields | ].
  split; [reflexivity | ].
  split; [ | split; vm_compute; reflexivity].
  intros st. rewrite validateInputs_true, newErrors_fields.
  unfold ValidationErrors.empty.
  destruct (totalMass_fails _), (percent_fails (FormData.lossFraction _)),
    (positive_fails (FormData.processingFactor _)),
    (percent_fails (FormData.moistureContent _)),
    (percent_fails (FormData.recoveryEfficiency _)),
    (positive_fails (FormData.biomassFactor _));
    split; intros H; try discriminate H;
    repeat match goal with
           | H : _ /\ _ |- _ => destruct H
           end; try discriminate; repeat split; reflexivity.
Qed.

Lemma truthy_nonempty (s : string) : truthy s = true <-> s <> "".
Proof. destruct s; cbn; split; congruence. Qed.

Lemma entry_absent (b : bool) (m : string) :
  (if b then Some m else None) = None <-> b = false.
Proof. destruct b; split; congruence. Qed.

(** C2, as the code has it.  A field has no entry in the result of
    [validateInputs] exactly when its value lies in its range: the mass
    when its text is not empty and it reads as a number above zero; the
    processing factor and the biomass factor when they read as a number
    above zero; each of the three percentages when it reads as a number
    from 0 to 100, both ends included.  Text that does not start with a
    number reads as NaN, which lies in no range; text that starts with one
    reads as that number.  The ranges of the mass and
    of the two factors have no upper end: [+Infinity] lies in them.  The
    percentages 0 and 100 are accepted, -0.0001 and 100.0001 are not. *)
Theorem validate_accepts_exactly_the_ranges (fd : FormData.t) :
  let e := newErrors fd in
  (ValidationErrors.totalMass e = None <->
   FormData.totalMass fd <> "" /\
   lt (of_Z 0) (parseFloat (FormData.totalMass fd)) = true) /\
  (ValidationErrors.processingFactor e = None <->
   lt (of_Z 0) (parseFloat (FormData.processingFactor fd)) = true) /\
  (ValidationErrors.biomassFactor e = None <->
   lt (of_Z 0) (parseFloat (FormData.biomassFactor fd)) = true) /\
  (ValidationErrors.lossFraction e = None <->
   le (of_Z 0) (parseFloat (FormData.lossFraction fd)) = true /\
   le (parseFloat (FormData.lossFraction fd)) (of_Z 100) = true) /\
  (ValidationErrors.moistureContent e = None <->
   le (of_Z 0) (parseFloat (FormData.moistureContent fd)) = true /\
   le (parseFloat (FormData.moistureContent fd)) (of_Z 100) = true) /\
  (ValidationErrors.recoveryEfficiency e = None <->
   le (of_Z 0) (parseFloat (FormData.recoveryEfficiency fd)) = true /\
   le (parseFloat (FormData.recoveryEfficiency fd)) (of_Z 100) = true) /\
  lt (of_Z 0) S754_nan = false /\ le (of_Z 0) S754_nan = false /\
  parseFloat "abc" = S754_nan /\ parseFloat "" = S754_nan /\
  parseFloat "12abc" = parseFloat "12" /\ positive_fails "12abc" = false /\
  lt (of_Z 0) (S754_infinity false) = true /\
  percent_fails "0" = false /\ percent_fails "100" = false /\
  percent_fails "-0.0001" = true /\ percent_fails "100.0001" = true.
Proof.
  intros e. unfold e. rewrite newErrors_fields.
  cbn [ValidationErrors.totalMass ValidationErrors.lossFraction
       ValidationErrors.processingFactor ValidationErrors.moistureContent
       ValidationErrors.recoveryEfficiency ValidationErrors.biomassFactor].
  rewrite !entry_absent.
  rewrite totalMass_fails_range, !positive_fails_range, !percent_fails_range.
  rewrite !negb_false_iff, !andb_true_iff, truthy_nonempty.
  repeat (split; [tauto | ]).
  vm_compute. repeat split; reflexivity.
Qed.

(** C2, as stated, fails for the mass: the texts [Infinity] and [1e999]
    read as [+Infinity], which is not a finite positive real, and the mass
    check accepts them; the whole form then passes. *)
Lemma infinite_mass_is_accepted :
  parseFloat "Infinity" = S754_infinity false /\
  parseFloat "1e999" = S754_infinity false /\
  totalMass_fails "Infinity" = false /\
  totalMass_fails "1e999" = false /\
  ValidationErrors.totalMass (newErrors (formData (scenario "Infinity")))
    = None /\
  snd (validateInputs (scenario "Infinity")) = true.
Proof. vm_compute. repeat split; reflexivity. Qed.

(** ** Formatting *)

Lemma thresholds_increase :
  lt (of_decimal false 1 (-3)) (of_Z 1) = true /\
  lt (of_Z 1) (of_Z 1000) = true /\
  lt (of_Z 1000) (of_decimal false 1 21) = true /\
  nonneg_or_nan (of_decimal false 1 (-3)) = true /\
  nonneg_or_nan (of_Z 1) = true /\
  nonneg_or_nan (of_Z 1000) = true.
Proof. vm_compute. repeat split; reflexivity. Qed.

Lemma rendered_intro (d : nat) (u t : string) :
  fixed_notation d t = true -> rendered d u (t ++ " " ++ u).
Proof. intros H. exists t. split; [reflexivity | exact H]. Qed.

(** C3, as the code has it.  For a volume [v]: below 0.001 the number
    shown is a thousand times [v] with two decimal places and the unit is
    mL; from 0.001 to below 1 it is a thousand times [v] with no decimal
    place, in mL; from 1 to below 1000 it is [v] with two decimal places, in
    L; from 1000 on it is [v] over a thousand, in cubic metres, with two
    decimal places as long as that quotient is below 10^21.  The bounds are
    closed below and open above: exactly 1 is shown in L and exactly 1000
    in cubic metres.  (The first band is stated for volumes that are not
    negative.) *)
Theorem formatResult_bands (v : number) :
  wf v = true ->
  (lt v (of_decimal false 1 (-3)) = true ->
   formatResult v = toFixed (mul v (of_Z 1000)) 2 ++ " mL" /\
   (le (of_Z 0) v = true -> rendered 2 "mL" (formatResult v))) /\
  (le (of_decimal false 1 (-3)) v = true -> lt v (of_Z 1) = true ->
   formatResult v = toFixed (mul v (of_Z 1000)) 0 ++ " mL" /\
   rendered 0 "mL" (formatResult v)) /\
  (le (of_Z 1) v = true -> lt v (of_Z 1000) = true ->
   formatResult v = toFixed v 2 ++ " L" /\
   rendered 2 "L" (formatResult v)) /\
  (le (of_Z 1000) v = true ->
   formatResult v = toFixed (div v (of_Z 1000)) 2 ++ " " ++ cubic_metres /\
   (lt (div v (of_Z 1000)) (of_decimal false 1 21) = true ->
    rendered 2 cubic_metres (formatResult v))) /\
  formatResult (of_Z 1) = "1.00 L" /\
  formatResult (of_Z 1000) = "1.00 " ++ cubic_metres /\
  formatResult (parseFloat "0.0009999") = "1.00 mL" /\
  formatResult (parseFloat "0.001") = "1 mL" /\
  formatResult (parseFloat "0.999") = "999 mL" /\
  formatResult (parseFloat "999.999") = "1000.00 L".
Proof.
  intros Hwf.
  destruct thresholds_increase as (T1 & T2 & T3 & N1 & N2 & N3).
  split; [ | split; [ | split; [ | split]]].
  - intros H. unfold formatResult. rewrite H. split; [reflexivity | ].
    intros H0. apply rendered_intro.
    apply toFixed_fixed_nonneg.
    + apply mul_nonneg; [ | exact N3].
      apply (le_nonneg (of_Z 0)); [reflexivity | exact H0].
    + apply mul_1000_small; [exact Hwf | exact H0 | ].
      exact (lt_trans _ _ _ H T1).
  - intros Hlo Hhi. unfold formatResult.
    destruct (le_true_numbers _ _ Hlo) as [Hc Hv].
    rewrite (lt_negb_le _ _ Hv Hc), Hlo, Hhi. cbn [negb].
    split; [reflexivity | ].
    apply rendered_intro. apply toFixed_fixed_nonneg.
    + apply mul_nonneg; [ | exact N3].
      exact (le_nonneg _ _ N1 Hlo).
    + apply mul_1000_small; [exact Hwf | | exact Hhi].
      apply nonneg_le_0; [exact (le_nonneg _ _ N1 Hlo) | exact Hv].
  - intros Hlo Hhi. unfold formatResult.
    destruct (le_true_numbers _ _ Hlo) as [Hc Hv].
    rewrite (le_not_lt_below _ _ _ T1 Hlo).
    rewrite (lt_negb_le _ _ Hv Hc), Hlo, Hhi. cbn [negb].
    split; [reflexivity | ].
    apply rendered_intro. apply toFixed_fixed_nonneg.
    + exact (le_nonneg _ _ N2 Hlo).
    + exact (lt_trans _ _ _ Hhi T3).
  - intros Hlo. unfold formatResult.
    destruct (le_true_numbers _ _ Hlo) as [Hc Hv].
    rewrite (le_not_lt_below _ _ _ (lt_trans _ _ _ T1 T2) Hlo).
    rewrite (le_not_lt_below _ _ _ T2 Hlo).
    rewrite (lt_negb_le _ _ Hv Hc), Hlo. cbn [negb].
    split; [reflexivity | ].
    intros Hq.
    apply (rendered_intro 2 cubic_metres). apply toFixed_fixed_nonneg.
    + rewrite of_Z_1000. apply div_nonneg. exact (le_nonneg _ _ N3 Hlo).
    + exact Hq.
  - vm_compute. repeat split; reflexivity.
Qed.

Lemma formatResult_bands_witness :
  wf (parseFloat "12.34") = true /\
  formatResult (parseFloat "12.34") = toFixed (parseFloat "12.34") 2 ++ " L" /\
  rendered 2 "L" (formatResult (parseFloat "12.34")).
Proof.
  split; [vm_compute; reflexivity | ].
  destruct (formatResult_bands (parseFloat "12.34") ltac:(vm_compute; reflexivity))
    as (_ & _ & H & _).
  apply H; vm_compute; reflexivity.
Defined.

(** C3, as stated, fails in its last band: 10^24 litres is 1000 or more,
    and it is shown in cubic metres, but as [1e+21], which has no two
    decimal places. *)
Lemma formatResult_1e24_not_two_decimals :
  wf (parseFloat "1e24") = true /\
  le (of_Z 1000) (parseFloat "1e24") = true /\
  formatResult (parseFloat "1e24") = "1e+21 " ++ cubic_metres /\
  ~ rendered 2 cubic_metres (formatResult (parseFloat "1e24")).
Proof.
  assert (E : formatResult (parseFloat "1e24") = "1e+21 " ++ cubic_metres)
    by (vm_compute; reflexivity).
  split; [vm_compute; reflexivity | ].
  split; [vm_compute; reflexivity | ].
  split; [exact E | ].
  rewrite E. intros (t & Ht & Hf).
  assert (t = "1e+21").
  { clear Hf. unfold cubic_metres, superscript_three in Ht.
    cbn [append] in Ht.
    repeat (destruct t as [ | ? t ]; cbn [append] in Ht;
            try discriminate Ht;
            try (injection Ht as <- Ht)); try reflexivity. }
  subst t. vm_compute in Hf. discriminate Hf.
Qed.

(** C10.  There are volumes strictly below one litre that are shown as
    [1000 mL]: every volume from 0.9995 to below 1 is, 0.9996 among them,
    because the millilitre band rounds to no decimal place without looking
    at the one-litre bound again; the number shown is then above the 999
    that the band reaches. *)
Theorem format_rounds_up_to_1000_mL :
  (forall v : number,
     wf v = true ->
     le (parseFloat "0.9995") v = true -> lt v (of_Z 1) = true ->
     formatResult v = "1000 mL") /\
  wf (parseFloat "0.9996") = true /\
  le (parseFloat "0.9995") (parseFloat "0.9996") = true /\
  lt (parseFloat "0.9996") (of_Z 1) = true /\
  formatResult (parseFloat "0.9996") = "1000 mL" /\
  formatResult (parseFloat "0.9995") = "1000 mL" /\
  formatResult (parseFloat "0.9994") = "999 mL".
Proof.
  split.
  - intros v Hwf Hlo Hhi. apply formatResult_near_one; assumption.
  - vm_compute. repeat split; reflexivity.
Qed.

(** ** The catalog as a table *)

(** X1.  The lookup finds exactly the entries of the catalog, each under its
    own identifier: an identifier finds a profile if and only if the profile
    is in the catalog and carries that identifier. *)
Theorem catalog_lookup_round_trip (id : string) (crop : CropType.t) :
  find_crop id = Some crop <-> In crop CROP_TYPES /\ CropType.id crop = id.
Proof.
  split.
  - intros H. unfold find_crop in H. apply find_some in H.
    destruct H as [Hin He]. apply String.eqb_eq in He. now split.
  - intros [Hin <-]. cbn [In CROP_TYPES] in Hin.
    destruct Hin as [<- | [<- | [<- | [<- | []]]]]; reflexivity.
Qed.

Lemma catalog_values_valid (crop : CropType.t) :
  In crop CROP_TYPES ->
  positive_fails (toString (CropType.biomassFactor crop)) = false /\
  percent_fails (toString (CropType.moistureContent crop)) = false.
Proof.
  intros Hin. cbn [In CROP_TYPES] in Hin.
  destruct Hin as [<- | [<- | [<- | [<- | []]]]];
    split; vm_compute; reflexivity.
Qed.

(** X2.  After the crop-change effect has refilled the form from a profile of
    the catalog, validation reports nothing for the biomass factor and the
    moisture content, and what it reports for the other four fields is what
    it reported before the refill. *)
Theorem refilled_fields_are_valid (fd : FormData.t) (crop : CropType.t) :
  find_crop (FormData.cropType fd) = Some crop ->
  let e := newErrors (cropChangeEffect fd) in
  ValidationErrors.biomassFactor e = None /\
  ValidationErrors.moistureContent e = None /\
  ValidationErrors.totalMass e = ValidationErrors.totalMass (newErrors fd) /\
  ValidationErrors.lossFraction e
    = ValidationErrors.lossFraction (newErrors fd) /\
  ValidationErrors.processingFactor e
    = ValidationErrors.processingFactor (newErrors fd) /\
  ValidationErrors.recoveryEfficiency e
    = ValidationErrors.recoveryEfficiency (newErrors fd).
Proof.
  intros Hf e. unfold e, cropChangeEffect. rewrite Hf.
  apply catalog_lookup_round_trip in Hf. destruct Hf as [Hin _].
  destruct (catalog_values_valid crop Hin) as [Hb Hm].
  rewrite !newErrors_fields.
  cbn [ValidationErrors.totalMass ValidationErrors.lossFraction
       ValidationErrors.processingFactor ValidationErrors.moistureContent
       ValidationErrors.recoveryEfficiency ValidationErrors.biomassFactor
       FormData.totalMass FormData.lossFraction FormData.processingFactor
       FormData.moistureContent FormData.recoveryEfficiency
       FormData.biomassFactor].
  rewrite Hb, Hm. repeat split; reflexivity.
Qed.

Lemma refilled_fields_are_valid_witness :
  let fd := FormData.mk "leccino-olive" "40" "150" "1.0" "abc" "50" "-3" in
  find_crop (FormData.cropType fd) = nth_error CROP_TYPES 2 /\
  ValidationErrors.biomassFactor (newErrors (cropChangeEffect fd)) = None /\
  ValidationErrors.moistureContent (newErrors (cropChangeEffect fd)) = None.
Proof.
  intros fd. split; [reflexivity | ].
  destruct (refilled_fields_are_valid fd
              (CropType.mk "leccino-olive" "Leccino Olive"
                 "Olea europaea L. cv. Leccino"
                 (of_decimal false 16 (-2)) (of_decimal false 725 (-1)))
              eq_refl) as (Hb & Hm & _).
  exact (conj Hb Hm).
Defined.

(** ** Calculating again, and calculating in vain *)

Lemma validateInputs_fst (st : AppState) :
  fst (validateInputs st) =
  mkAppState (formData st) (newErrors (formData st)) (result st)
    (isCalculating st) (showResult st) (isDropdownOpen st)
    (showCreditsModal st).
Proof. reflexivity. Qed.

Lemma validateInputs_same_form (st st' : AppState) :
  formData st = formData st' ->
  snd (validateInputs st) = snd (validateInputs st').
Proof. unfold validateInputs. cbn [snd]. now intros ->. Qed.

Lemma keys_empty (e : ValidationErrors.t) :
  ValidationErrors.keys e = [] <-> e = ValidationErrors.empty.
Proof.
  destruct e as [[a | ] [b | ] [c | ] [d | ] [f | ] [g | ]];
    cbn; split; intros H; try discriminate H; reflexivity.
Qed.

Lemma validateInputs_snd (st : AppState) :
  snd (validateInputs st) = true <->
  newErrors (formData st) = ValidationErrors.empty.
Proof.
  unfold validateInputs. cbn [snd]. rewrite Nat.eqb_eq, <- keys_empty.
  destruct (ValidationErrors.keys _); cbn; split; congruence.
Qed.

(** X3.  When validation fails, [calculateWaterVolume] stores the errors, of
    which there is at least one, and nothing else: the form, the result and
    the flags stay, so a result computed earlier remains on display. *)
Theorem failed_calculation_keeps_the_display (skipAnimation : bool)
        (st : AppState) :
  snd (validateInputs st) = false ->
  calculateWaterVolume skipAnimation st =
  mkAppState (formData st) (newErrors (formData st)) (result st)
    (isCalculating st) (showResult st) (isDropdownOpen st)
    (showCreditsModal st) /\
  ValidationErrors.keys (newErrors (formData st)) <> [] /\
  resultCard (calculateWaterVolume skipAnimation st) = resultCard st.
Proof.
  intros Hv.
  rewrite (calculateWaterVolume_invalid skipAnimation st Hv),
    validateInputs_fst.
  split; [reflexivity | split; [ | reflexivity]].
  intros Hk. apply keys_empty in Hk. apply validateInputs_snd in Hk.
  congruence.
Qed.

Lemma failed_calculation_keeps_the_display_witness :
  let shown := calculateWaterVolume false (scenario "100") in
  let edited := mkAppState
                  (FormData.mk "tunisian-olive" "" "20" "1.0" "72.5" "50"
                     "0.175")
                  (errors shown) (result shown) (isCalculating shown)
                  (showResult shown) (isDropdownOpen shown)
                  (showCreditsModal shown) in
  snd (validateInputs edited) = false /\
  resultCard (calculateWaterVolume false edited) = Some "5.08 L".
Proof.
  intros shown edited. split; [vm_compute; reflexivity | ].
  destruct (failed_calculation_keeps_the_display false edited
              ltac:(vm_compute; reflexivity)) as (_ & _ & H).
  rewrite H. vm_compute. reflexivity.
Defined.

(** X4.  Calculating twice in a row gives what calculating once gives,
    whether the form is valid or not. *)
Theorem calculating_twice_is_calculating_once (skip skip' : bool)
        (st : AppState) :
  calculateWaterVolume skip' (calculateWaterVolume skip st)
  = calculateWaterVolume skip st.
Proof.
  destruct (snd (validateInputs st)) eqn:Hv.
  - rewrite (calculateWaterVolume_valid skip st Hv).
    rewrite calculateWaterVolume_valid.
    + cbn [formData isDropdownOpen showCreditsModal]. reflexivity.
    + rewrite <- Hv. now apply validateInputs_same_form.
  - rewrite (calculateWaterVolume_invalid skip st Hv), validateInputs_fst.
    rewrite calculateWaterVolume_invalid.
    + rewrite validateInputs_fst. reflexivity.
    + rewrite <- Hv. now apply validateInputs_same_form.
Qed.

(** ** From the form to the results card *)

Lemma formatResult_below_1000 (v : number) :
  wf v = true -> nonneg_or_nan v = true -> lt v (of_Z 1000) = true ->
  rendered 2 "mL" (formatResult v) \/ rendered 0 "mL" (formatResult v) \/
  rendered 2 "L" (formatResult v).
Proof.
  intros Hwf Hn Hlt.
  destruct thresholds_increase as (T1 & T2 & T3 & N1 & N2 & N3).
  destruct (lt_true_numbers _ _ Hlt) as [Hv _].
  pose proof (nonneg_le_0 v Hn Hv) as H0.
  unfold formatResult.
  destruct (lt v (of_decimal false 1 (-3))) eqn:E1.
  - left. apply rendered_intro. apply toFixed_fixed_nonneg.
    + apply mul_nonneg; [exact Hn | exact N3].
    + apply mul_1000_small; [exact Hwf | exact H0 | ].
      exact (lt_trans _ _ _ E1 T1).
  - destruct (lt v (of_Z 1)) eqn:E2.
    + right; left. apply rendered_intro. apply toFixed_fixed_nonneg.
      * apply mul_nonneg; [exact Hn | exact N3].
      * apply mul_1000_small; assumption.
    + rewrite Hlt. right; right. apply rendered_intro.
      apply toFixed_fixed_nonneg; [exact Hn | ].
      exact (lt_trans _ _ _ Hlt T3).
Qed.

Lemma formatResult_from_1000 (v : number) :
  lt v (of_Z 1000) = false ->
  formatResult v = toFixed (div v (of_Z 1000)) 2 ++ " " ++ cubic_metres.
Proof.
  intros Hlt.
  destruct thresholds_increase as (T1 & T2 & T3 & N1 & N2 & N3).
  unfold formatResult. rewrite Hlt.
  destruct (isNaN v) eqn:Hv.
  - destruct v; try discriminate Hv. reflexivity.
  - assert (Hle : le (of_Z 1000) v = true).
    { destruct (lt_true_numbers _ _ T2) as [_ Hk].
      rewrite (le_negb_lt _ _ Hk Hv), Hlt. reflexivity. }
    rewrite (le_not_lt_below _ _ _ (lt_trans _ _ _ T1 T2) Hle).
    rewrite (le_not_lt_below _ _ _ T2 Hle). reflexivity.
Qed.

(** ** The effects that follow an edit *)

Lemma calculateWaterVolume_formData (skip : bool) (st : AppState) :
  formData (calculateWaterVolume skip st) = formData st.
Proof.
  destruct (snd (validateInputs st)) eqn:Hv.
  - rewrite (calculateWaterVolume_valid skip st Hv). reflexivity.
  - rewrite (calculateWaterVolume_invalid skip st Hv). reflexivity.
Qed.

Lemma calculateWaterVolume_showResult (skip : bool) (st : AppState) :
  showResult (calculateWaterVolume skip st)
  = if snd (validateInputs st) then true else showResult st.
Proof.
  destruct (snd (validateInputs st)) eqn:Hv.
  - rewrite (calculateWaterVolume_valid skip st Hv). reflexivity.
  - rewrite (calculateWaterVolume_invalid skip st Hv). reflexivity.
Qed.

(** The second effect validates twice, once in its condition and once in
    [calculateWaterVolume]; the outcome is that of the calculation. *)
Lemma recalculateEffect_calculates (st : AppState) :
  showResult st && truthy (FormData.totalMass (formData st)) = true ->
  recalculateEffect st = calculateWaterVolume true st.
Proof.
  intros H. unfold recalculateEffect. rewrite H.
  rewrite (surjective_pairing (validateInputs st)).
  destruct (snd (validateInputs st)) eqn:Hv.
  - rewrite (calculateWaterVolume_valid true st Hv).
    rewrite calculateWaterVolume_valid.
    + rewrite validateInputs_fst. reflexivity.
    + rewrite <- Hv. apply validateInputs_same_form.
      rewrite validateInputs_fst. reflexivity.
  - rewrite (calculateWaterVolume_invalid true st Hv). reflexivity.
Qed.

Lemma recalculateEffect_idle (st : AppState) :
  showResult st && truthy (FormData.totalMass (formData st)) = false ->
  recalculateEffect st = st.
Proof. intros H. unfold recalculateEffect. rewrite H. reflexivity. Qed.

Lemma recalculateEffect_formData (st : AppState) :
  formData (recalculateEffect st) = formData st.
Proof.
  destruct (showResult st && truthy (FormData.totalMass (formData st)))
    eqn:H.
  - rewrite (recalculateEffect_calculates st H).
    apply calculateWaterVolume_formData.
  - rewrite (recalculateEffect_idle st H). reflexivity.
Qed.

Lemma recalculateEffect_showResult (st : AppState) :
  showResult (recalculateEffect st) = showResult st.
Proof.
  destruct (showResult st && truthy (FormData.totalMass (formData st)))
    eqn:H.
  - rewrite (recalculateEffect_calculates st H),
      calculateWaterVolume_showResult.
    apply andb_true_iff in H. destruct H as [-> _].
    now destruct (snd (validateInputs st)).
  - rewrite (recalculateEffect_idle st H). reflexivity.
Qed.

Lemma cropChangeEffect_cropType (fd : FormData.t) :
  FormData.cropType (cropChangeEffect fd) = FormData.cropType fd.
Proof.
  unfold cropChangeEffect.
  destruct (find_crop (FormData.cropType fd)); reflexivity.
Qed.

(** No effect runs when none of the three texts the effects depend on has
    changed. *)
Lemma runEffects_idle (prev cur : AppState) :
  FormData.cropType (formData prev) = FormData.cropType (formData cur) ->
  FormData.biomassFactor (formData prev)
  = FormData.biomassFactor (formData cur) ->
  FormData.moistureContent (formData prev)
  = FormData.moistureContent (formData cur) ->
  runEffects prev cur = cur.
Proof.
  intros H1 H2 H3. unfold runEffects.
  rewrite H1, H2, H3, !String.eqb_refl. reflexivity.
Qed.

Lemma runEffects_same_crop (prev cur : AppState) :
  FormData.cropType (formData prev) = FormData.cropType (formData cur) ->
  runEffects prev cur =
  if negb (String.eqb (FormData.biomassFactor (formData prev))
                      (FormData.biomassFactor (formData cur))) ||
     negb (String.eqb (FormData.moistureContent (formData prev))
                      (FormData.moistureContent (formData cur)))
  then recalculateEffect cur else cur.
Proof.
  intros H. unfold runEffects. rewrite H, String.eqb_refl. reflexivity.
Qed.

Lemma runEffects_cropType (prev cur : AppState) :
  FormData.cropType (formData (runEffects prev cur))
  = FormData.cropType (formData cur).
Proof.
  unfold runEffects.
  destruct (negb (String.eqb (FormData.cropType (formData prev))
                             (FormData.cropType (formData cur)))).
  - cbn [orb formData]. apply cropChangeEffect_cropType.
  - cbn [orb].
    destruct (_ || _); [ | reflexivity].
    now rewrite recalculateEffect_formData.
Qed.

Lemma runEffects_same_crop_formData (prev cur : AppState) :
  FormData.cropType (formData prev) = FormData.cropType (formData cur) ->
  formData (runEffects prev cur) = formData cur.
Proof.
  intros H. rewrite (runEffects_same_crop prev cur H).
  destruct (_ || _); [ | reflexivity].
  apply recalculateEffect_formData.
Qed.

(** X6.  The effects come to rest: after the two passes of [settle] a further
    pass changes nothing, whatever the update was.  The first pass may
    refill the form, the second may calculate for the refilled form, and
    neither of them changes the crop. *)
Theorem effects_come_to_rest (prev cur : AppState) :
  runEffects (runEffects prev cur) (settle prev cur) = settle prev cur.
Proof.
  unfold settle.
  assert (H : formData (runEffects cur (runEffects prev cur))
              = formData (runEffects prev cur)).
  { apply runEffects_same_crop_formData. symmetry.
    apply runEffects_cropType. }
  apply runEffects_idle; now rewrite H.
Qed.

Lemma settle_idle (prev cur : AppState) :
  FormData.cropType (formData prev) = FormData.cropType (formData cur) ->
  FormData.biomassFactor (formData prev)
  = FormData.biomassFactor (formData cur) ->
  FormData.moistureContent (formData prev)
  = FormData.moistureContent (formData cur) ->
  settle prev cur = cur.
Proof.
  intros H1 H2 H3. unfold settle.
  rewrite (runEffects_idle prev cur H1 H2 H3).
  now apply runEffects_idle.
Qed.

Lemma handleInputChange_formData (f : Field.t) (v : string) (st : AppState) :
  formData (handleInputChange f v st) = set_field f v (formData st).
Proof.
  unfold handleInputChange.
  now destruct (truthy_error (error_of f (errors st))).
Qed.

Lemma handleInputChange_result (f : Field.t) (v : string) (st : AppState) :
  result (handleInputChange f v st) = result st /\
  showResult (handleInputChange f v st) = showResult st /\
  isCalculating (handleInputChange f v st) = isCalculating st.
Proof.
  unfold handleInputChange.
  now destruct (truthy_error (error_of f (errors st))).
Qed.

Lemma resultCard_same (st st' : AppState) :
  result st' = result st -> showResult st' = showResult st ->
  resultCard st' = resultCard st.
Proof. unfold resultCard. now intros -> ->. Qed.

(** X7.  Typing into the mass, the loss fraction, the processing factor or the
    recovery efficiency starts no effect: the state is the one the handler
    leaves, and the results card goes on showing the result computed from
    the form as it was. *)
Theorem typing_elsewhere_keeps_the_result (f : Field.t) (v : string)
        (st : AppState) :
  f = Field.totalMass \/ f = Field.lossFraction \/
  f = Field.processingFactor \/ f = Field.recoveryEfficiency ->
  typeInto f v st = handleInputChange f v st /\
  formData (typeInto f v st) = set_field f v (formData st) /\
  result (typeInto f v st) = result st /\
  resultCard (typeInto f v st) = resultCard st.
Proof.
  intros Hf.
  assert (E : typeInto f v st = handleInputChange f v st).
  { unfold typeInto.
    apply settle_idle; rewrite handleInputChange_formData;
      destruct Hf as [-> | [-> | [-> | ->]]]; reflexivity. }
  rewrite E, handleInputChange_formData.
  destruct (handleInputChange_result f v st) as (Hr & Hs & _).
  repeat split; [exact Hr | now apply resultCard_same].
Qed.

Lemma typing_elsewhere_keeps_the_result_witness :
  let shown := calculateWaterVolume false (scenario "100") in
  FormData.totalMass (formData (typeInto Field.totalMass "200" shown))
  = "200" /\
  resultCard (typeInto Field.totalMass "200" shown) = Some "5.08 L".
Proof.
  intros shown.
  destruct (typing_elsewhere_keeps_the_result Field.totalMass "200" shown
              (or_introl eq_refl)) as (_ & Hf & _ & Hc).
  split.
  - rewrite Hf. reflexivity.
  - rewrite Hc. vm_compute. reflexivity.
Defined.

Lemma typeInto_refill_field (f : Field.t) (v : string) (st : AppState) :
  f = Field.biomassFactor \/ f = Field.moistureContent ->
  v <> get_field f (formData st) ->
  showResult st = true ->
  truthy (FormData.totalMass (formData st)) = true ->
  typeInto f v st = calculateWaterVolume true (handleInputChange f v st).
Proof.
  intros Hf Hv Hs Hm. unfold typeInto, settle.
  set (c := handleInputChange f v st).
  assert (Hc : formData c = set_field f v (formData st))
    by apply handleInputChange_formData.
  assert (H1 : runEffects st c = calculateWaterVolume true c).
  { rewrite runEffects_same_crop
      by (rewrite Hc; destruct Hf as [-> | ->]; reflexivity).
    assert (Hch :
      negb (String.eqb (FormData.biomassFactor (formData st))
                       (FormData.biomassFactor (formData c))) ||
      negb (String.eqb (FormData.moistureContent (formData st))
                       (FormData.moistureContent (formData c))) = true).
    { rewrite Hc. apply orb_true_iff.
      destruct Hf as [-> | ->]; [left | right]; cbn in Hv |- *;
        apply negb_true_iff, String.eqb_neq; congruence. }
    rewrite Hch. apply recalculateEffect_calculates.
    destruct (handleInputChange_result f v st) as (_ & Hsh & _).
    fold c in Hsh. rewrite Hsh, Hs, Hc.
    destruct Hf as [-> | ->]; cbn [set_field FormData.totalMass];
      rewrite Hm; reflexivity. }
  rewrite H1. apply runEffects_idle;
    now rewrite calculateWaterVolume_formData.
Qed.

(** X8.  Typing a new biomass factor or moisture content while a result is on
    display and the mass is not empty validates the whole form at once.  If
    the form is valid the result becomes the volume of the edited form; if
    not, the errors appear and the card keeps the result it showed. *)
Theorem typing_a_crop_parameter_recalculates (f : Field.t) (v : string)
        (st : AppState) :
  f = Field.biomassFactor \/ f = Field.moistureContent ->
  v <> get_field f (formData st) ->
  showResult st = true ->
  truthy (FormData.totalMass (formData st)) = true ->
  let fd' := set_field f v (formData st) in
  let st' := typeInto f v st in
  formData st' = fd' /\
  errors st' = newErrors fd' /\
  (newErrors fd' = ValidationErrors.empty ->
   result st' = Some (waterVolume fd') /\
   resultCard st' = Some (formatResult (waterVolume fd'))) /\
  (newErrors fd' <> ValidationErrors.empty ->
   result st' = result st /\ resultCard st' = resultCard st).
Proof.
  intros Hf Hv Hs Hm fd' st'. unfold st'.
  rewrite (typeInto_refill_field f v st Hf Hv Hs Hm).
  set (c := handleInputChange f v st).
  assert (Hc : formData c = fd') by apply handleInputChange_formData.
  destruct (handleInputChange_result f v st) as (Hr & Hsh & _).
  fold c in Hr, Hsh.
  destruct (snd (validateInputs c)) eqn:Hval.
  - rewrite (calculateWaterVolume_valid true c Hval), Hc.
    apply validateInputs_snd in Hval. rewrite Hc in Hval.
    cbn [formData errors result]. unfold resultCard.
    cbn [result showResult].
    split; [reflexivity | split; [reflexivity | split]].
    + intros _. split; reflexivity.
    + intros Hne. contradiction.
  - rewrite (calculateWaterVolume_invalid true c Hval), validateInputs_fst,
      Hc.
    cbn [formData errors result]. unfold resultCard.
    cbn [result showResult]. rewrite Hr, Hsh.
    split; [reflexivity | split; [reflexivity | split]].
    + intros He. exfalso. rewrite <- Hc in He.
      apply validateInputs_snd in He. congruence.
    + intros _. split; reflexivity.
Qed.

Lemma typing_a_crop_parameter_recalculates_witness :
  let shown := calculateWaterVolume false (scenario "100") in
  resultCard shown = Some "5.08 L" /\
  resultCard (typeInto Field.moistureContent "36.25" shown)
  = Some "2.54 L" /\
  resultCard (typeInto Field.moistureContent "120" shown)
  = Some "5.08 L" /\
  ValidationErrors.moistureContent
    (errors (typeInto Field.moistureContent "120" shown))
  = Some "Moisture content must be between 0 and 100%".
Proof.
  intros shown.
  assert (Hs : showResult shown = true) by (vm_compute; reflexivity).
  assert (Hm : truthy (FormData.totalMass (formData shown)) = true)
    by (vm_compute; reflexivity).
  assert (Hf : Field.moistureContent = Field.biomassFactor \/
               Field.moistureContent = Field.moistureContent)
    by (right; reflexivity).
  destruct (typing_a_crop_parameter_recalculates Field.moistureContent
              "36.25" shown Hf ltac:(vm_compute; discriminate) Hs Hm)
    as (_ & _ & Hok & _).
  destruct (typing_a_crop_parameter_recalculates Field.moistureContent
              "120" shown Hf ltac:(vm_compute; discriminate) Hs Hm)
    as (_ & He & _ & Hbad).
  split; [vm_compute; reflexivity | ].
  split.
  - destruct Hok as [_ ->]; vm_compute; reflexivity.
  - split.
    + destruct Hbad as [_ ->]; [ | vm_compute; reflexivity].
      vm_compute. discriminate.
    + rewrite He. vm_compute. reflexivity.
Defined.

(** ** Choosing a crop *)

Lemma newErrors_empty (fd : FormData.t) :
  newErrors fd = ValidationErrors.empty <->
  totalMass_fails (FormData.totalMass fd) = false /\
  percent_fails (FormData.lossFraction fd) = false /\
  positive_fails (FormData.processingFactor fd) = false /\
  percent_fails (FormData.moistureContent fd) = false /\
  percent_fails (FormData.recoveryEfficiency fd) = false /\
  positive_fails (FormData.biomassFactor fd) = false.
Proof.
  rewrite <- (validateInputs_true
                (mkAppState fd ValidationErrors.empty None false false false
                   false)).
  symmetry. apply validateInputs_snd.
Qed.

Lemma calculateWaterVolume_fields (skip : bool) (st : AppState) :
  errors (calculateWaterVolume skip st) = newErrors (formData st) /\
  result (calculateWaterVolume skip st)
  = (if snd (validateInputs st) then Some (waterVolume (formData st))
     else result st) /\
  isDropdownOpen (calculateWaterVolume skip st) = isDropdownOpen st.
Proof.
  destruct (snd (validateInputs st)) eqn:Hv.
  - rewrite (calculateWaterVolume_valid skip st Hv). repeat split.
  - rewrite (calculateWaterVolume_invalid skip st Hv). repeat split.
Qed.

Lemma find_crop_In (id : string) (crop : CropType.t) :
  find_crop id = Some crop -> In crop CROP_TYPES.
Proof. unfold find_crop. intros H. now apply find_some in H. Qed.

Lemma resultCard_shown (st : AppState) (v : number) :
  result st = Some v -> showResult st = true ->
  resultCard st = Some (formatResult v).
Proof. unfold resultCard. now intros -> ->. Qed.

(** X9.  Choosing another crop of the catalog while a result is on display and
    the mass is not empty refills the biomass factor and the moisture
    content and validates the refilled form.  If it is valid the result
    becomes the volume of the refilled form; if it is not, the errors
    appear and the result stays. *)
Theorem choosing_a_crop_recalculates (cropId : string) (crop : CropType.t)
        (st : AppState) :
  find_crop cropId = Some crop ->
  cropId <> FormData.cropType (formData st) ->
  showResult st = true ->
  truthy (FormData.totalMass (formData st)) = true ->
  let fd := formData st in
  let fd' := FormData.mk cropId (FormData.totalMass fd)
               (FormData.lossFraction fd) (FormData.processingFactor fd)
               (toString (CropType.moistureContent crop))
               (FormData.recoveryEfficiency fd)
               (toString (CropType.biomassFactor crop)) in
  let st' := chooseCrop cropId st in
  formData st' = fd' /\
  errors st' = newErrors fd' /\
  isDropdownOpen st' = false /\
  (newErrors fd' = ValidationErrors.empty ->
   result st' = Some (waterVolume fd') /\
   resultCard st' = Some (formatResult (waterVolume fd'))) /\
  (newErrors fd' <> ValidationErrors.empty ->
   result st' = result st /\ resultCard st' = resultCard st).
Proof.
  intros Hfind Hid Hs Hm fd fd' st'.
  set (c := handleCropTypeChange cropId st).
  set (s1 := runEffects st c).
  assert (Hst' : st' = runEffects c s1) by reflexivity.
  assert (Hcond : showResult c
                  && truthy (FormData.totalMass (formData c)) = true).
  { cbn [c handleCropTypeChange showResult formData FormData.totalMass].
    now rewrite Hs, Hm. }
  assert (Hfd' : cropChangeEffect (formData c) = fd').
  { unfold cropChangeEffect.
    cbn [c handleCropTypeChange formData FormData.cropType
         FormData.totalMass FormData.lossFraction FormData.processingFactor
         FormData.recoveryEfficiency].
    rewrite Hfind. reflexivity. }
  (* If the refilled form is not valid, the form before the refill is not
     valid either. *)
  assert (Hinv : snd (validateInputs c) = true ->
                 newErrors fd' = ValidationErrors.empty).
  { intros Hv. apply validateInputs_true in Hv.
    destruct Hv as (V1 & V2 & V3 & _ & V5 & _).
    destruct (catalog_values_valid crop (find_crop_In _ _ Hfind))
      as [Vb Vm].
    apply newErrors_empty. repeat split; assumption. }
  destruct (calculateWaterVolume_fields true c) as (Ce & Cr & Cd).
  pose proof (calculateWaterVolume_showResult true c) as Csh.
  assert (Hs1 : s1 = mkAppState fd' (newErrors (formData c))
                       (result (calculateWaterVolume true c))
                       (isCalculating (calculateWaterVolume true c))
                       true false (showCreditsModal
                                     (calculateWaterVolume true c))).
  { unfold s1, runEffects.
    assert (Hch : negb (String.eqb (FormData.cropType (formData st))
                                   (FormData.cropType (formData c))) = true).
    { apply negb_true_iff, String.eqb_neq.
      cbn [c handleCropTypeChange formData FormData.cropType]. congruence. }
    rewrite Hch. cbn [orb].
    rewrite (recalculateEffect_calculates c Hcond), Hfd', Ce, Cd, Csh.
    cbn [c handleCropTypeChange showResult isDropdownOpen].
    rewrite Hs. now destruct (snd (validateInputs _)). }
  assert (Hcrop : FormData.cropType (formData c)
                  = FormData.cropType (formData s1)).
  { rewrite Hs1. reflexivity. }
  rewrite Hst', (runEffects_same_crop c s1 Hcrop).
  destruct (negb (String.eqb (FormData.biomassFactor (formData c))
                             (FormData.biomassFactor (formData s1))) ||
            negb (String.eqb (FormData.moistureContent (formData c))
                             (FormData.moistureContent (formData s1))))
    eqn:Hch.
  - (* The refill changed a text: the second effect runs once more. *)
    assert (Hcond1 : showResult s1
                     && truthy (FormData.totalMass (formData s1)) = true).
    { rewrite Hs1. cbn [showResult formData fd' FormData.totalMass].
      exact Hm. }
    rewrite (recalculateEffect_calculates s1 Hcond1).
    destruct (calculateWaterVolume_fields true s1) as (Ce1 & Cr1 & Cd1).
    pose proof (calculateWaterVolume_showResult true s1) as Csh1.
    rewrite calculateWaterVolume_formData, Ce1, Cd1.
    assert (Hf1 : formData s1 = fd') by (rewrite Hs1; reflexivity).
    assert (Hsh1 : showResult s1 = true) by (rewrite Hs1; reflexivity).
    rewrite Hf1.
    split; [reflexivity | split; [reflexivity | split]].
    { rewrite Hs1. reflexivity. }
    split.
    + intros He.
      assert (Hv1 : snd (validateInputs s1) = true).
      { apply validateInputs_snd. now rewrite Hf1. }
      rewrite Hv1, Hf1 in Cr1. split; [exact Cr1 | ].
      apply resultCard_shown; [exact Cr1 | ].
      now rewrite Csh1, Hv1.
    + intros Hne.
      assert (Hv1 : snd (validateInputs s1) = false).
      { destruct (snd (validateInputs s1)) eqn:E; [ | reflexivity].
        exfalso. apply Hne. apply validateInputs_snd in E.
        now rewrite Hf1 in E. }
      assert (Hvc : snd (validateInputs c) = false).
      { destruct (snd (validateInputs c)); [ | reflexivity].
        exfalso. now apply Hne, Hinv. }
      rewrite Hv1 in Cr1. rewrite Hvc in Cr.
      assert (Hr : result (calculateWaterVolume true s1) = result st).
      { rewrite Cr1, Hs1. cbn [result]. exact Cr. }
      split; [exact Hr | ].
      apply resultCard_same; [exact Hr | ].
      now rewrite Csh1, Hv1, Hsh1, Hs.
  - (* The catalog values are the texts the form held: nothing to redo. *)
    apply orb_false_iff in Hch. destruct Hch as [Hb Hmc].
    apply negb_false_iff, String.eqb_eq in Hb.
    apply negb_false_iff, String.eqb_eq in Hmc.
    assert (Hc : formData c = fd').
    { rewrite Hs1 in Hb, Hmc.
      cbn [formData fd' FormData.biomassFactor FormData.moistureContent]
        in Hb, Hmc.
      cbn [c handleCropTypeChange formData FormData.biomassFactor
           FormData.moistureContent] in Hb, Hmc |- *.
      unfold fd'. fold fd. now rewrite <- Hb, <- Hmc. }
    rewrite Hs1. cbn [formData errors isDropdownOpen result].
    rewrite Hc.
    split; [reflexivity | split; [reflexivity | split; [reflexivity | ]]].
    rewrite Hc in Cr.
    split.
    + intros He.
      assert (Hv : snd (validateInputs c) = true).
      { apply validateInputs_snd. now rewrite Hc. }
      rewrite Hv in Cr. split; [exact Cr | ].
      now apply resultCard_shown.
    + intros Hne.
      assert (Hvc : snd (validateInputs c) = false).
      { destruct (snd (validateInputs c)); [ | reflexivity].
        exfalso. now apply Hne, Hinv. }
      rewrite Hvc in Cr. split; [exact Cr | ].
      apply resultCard_same; [exact Cr | ]. exact (eq_sym Hs).
Qed.

Lemma choosing_a_crop_recalculates_witness :
  let shown := calculateWaterVolume false (scenario "100") in
  resultCard shown = Some "5.08 L" /\
  FormData.biomassFactor (formData (chooseCrop "koroneiki-olive" shown))
  = "0.2" /\
  FormData.moistureContent (formData (chooseCrop "koroneiki-olive" shown))
  = "70" /\
  resultCard (chooseCrop "koroneiki-olive" shown) = Some "5.60 L".
Proof.
  intros shown.
  destruct (choosing_a_crop_recalculates "koroneiki-olive"
              (CropType.mk "koroneiki-olive" "Koroneiki Olive"
                 "Olea europaea L. cv. Koroneiki"
                 (of_decimal false 20 (-2)) (of_Z 70))
              shown ltac:(vm_compute; reflexivity)
              ltac:(vm_compute; discriminate)
              ltac:(vm_compute; reflexivity) ltac:(vm_compute; reflexivity))
    as (Hf & _ & _ & Hok & _).
  split; [vm_compute; reflexivity | ].
  rewrite Hf. split; [vm_compute; reflexivity | ].
  split; [vm_compute; reflexivity | ].
  destruct Hok as [_ ->]; vm_compute; reflexivity.
Defined.

(** X10.  While no result is on display, or while the mass is empty, neither
    choosing a crop nor typing into a field validates or calculates: the
    errors and the result are those the handler leaves, and choosing a crop
    comes to the handler followed by the refill of the form. *)
Theorem no_validation_without_a_result (st : AppState) :
  showResult st && truthy (FormData.totalMass (formData st)) = false ->
  (forall cropId, chooseCrop cropId st = selectCrop cropId st) /\
  (forall cropId,
      errors (chooseCrop cropId st) = errors st /\
      result (chooseCrop cropId st) = result st /\
      showResult (chooseCrop cropId st) = showResult st) /\
  (forall f v, f <> Field.cropType ->
               typeInto f v st = handleInputChange f v st).
Proof.
  intros Hcond.
  assert (Hchoose : forall cropId, chooseCrop cropId st = selectCrop cropId st).
  { intros cropId. unfold chooseCrop, settle, selectCrop.
    set (c := handleCropTypeChange cropId st).
    assert (Hc : recalculateEffect c = c).
    { apply recalculateEffect_idle. exact Hcond. }
    assert (H1 : runEffects st c =
                 if String.eqb (FormData.cropType (formData st)) cropId
                 then c
                 else mkAppState (cropChangeEffect (formData c)) (errors c)
                        (result c) (isCalculating c) (showResult c)
                        (isDropdownOpen c) (showCreditsModal c)).
    { unfold runEffects. rewrite Hc.
      change (FormData.cropType (formData c)) with cropId.
      destruct (String.eqb (FormData.cropType (formData st)) cropId);
        cbn [negb orb]; [ | reflexivity].
      now destruct (_ || _). }
    rewrite H1.
    set (s1 := if String.eqb (FormData.cropType (formData st)) cropId
               then c else _).
    assert (Hcrop : FormData.cropType (formData c)
                    = FormData.cropType (formData s1)).
    { unfold s1. destruct (String.eqb _ cropId); [reflexivity | ].
      cbn [formData]. symmetry. apply cropChangeEffect_cropType. }
    rewrite (runEffects_same_crop c s1 Hcrop).
    assert (Hs1 : recalculateEffect s1 = s1).
    { apply recalculateEffect_idle. unfold s1.
      destruct (String.eqb _ cropId); [exact Hcond | ].
      cbn [showResult formData]. unfold cropChangeEffect.
      destruct (find_crop _); exact Hcond. }
    rewrite Hs1. now destruct (_ || _). }
  split; [exact Hchoose | split].
  - intros cropId. rewrite Hchoose. unfold selectCrop.
    destruct (String.eqb _ cropId); repeat split.
  - intros f v Hf. unfold typeInto, settle.
    set (c := handleInputChange f v st).
    assert (Hfd : formData c = set_field f v (formData st))
      by apply handleInputChange_formData.
    destruct (handleInputChange_result f v st) as (_ & Hsh & _).
    fold c in Hsh.
    assert (Hcrop : FormData.cropType (formData st)
                    = FormData.cropType (formData c)).
    { rewrite Hfd. destruct f; try reflexivity. contradiction. }
    assert (H1 : runEffects st c = c).
    { rewrite (runEffects_same_crop st c Hcrop).
      destruct (_ || _) eqn:Hch; [ | reflexivity].
      apply recalculateEffect_idle. rewrite Hsh.
      destruct (showResult st); [ | reflexivity].
      cbn [andb] in Hcond |- *.
      destruct f; try (rewrite Hfd; exact Hcond).
      (* the mass itself: the effects do not depend on it *)
      exfalso. rewrite Hfd in Hch. cbn in Hch.
      now rewrite !String.eqb_refl in Hch. }
    rewrite H1. now apply runEffects_idle.
Qed.

Lemma no_validation_without_a_result_witness :
  chooseCrop "apple-tree" initialState = selectCrop "apple-tree" initialState
  /\ errors (typeInto Field.moistureContent "120" initialState)
     = ValidationErrors.empty.
Proof.
  destruct (no_validation_without_a_result initialState eq_refl)
    as (Hc & _ & Ht).
  split; [apply Hc | ].
  rewrite Ht by discriminate. reflexivity.
Defined.

(** X11.  Choosing the crop that is selected already only closes the list: no
    effect runs, so a biomass factor or moisture content that the user has
    typed over the catalog value is not put back. *)
Theorem choosing_the_same_crop_keeps_the_form (st : AppState) :
  chooseCrop (FormData.cropType (formData st)) st =
  mkAppState (formData st) (errors st) (result st) (isCalculating st)
    (showResult st) false (showCreditsModal st).
Proof.
  unfold chooseCrop.
  rewrite settle_idle by reflexivity.
  unfold handleCropTypeChange. now destruct (formData st).
Qed.

(** ** Typing and the errors on display *)

(** X12.  Typing into a field leaves no error on display for that field, even
    when the text typed is itself invalid, and leaves the errors of the
    other fields as they were: nothing is validated while typing. *)
Theorem typing_clears_only_that_error (f g : Field.t) (v : string)
        (st : AppState) :
  g <> f ->
  truthy_error (error_of f (errors (handleInputChange f v st))) = false /\
  error_of g (errors (handleInputChange f v st)) = error_of g (errors st).
Proof.
  intros Hg. unfold handleInputChange.
  destruct (truthy_error (error_of f (errors st))) eqn:E; cbn [errors].
  - split.
    + destruct f; reflexivity || (cbn in E; discriminate E).
    + destruct f, g; try reflexivity; contradiction.
  - split; [exact E | reflexivity].
Qed.

Lemma typing_clears_only_that_error_witness :
  let failed := calculateWaterVolume false
                  (mkAppState
                     (FormData.mk "tunisian-olive" "" "150" "1.0" "72.5" "50"
                        "0.175")
                     ValidationErrors.empty None false false false false) in
  let st := handleInputChange Field.lossFraction "-3" failed in
  ValidationErrors.lossFraction (errors failed)
  = Some "Loss fraction must be between 0 and 100%" /\
  truthy_error (ValidationErrors.lossFraction (errors st)) = false /\
  ValidationErrors.totalMass (errors st)
  = Some "Please enter a valid positive mass value".
Proof.
  intros failed st.
  destruct (typing_clears_only_that_error Field.lossFraction Field.totalMass
              "-3" failed ltac:(discriminate)) as [H1 H2].
  split; [vm_compute; reflexivity | split; [exact H1 | ]].
  change (ValidationErrors.totalMass (errors st))
    with (error_of Field.totalMass (errors st)).
  unfold st. rewrite H2. vm_compute. reflexivity.
Defined.

(** ** From the initial form to a result *)

Lemma find_crop_id (id : string) (crop : CropType.t) :
  find_crop id = Some crop -> CropType.id crop = id.
Proof.
  unfold find_crop. intros H. apply find_some in H.
  destruct H as [_ H]. now apply String.eqb_eq.
Qed.

Lemma typeInto_totalMass (v : string) (st : AppState) :
  typeInto Field.totalMass v st = handleInputChange Field.totalMass v st.
Proof.
  unfold typeInto.
  apply settle_idle; rewrite handleInputChange_formData; reflexivity.
Qed.

(** What [parseFloat] reads from the defaults of the form and from the
    texts that the refill writes. *)
Lemma parse_defaults :
  parseFloat "20" = of_Z 20 /\ parseFloat "1.0" = of_Z 1 /\
  parseFloat "50" = of_Z 50 /\
  (forall crop, In crop CROP_TYPES ->
     parseFloat (toString (CropType.biomassFactor crop))
     = CropType.biomassFactor crop /\
     parseFloat (toString (CropType.moistureContent crop))
     = CropType.moistureContent crop).
Proof.
  split; [vm_compute; reflexivity | ].
  split; [vm_compute; reflexivity | ].
  split; [vm_compute; reflexivity | ].
  intros crop Hin. cbn [In CROP_TYPES] in Hin.
  destruct Hin as [<- | [<- | [<- | [<- | []]]]];
    split; vm_compute; reflexivity.
Qed.

(** X13.  From the initial form, choosing any crop of the catalog and typing any
    mass that passes its check gives a valid form: the defaults of the other
    fields and the values written by the refill all pass.  Calculate then
    stores the volume of the formula at the numbers of the catalog entry
    themselves, which survive being written into the form as text and read
    back, with a loss of 20 percent, a processing factor of 1 and an
    efficiency of 50 percent. *)
Theorem defaults_give_a_result (cropId mass : string) (crop : CropType.t) :
  find_crop cropId = Some crop ->
  totalMass_fails mass = false ->
  let st := typeInto Field.totalMass mass (chooseCrop cropId initialState) in
  snd (validateInputs st) = true /\
  result (calculateWaterVolume false st)
  = Some (waterVolumeLiters (parseFloat mass) (CropType.biomassFactor crop)
            (of_Z 20) (of_Z 1) (CropType.moistureContent crop) (of_Z 50)).
Proof.
  intros Hfind Hmass st.
  pose proof (find_crop_In _ _ Hfind) as Hin.
  pose proof (find_crop_id _ _ Hfind) as Hid.
  destruct parse_defaults as (P20 & P1 & P50 & Pcrop).
  destruct (Pcrop crop Hin) as [Pb Pm].
  destruct (catalog_values_valid crop Hin) as [Vb Vm].
  assert (Hst : formData st
                = FormData.mk cropId mass "20" "1.0"
                    (toString (CropType.moistureContent crop)) "50"
                    (toString (CropType.biomassFactor crop))).
  { unfold st. rewrite typeInto_totalMass, handleInputChange_formData.
    subst cropId. cbn [In CROP_TYPES] in Hin.
    destruct Hin as [<- | [<- | [<- | [<- | []]]]]; vm_compute; reflexivity. }
  assert (Hv : snd (validateInputs st) = true).
  { apply validateInputs_true. rewrite Hst.
    cbn [FormData.totalMass FormData.lossFraction FormData.processingFactor
         FormData.moistureContent FormData.recoveryEfficiency
         FormData.biomassFactor].
    repeat split; try assumption; vm_compute; reflexivity. }
  split; [exact Hv | ].
  rewrite (calculateWaterVolume_valid false st Hv). cbn [result].
  rewrite Hst. unfold waterVolume.
  cbn [FormData.totalMass FormData.lossFraction FormData.processingFactor
       FormData.moistureContent FormData.recoveryEfficiency
       FormData.biomassFactor].
  rewrite P20, P1, P50, Pb, Pm. reflexivity.
Qed.

Lemma defaults_give_a_result_witness :
  let st := typeInto Field.totalMass "100"
              (chooseCrop "apple-tree" initialState) in
  snd (validateInputs st) = true /\
  result (calculateWaterVolume false st)
  = Some (waterVolumeLiters (of_Z 100) (of_decimal false 12 (-2)) (of_Z 20)
            (of_Z 1) (of_Z 80) (of_Z 50)).
Proof.
  exact (defaults_give_a_result "apple-tree" "100"
           (CropType.mk "apple-tree" "Apple Tree" "Malus domestica"
              (of_decimal false 12 (-2)) (of_Z 80))
           ltac:(vm_compute; reflexivity) ltac:(vm_compute; reflexivity)).
Defined.

(** ** Percentages as fractions *)

(** A hundredth of a percentage that validation accepts is a zero or a
    positive number whose mantissa and exponent bound it by one. *)
Lemma percent_fraction (s : string) :
  percent_fails s = false ->
  match div (parseFloat s) (of_Z 100) with
  | S754_zero _ => True
  | S754_finite sg m e => sg = false /\ e <= 0 /\ Zpos m <= 2 ^ (0 - e)
  | _ => False
  end.
Proof.
  intros H.
  destruct (percent_ok_cases s H) as [[sg ->] | (m & e & -> & Hm & He)].
  - rewrite of_Z_100. exact I.
  - pose proof (div_100_le_1 m e Hm He) as Hd.
    destruct (div _ _); auto.
Qed.

Lemma fraction_le_1 (y : number) :
  wf y = true ->
  match y with
  | S754_zero _ => True
  | S754_finite sg m e => sg = false /\ e <= 0 /\ Zpos m <= 2 ^ (0 - e)
  | _ => False
  end ->
  le y (of_Z 1) = true.
Proof.
  rewrite of_Z_1.
  destruct y as [sg | sg | | sg m e]; intros Hwf Hy; try contradiction.
  - reflexivity.
  - destruct Hy as (-> & He & Hm).
    destruct (wf_finite _ _ _ Hwf) as (Hlt & Hn & Hr).
    apply le_finite_pos.
    destruct (Z_lt_le_dec e (-52)) as [ | Hge]; [now left | right].
    assert (Hp : 2 ^ (0 - e) <= 2 ^ 52) by (apply Z.pow_le_mono_r; lia).
    change (2 ^ 52) with 4503599627370496 in *.
    destruct Hn as [-> | Hn]; [lia | ].
    assert (E : e = -52).
    { destruct (Z.eq_dec e (-52)) as [ | Hne]; [assumption | exfalso].
      assert (2 ^ (0 - e) <= 2 ^ 51) by (apply Z.pow_le_mono_r; lia).
      change (2 ^ 51) with 2251799813685248 in *. lia. }
    subst e. change (2 ^ (0 - -52)) with 4503599627370496 in Hm. lia.
Qed.

Lemma binary_normalize_not_nan (z e : Z) (s : bool) :
  isNaN (binary_normalize prec emax z e s) = false.
Proof.
  destruct z as [ | p | p ]; cbn [binary_normalize]; [reflexivity | | ];
    unfold binary_round; destruct (shl_align _ _ _) as [mz ez];
    match goal with
    | |- isNaN (binary_round_aux _ _ ?sg _ _ _) = false =>
        pose proof (binary_round_aux_sign sg (Zpos mz) ez loc_Exact
                      ltac:(lia)) as Hs
    end;
    destruct (binary_round_aux _ _ _ _ _ _); try reflexivity; contradiction.
Qed.

(** X14.  The three percentages enter the formula as fractions: a hundredth of
    a percentage that validation accepts lies between 0 and 1, and so does
    one minus it at its lower end. *)
Theorem accepted_percentage_is_a_fraction (s : string) :
  percent_fails s = false ->
  let y := div (parseFloat s) (of_Z 100) in
  le (of_Z 0) y = true /\ le y (of_Z 1) = true /\
  le (of_Z 0) (sub (of_Z 1) y) = true.
Proof.
  intros H y.
  pose proof (percent_fraction s H) as Hy. fold y in Hy.
  assert (Hle : le y (of_Z 1) = true).
  { apply fraction_le_1; [apply div_wf | exact Hy]. }
  destruct (le_true_numbers _ _ Hle) as [Hnan _].
  split; [ | split; [exact Hle | ]].
  - apply nonneg_le_0; [now apply percent_nonneg | exact Hnan].
  - apply nonneg_le_0; [now apply one_minus_percent_nonneg | ].
    rewrite of_Z_1. clear - Hy.
    destruct y as [sg | sg | | sg m e]; try contradiction.
    + reflexivity.
    + unfold sub, SFsub. apply binary_normalize_not_nan.
Qed.

Lemma accepted_percentage_is_a_fraction_witness :
  le (div (parseFloat "72.5") (of_Z 100)) (of_Z 1) = true /\
  le (of_Z 0) (sub (of_Z 1) (div (parseFloat "72.5") (of_Z 100))) = true.
Proof.
  destruct (accepted_percentage_is_a_fraction "72.5"
              ltac:(vm_compute; reflexivity)) as (_ & H1 & H2).
  exact (conj H1 H2).
Defined.

(** ** Factors that are zero *)

Lemma mul_zero_r (x : number) (s : bool) :
  zero_or_nan (mul x (S754_zero s)) = true.
Proof. destruct x; reflexivity. Qed.

Lemma mul_zero_or_nan_l (x y : number) :
  zero_or_nan x = true -> zero_or_nan (mul x y) = true.
Proof. destruct x, y; try discriminate; reflexivity. Qed.

Lemma div_zero_or_nan (x : number) (m : positive) (e : Z) :
  zero_or_nan x = true ->
  zero_or_nan (div x (S754_finite false m e)) = true.
Proof. destruct x; try discriminate; reflexivity. Qed.

Lemma formatResult_zero_or_nan (v : number) :
  zero_or_nan v = true ->
  formatResult v = "0.00 mL" \/ formatResult v = "NaN " ++ cubic_metres.
Proof.
  destruct v as [[ | ] | sg | | sg m e]; try discriminate; intros _;
    [left | left | right]; vm_compute; reflexivity.
Qed.

(** X15.  A loss of 100 percent, a moisture content of zero or a recovery
    efficiency of zero, all of which validation accepts, leave no water:
    the volume is a zero, shown as 0.00 mL.  The one exception is a product
    of the other factors that has overflowed, which times zero is NaN. *)
Theorem a_zero_factor_leaves_no_water (fd : FormData.t) :
  parseFloat (FormData.lossFraction fd) = of_Z 100 \/
  (exists s, parseFloat (FormData.moistureContent fd) = S754_zero s) \/
  (exists s, parseFloat (FormData.recoveryEfficiency fd) = S754_zero s) ->
  zero_or_nan (waterVolume fd) = true /\
  (formatResult (waterVolume fd) = "0.00 mL" \/
   formatResult (waterVolume fd) = "NaN " ++ cubic_metres).
Proof.
  intros H.
  assert (Hz : zero_or_nan (waterVolume fd) = true).
  { unfold waterVolume, WATER_DENSITY. rewrite of_Z_1.
    apply div_zero_or_nan.
    destruct H as [H | [[s H] | [s H]]]; rewrite H.
    - assert (E : sub (S754_finite false 4503599627370496 (-52))
                      (div (of_Z 100) (of_Z 100)) = S754_zero false)
        by (vm_compute; reflexivity).
      rewrite E.
      apply mul_zero_or_nan_l, mul_zero_or_nan_l, mul_zero_or_nan_l,
        mul_zero_r.
    - rewrite of_Z_100. apply mul_zero_or_nan_l.
      apply (mul_zero_r _ (xorb s false)).
    - rewrite of_Z_100. apply (mul_zero_r _ (xorb s false)). }
  split; [exact Hz | now apply formatResult_zero_or_nan].
Qed.

Lemma a_zero_factor_leaves_no_water_witness :
  let fd := FormData.mk "tunisian-olive" "100" "100" "1.0" "72.5" "50"
              "0.175" in
  newErrors fd = ValidationErrors.empty /\
  zero_or_nan (waterVolume fd) = true /\
  formatResult (waterVolume fd) = "0.00 mL".
Proof.
  intros fd.
  assert (H : parseFloat (FormData.lossFraction fd) = of_Z 100)
    by (vm_compute; reflexivity).
  destruct (a_zero_factor_leaves_no_water fd (or_introl H)) as [Hz _].
  split; [vm_compute; reflexivity | split; [exact Hz | ]].
  vm_compute. reflexivity.
Defined.

(** ** Multiplying by a fraction *)

Section Fractions.

Lemma shifted_bound_by (m e M E : Z) :
0 < M < 2 ^ 53 -> -1074 <= E -> e <= E -> 0 <= m <= M * 2 ^ (E - e) ->
let s := shifted m e (fexp prec emax (Zdigits2 m + e) - e) in
snd s <= E /\ 0 <= fst s <= M * 2 ^ (E - snd s) /\
(m < M * 2 ^ (E - e) -> fst s < M * 2 ^ (E - snd s)).
Proof.
intros HM HE He [H0 Hm] s. subst s. unfold shifted.
set (n := fexp prec emax (Zdigits2 m + e) - e).
destruct (0 <? n) eqn:En; cbn [fst snd]; [ | repeat split; auto; lia].
apply Z.ltb_lt in En.
assert (Hd : Zdigits2 m <= 53 + (E - e)).
{ apply Zdigits2_le; [lia | split; [assumption | ]].
  rewrite pow2_split by lia.
  assert (0 < 2 ^ (E - e)) by (apply Z.pow_pos_nonneg; lia).
  clear - HM Hm H. generalize dependent (2 ^ (E - e)).
  generalize dependent (2 ^ 53). intros; nia. }
assert (Hn : e + n <= E).
{ unfold n. rewrite fexp_eq. clear - Hd HE He. lia. }
assert (Hp : 0 < 2 ^ n) by (apply Z.pow_pos_nonneg; lia).
assert (Hq : 0 < 2 ^ (E - (e + n))) by (apply Z.pow_pos_nonneg; lia).
assert (Hs : 2 ^ (E - e) = 2 ^ n * 2 ^ (E - (e + n))).
{ rewrite <- pow2_split by lia. f_equal. lia. }
rewrite Hs in Hm |- *.
clear - Hn H0 Hm Hp Hq HM.
generalize dependent (2 ^ (E - (e + n))). generalize dependent (2 ^ n).
intros P HP Q Hm HQ.
repeat split.
- exact Hn.
- apply Z.div_pos; lia.
- apply Z.div_le_upper_bound; [exact HP | nia].
- intros Hlt. apply Z.div_lt_upper_bound; [exact HP | nia].
Qed.

(** A value below a number of the format, given by its mantissa [M] and
  exponent [E], rounds to a value that is at most that number. *)
Lemma binary_round_aux_below (sx : bool) (mx ex : Z) (lx : location)
    (M E : Z) :
0 < M < 2 ^ 53 -> -1074 <= E <= 971 ->
ex <= E -> 0 <= mx < M * 2 ^ (E - ex) ->
match binary_round_aux prec emax sx mx ex lx with
| S754_zero s => s = sx
| S754_finite s m e => s = sx /\ e <= E /\ Zpos m <= M * 2 ^ (E - e)
| _ => False
end.
Proof.
intros HM [HE HE'] He [H0 Hm].
destruct (binary_round_aux_shape sx mx ex lx H0) as [m2 [Hb ->]].
cbv zeta in *.
destruct (shifted_bound_by mx ex M E HM HE He ltac:(lia))
  as (He1 & Hm1 & Hlt).
cbv zeta in *. specialize (Hlt Hm).
set (s1 := shifted mx ex _) in *.
destruct (shifted_bound_by m2 (snd s1) M E HM HE He1 ltac:(lia))
  as (He3 & Hm3 & _).
cbv zeta in *.
set (s3 := shifted m2 _ _) in *.
destruct (fst s3) eqn:E3; try reflexivity; try lia.
replace (snd s3 <=? emax - prec) with true
  by (symmetry; apply Z.leb_le; unfold emax, prec; lia).
repeat split; auto; lia.
Qed.

Lemma shr_1_even (m : Z) :
0 <= m ->
shr_1 (Build_shr_record (2 * m) false false) = Build_shr_record m false false.
Proof. destruct m as [ | p | p ]; try lia; reflexivity. Qed.

(** Shifting out bits that are all zero leaves an exact record. *)
Lemma iter_shr_1_exact (p : positive) :
forall m, 0 <= m ->
  iter_pos shr_1 p (Build_shr_record (m * 2 ^ Zpos p) false false)
  = Build_shr_record m false false.
Proof.
induction p as [p IH | p IH | ]; intros m Hm; cbn [iter_pos].
- assert (Hp : 0 <= 2 ^ Zpos p) by (apply Z.pow_nonneg; lia).
  replace (m * 2 ^ Zpos p~1) with (2 * (m * 2 ^ Zpos p * 2 ^ Zpos p)).
  + rewrite shr_1_even, IH, IH; try reflexivity; try assumption;
      repeat apply Z.mul_nonneg_nonneg; assumption.
  + rewrite (Pos2Z.inj_xI p), Z.pow_add_r, Z.pow_twice_r by lia.
    change (2 ^ 1) with 2. ring.
- assert (Hp : 0 <= 2 ^ Zpos p) by (apply Z.pow_nonneg; lia).
  replace (m * 2 ^ Zpos p~0) with (m * 2 ^ Zpos p * 2 ^ Zpos p).
  + rewrite IH, IH; try reflexivity; try assumption.
    apply Z.mul_nonneg_nonneg; assumption.
  + rewrite (Pos2Z.inj_xO p), Z.pow_twice_r. ring.
- change (2 ^ 1) with 2. rewrite Z.mul_comm. now apply shr_1_even.
Qed.

(** A mantissa in canonical position, written with [k] more bits that are
  all zero, rounds to itself. *)
Lemma binary_round_aux_shift_exact (s : bool) (m : positive) (e k : Z) :
in_format (Zpos m, e) -> e <= 971 -> 0 < k ->
binary_round_aux prec emax s (Zpos m * 2 ^ k) (e - k) loc_Exact
= S754_finite s m e.
Proof.
intros F He Hk.
assert (D : Zdigits2 (Zpos m * 2 ^ k) = Zdigits2 (Zpos m) + k)
  by (apply Zdigits2_shift; lia).
pose proof (fexp_in_format (Zpos m) e ltac:(lia) F) as Hf.
unfold binary_round_aux.
assert (S : shr_fexp prec emax (Zpos m * 2 ^ k) (e - k) loc_Exact
            = (Build_shr_record (Zpos m) false false, e)).
{ unfold shr_fexp. rewrite D.
  replace (Zdigits2 (Zpos m) + k + (e - k)) with (Zdigits2 (Zpos m) + e)
    by lia.
  rewrite Hf. replace (e - (e - k)) with k by lia.
  unfold shr. destruct k as [ | p | p ]; try lia.
  cbn [shr_record_of_loc]. rewrite iter_shr_1_exact by lia.
  f_equal. lia. }
assert (S' : shr_fexp prec emax (Zpos m) e loc_Exact
             = (Build_shr_record (Zpos m) false false, e)).
{ unfold shr_fexp. rewrite Hf.
  replace (e - e) with 0 by lia. reflexivity. }
rewrite S. cbn [shr_m loc_of_shr_record round_nearest_even].
rewrite S'. cbn [shr_m].
replace (e <=? emax - prec) with true; [reflexivity | ].
symmetry. apply Z.leb_le. unfold emax, prec. lia.
Qed.

(** Multiplying a canonical number by one returns it. *)
Lemma mul_one (x : number) : wf x = true -> mul x (of_Z 1) = x.
Proof.
rewrite of_Z_1.
destruct x as [s | s | | s m e]; intros Hwf; try reflexivity.
- cbn. now rewrite xorb_false_r.
- cbn. now rewrite xorb_false_r.
- destruct (wf_finite _ _ _ Hwf) as (Hm & Hn & He).
  unfold mul, SFmul. rewrite xorb_false_r.
  rewrite (Pos2Z.inj_mul m 4503599627370496).
  change (Zpos 4503599627370496) with (2 ^ 52).
  replace (e + -52) with (e - 52) by lia.
  apply binary_round_aux_shift_exact; [ | lia | lia].
  unfold in_format. cbn [fst snd]. lia.
Qed.

Lemma lex_eq (a b : Z * Z * Z) : lex a b = Eq -> a = b.
Proof.
destruct a as [[a1 a2] a3], b as [[b1 b2] b3]. unfold lex.
destruct (Z.compare_spec a1 b1); try discriminate.
destruct (Z.compare_spec a2 b2); try discriminate.
destruct (Z.compare_spec a3 b3); try discriminate.
intros _. congruence.
Qed.

Lemma le_trans (x y z : number) :
le x y = true -> le y z = true -> le x z = true.
Proof.
unfold le, SFleb. rewrite !SFcompare_lex.
destruct (key x) as [a | ], (key y) as [b | ], (key z) as [c | ];
  try discriminate.
intros H1 H2.
assert (Hab : lex a b <> Gt) by (destruct (lex a b); congruence).
destruct (lex b c) eqn:Hbc; try discriminate.
- apply lex_eq in Hbc. subst c. exact H1.
- now rewrite (lex_trans a b c Hab Hbc).
Qed.

(** A positive finite number times a fraction of one is at most the
  number. *)
Lemma mul_fraction_le_finite (mx : positive) (ex : Z) (y : number) :
wf (S754_finite false mx ex) = true -> wf y = true ->
match y with
| S754_zero _ => True
| S754_finite sg m e => sg = false /\ e <= 0 /\ Zpos m <= 2 ^ (0 - e)
| _ => False
end ->
le (mul (S754_finite false mx ex) y) (S754_finite false mx ex) = true.
Proof.
intros Hx Hwy Hy.
destruct y as [sg | sg | | sg my ey]; try contradiction.
- reflexivity.
- destruct Hy as (-> & Hey & Hmy).
  destruct (wf_finite _ _ _ Hx) as (Hm & Hn & He).
  destruct (Z.eq_dec (Zpos my) (2 ^ (0 - ey))) as [Heq | Hne].
  + (* the fraction is one *)
    assert (Hy1 : S754_finite false my ey = of_Z 1).
    { rewrite of_Z_1.
      destruct (wf_finite _ _ _ Hwy) as (Hmy' & Hny & Hry).
      assert (E : ey = -52).
      { destruct (Z_lt_le_dec ey (-52)) as [Hlt | Hge].
        - exfalso.
          assert (2 ^ 53 <= 2 ^ (0 - ey))
            by (apply Z.pow_le_mono_r; lia).
          lia.
        - destruct (Z.eq_dec ey (-52)) as [ | Hne]; [assumption | ].
          exfalso.
          assert (2 ^ (0 - ey) <= 2 ^ 51)
            by (apply Z.pow_le_mono_r; lia).
          change (2 ^ 51) with 2251799813685248 in *.
          change (2 ^ 52) with 4503599627370496 in *.
          destruct Hny as [-> | Hny]; lia. }
      subst ey. change (2 ^ (0 - -52)) with 4503599627370496 in Heq.
      f_equal. lia. }
    rewrite Hy1, (mul_one _ Hx). apply le_finite_pos. right. lia.
  + assert (Hlt : Zpos my < 2 ^ (0 - ey)) by lia.
    unfold mul, SFmul. cbn [xorb].
    pose proof (binary_round_aux_below false (Zpos (mx * my)) (ex + ey)
                  loc_Exact (Zpos mx) ex) as Hb.
    assert (Hpre : 0 <= Zpos (mx * my)
                   < Zpos mx * 2 ^ (ex - (ex + ey))).
    { replace (ex - (ex + ey)) with (0 - ey) by lia.
      rewrite (Pos2Z.inj_mul mx my).
      clear - Hlt. generalize dependent (2 ^ (0 - ey)). intros; nia. }
    specialize (Hb ltac:(lia) ltac:(lia) ltac:(lia) Hpre).
    destruct (binary_round_aux _ _ _ _ _ _) as [s | s | | s m e];
      try contradiction.
    * subst s. reflexivity.
    * destruct Hb as (-> & Hle & Hm').
      apply le_finite_pos.
      destruct (Z.eq_dec e ex) as [-> | Hne']; [right | left; lia].
      split; [reflexivity | ].
      replace (ex - ex) with 0 in Hm' by lia.
      change (2 ^ 0) with 1 in Hm'. lia.
Qed.

(** The same for every number that is not negative: the product is NaN
  (infinity times zero, or NaN itself) or at most the number. *)
Lemma mul_fraction_le (x y : number) :
wf x = true -> wf y = true -> nonneg_or_nan x = true ->
match y with
| S754_zero _ => True
| S754_finite sg m e => sg = false /\ e <= 0 /\ Zpos m <= 2 ^ (0 - e)
| _ => False
end ->
isNaN (mul x y) = true \/ le (mul x y) x = true.
Proof.
intros Hx Hwy Hn Hy.
destruct x as [sx | sx | | sx mx ex].
- right. destruct y as [sg | sg | | sg my ey]; try contradiction;
    reflexivity.
- cbn in Hn. apply negb_true_iff in Hn. subst sx.
  destruct y as [sg | sg | | sg my ey]; try contradiction.
  + left. reflexivity.
  + right. destruct Hy as (-> & _). reflexivity.
- left. destruct y; reflexivity.
- cbn in Hn. apply negb_true_iff in Hn. subst sx.
  right. now apply mul_fraction_le_finite.
Qed.

End Fractions.

(** ** The most a form can give *)

Lemma full_fraction :
  div (parseFloat "100") (of_Z 100) = of_Z 1.
Proof. vm_compute. reflexivity. Qed.

(** X16.  The volume of a valid form never exceeds the volume of the same form
    with the moisture content and the recovery efficiency both at 100
    percent; it is NaN only when a product has overflowed to infinity and
    met a factor zero. *)
Theorem volume_at_most_full_recovery (fd : FormData.t) :
  newErrors fd = ValidationErrors.empty ->
  let full := set_field Field.moistureContent "100"
                (set_field Field.recoveryEfficiency "100" fd) in
  isNaN (waterVolume fd) = true \/
  le (waterVolume fd) (waterVolume full) = true.
Proof.
  intros Hv full.
  apply newErrors_empty in Hv.
  destruct Hv as (HM & HL & HE & HMC & HR & HF).
  set (P := mul (mul (mul (parseFloat (FormData.totalMass fd))
                          (parseFloat (FormData.biomassFactor fd)))
                     (sub (of_Z 1)
                          (div (parseFloat (FormData.lossFraction fd))
                               (of_Z 100))))
                (parseFloat (FormData.processingFactor fd))).
  assert (HPwf : wf P = true).
  { unfold P. repeat apply mul_wf; try apply parseFloat_wf.
    apply sub_wf; [rewrite of_Z_1; reflexivity | apply div_wf]. }
  assert (HPn : nonneg_or_nan P = true).
  { unfold P. repeat apply mul_nonneg.
    - unfold totalMass_fails in HM.
      apply orb_false_iff in HM. destruct HM as [HM1 HM2].
      apply orb_false_iff in HM1. destruct HM1 as [_ HM1].
      rewrite of_Z_0 in HM2.
      destruct (parseFloat (FormData.totalMass fd)) as [s | s | | s m e];
        try reflexivity; try discriminate; destruct s; try reflexivity;
        discriminate.
    - now apply positive_nonneg.
    - now apply one_minus_percent_nonneg.
    - now apply positive_nonneg. }
  assert (Hfull : waterVolume full = P).
  { unfold waterVolume, full, WATER_DENSITY.
    cbn [set_field FormData.totalMass FormData.lossFraction
         FormData.processingFactor FormData.moistureContent
         FormData.recoveryEfficiency FormData.biomassFactor].
    rewrite full_fraction. fold P.
    rewrite (mul_one P HPwf), (mul_one P HPwf). now apply div_one. }
  assert (Hvol : waterVolume fd
                 = mul (mul P (div (parseFloat (FormData.moistureContent fd))
                                   (of_Z 100)))
                       (div (parseFloat (FormData.recoveryEfficiency fd))
                            (of_Z 100))).
  { unfold waterVolume, WATER_DENSITY. fold P. apply div_one.
    apply mul_wf; [apply mul_wf; [exact HPwf | apply div_wf] | apply div_wf]. }
  rewrite Hfull, Hvol.
  set (MC := div (parseFloat (FormData.moistureContent fd)) (of_Z 100)).
  set (eta := div (parseFloat (FormData.recoveryEfficiency fd)) (of_Z 100)).
  pose proof (percent_fraction _ HMC) as FMC. fold MC in FMC.
  pose proof (percent_fraction _ HR) as Feta. fold eta in Feta.
  assert (WMC : wf MC = true) by apply div_wf.
  assert (Weta : wf eta = true) by apply div_wf.
  destruct (mul_fraction_le P MC HPwf WMC HPn FMC) as [N1 | L1].
  - left. destruct (mul P MC); try discriminate. reflexivity.
  - assert (HAn : nonneg_or_nan (mul P MC) = true).
    { apply mul_nonneg; [exact HPn | ].
      now apply percent_nonneg. }
    destruct (mul_fraction_le (mul P MC) eta (mul_wf _ _ HPwf WMC) Weta HAn
                Feta) as [N2 | L2].
    + now left.
    + right. exact (le_trans _ _ _ L2 L1).
Qed.

Lemma volume_at_most_full_recovery_witness :
  let fd := FormData.mk "tunisian-olive" "100" "20" "1.0" "72.5" "50"
              "0.175" in
  le (waterVolume fd)
     (waterVolume (FormData.mk "tunisian-olive" "100" "20" "1.0" "100" "100"
                     "0.175")) = true.
Proof.
  intros fd.
  destruct (volume_at_most_full_recovery fd ltac:(vm_compute; reflexivity))
    as [H | H].
  - vm_compute in H. discriminate H.
  - exact H.
Defined.

(** ** Just below a thousand litres *)

Lemma lit_999_995 :
  of_decimal false 999995 (-3) = S754_finite false 8796049041742889 (-43).
Proof. vm_compute. reflexivity. Qed.

(** X17.  The litre band rounds upwards into the next band: every volume
    from 999.995 to below 1000 is shown as 1000.00 L, although the band of
    the litres ends below 1000; the volume next below 999.995 is shown as
    999.99 L and 1000 itself in cubic metres. *)
Theorem format_rounds_up_to_1000_L (v : number) :
  wf v = true ->
  le (of_decimal false 999995 (-3)) v = true -> lt v (of_Z 1000) = true ->
  formatResult v = "1000.00 L" /\
  formatResult (S754_finite false 8796049041742888 (-43)) = "999.99 L" /\
  formatResult (of_Z 1000) = "1.00 " ++ cubic_metres.
Proof.
  intros Hwf Hlo Hhi.
  split; [ | split; vm_compute; reflexivity].
  destruct thresholds_increase as (T1 & T2 & T3 & _).
  assert (H1 : le (of_Z 1) v = true).
  { apply le_trans with (y := of_decimal false 999995 (-3)); [ | exact Hlo].
    rewrite lit_999_995, of_Z_1. apply le_finite_pos. left. lia. }
  unfold formatResult.
  rewrite (le_not_lt_below _ _ _ T1 H1).
  assert (Hv1 : lt v (of_Z 1) = false).
  { destruct (le_true_numbers _ _ H1) as [Ha Hb].
    rewrite (lt_negb_le _ _ Hb Ha), H1. reflexivity. }
  rewrite Hv1, Hhi. clear H1 Hv1 T1 T2 T3.
  rewrite lit_999_995 in Hlo. rewrite of_Z_1000 in Hhi.
  destruct v as [s | s | | s m e]; try discriminate;
    try (destruct s; discriminate).
  destruct s; [discriminate | ].
  apply le_finite_pos in Hlo. apply lt_finite_pos in Hhi.
  destruct (wf_finite _ _ _ Hwf) as (Hm & Hn & _).
  change (2 ^ 53) with 9007199254740992 in Hm.
  change (2 ^ 52) with 4503599627370496 in Hn.
  assert (He : e = -43) by lia. subst e.
  assert (Hm0 : 8796049041742889 <= Zpos m < 8796093022208000) by lia.
  unfold toFixed. rewrite lit_1e21.
  replace (le (S754_finite false 7629394531250000 17)
              (S754_finite false m (-43))) with false.
  2:{ symmetry.
      destruct (le _ _) eqn:E; [ | reflexivity].
      apply le_finite_pos in E. lia. }
  cbn [append]. unfold fixed_digits.
  change (Z.of_nat 2) with 2.
  change (scaled_den (-43) 2) with 8796093022208.
  replace (scaled_num (Zpos m) (-43) 2) with (Zpos m * 100).
  2:{ unfold scaled_num. change (2 ^ Z.max (-43) 0) with 1.
      change (10 ^ Z.max 2 0) with 100. lia. }
  replace ((2 * (Zpos m * 100) + 8796093022208) / (2 * 8796093022208))
    with 100000.
  - reflexivity.
  - assert (L : 100000
                <= (2 * (Zpos m * 100) + 8796093022208) / (2 * 8796093022208))
      by (apply Z.div_le_lower_bound; lia).
    assert (G : (2 * (Zpos m * 100) + 8796093022208) / (2 * 8796093022208)
                < 100001)
      by (apply Z.div_lt_upper_bound; lia).
    clear - L G. lia.
Qed.

Lemma format_rounds_up_to_1000_L_witness :
  formatResult (parseFloat "999.996") = "1000.00 L".
Proof.
  apply (format_rounds_up_to_1000_L (parseFloat "999.996"));
    vm_compute; reflexivity.
Defined.

(** ** A calculation and its pause *)

Lemma calculateWaterVolume_with_valid (during : AppState -> AppState)
      (skipAnimation : bool) (st : AppState) :
  snd (validateInputs st) = true ->
  let started :=
    mkAppState (formData st) (newErrors (formData st)) (result st) true false
      (isDropdownOpen st) (showCreditsModal st) in
  let resumed := if skipAnimation then started else during started in
  calculateWaterVolume_with during skipAnimation st =
  mkAppState (formData resumed) (errors resumed)
    (Some (waterVolume (formData st))) false true
    (isDropdownOpen resumed) (showCreditsModal resumed).
Proof.
  unfold calculateWaterVolume_with.
  destruct (validateInputs st) as [st1 ok] eqn:E. cbn [snd].
  intros ->. cbn [negb].
  unfold validateInputs in E. injection E as <- _. reflexivity.
Qed.

(** While no result is on display the effects neither validate nor
    calculate: they change the form at most. *)
Lemma runEffects_quiet (prev cur : AppState) :
  showResult cur = false ->
  errors (runEffects prev cur) = errors cur /\
  showResult (runEffects prev cur) = false.
Proof.
  intros Hs.
  assert (Hr : recalculateEffect cur = cur).
  { apply recalculateEffect_idle. now rewrite Hs. }
  assert (Hb : forall b : bool, (if b then cur else cur) = cur)
    by now intros [ | ].
  unfold runEffects. rewrite Hr, Hb.
  destruct (negb (String.eqb _ _)); cbn [errors showResult];
    split; [reflexivity | exact Hs | reflexivity | exact Hs].
Qed.

Lemma settle_quiet (prev cur : AppState) :
  showResult cur = false ->
  errors (settle prev cur) = errors cur /\
  showResult (settle prev cur) = false.
Proof.
  intros Hs. unfold settle.
  destruct (runEffects_quiet prev cur Hs) as [He Hs1].
  destruct (runEffects_quiet cur (runEffects prev cur) Hs1) as [He2 Hs2].
  split; [now rewrite He2 | exact Hs2].
Qed.

(** The form that the effects leave depends on the forms alone. *)
Lemma settle_formData (prev cur : AppState) :
  formData (settle prev cur) =
  if String.eqb (FormData.cropType (formData prev))
                (FormData.cropType (formData cur))
  then formData cur else cropChangeEffect (formData cur).
Proof.
  unfold settle.
  rewrite runEffects_same_crop_formData
    by (symmetry; apply runEffects_cropType).
  unfold runEffects.
  destruct (String.eqb _ _); cbn [negb orb].
  - destruct (_ || _); [apply recalculateEffect_formData | reflexivity].
  - reflexivity.
Qed.

Lemma act_formData (a : Action) (s1 s2 : AppState) :
  formData s1 = formData s2 -> formData (act a s1) = formData (act a s2).
Proof.
  intros H. destruct a as [f v | cropId | | | ]; cbn [act formData];
    try exact H.
  - unfold typeInto.
    rewrite !settle_formData, !handleInputChange_formData, H. reflexivity.
  - unfold chooseCrop. rewrite !settle_formData.
    cbn [handleCropTypeChange formData FormData.cropType]. now rewrite H.
Qed.

Lemma perform_formData (pause : list Action) :
  forall s1 s2 : AppState,
    formData s1 = formData s2 ->
    formData (perform pause s1) = formData (perform pause s2).
Proof.
  unfold perform.
  induction pause as [ | a pause IH]; intros s1 s2 H; cbn [fold_left].
  - exact H.
  - apply IH. now apply act_formData.
Qed.

Lemma act_quiet (a : Action) (st : AppState) :
  showResult st = false -> errors st = ValidationErrors.empty ->
  showResult (act a st) = false /\ errors (act a st) = ValidationErrors.empty.
Proof.
  intros Hs He. destruct a as [f v | cropId | | | ]; cbn [act];
    try (split; assumption).
  - unfold typeInto.
    destruct (handleInputChange_result f v st) as (_ & Hsh & _).
    rewrite Hs in Hsh.
    destruct (settle_quiet st (handleInputChange f v st) Hsh) as [E1 E2].
    split; [exact E2 | ]. rewrite E1.
    unfold handleInputChange. rewrite He.
    now destruct f.
  - unfold chooseCrop.
    destruct (settle_quiet st (handleCropTypeChange cropId st) Hs)
      as [E1 E2].
    split; [exact E2 | ]. rewrite E1. exact He.
Qed.

Lemma perform_quiet (pause : list Action) :
  forall st : AppState,
    showResult st = false -> errors st = ValidationErrors.empty ->
    errors (perform pause st) = ValidationErrors.empty.
Proof.
  unfold perform.
  induction pause as [ | a pause IH]; intros st Hs He; cbn [fold_left].
  - exact He.
  - destruct (act_quiet a st Hs He) as [Hs' He']. now apply IH.
Qed.

(** X5.  A calculation on a valid form ends, whatever the user types,
    chooses or toggles during its pause, with no error stored and with the
    results card showing the formatted volume of the form as it was when
    the calculation started.  The form on screen at the end is the one that
    the actions of the pause have left (the form of the start when there is
    no pause), so the card and the form can disagree.  Below 1000 litres
    the text of the card is a number in fixed notation in mL (two decimal
    places or none) or in L (two decimal places); otherwise, NaN and
    [+Infinity] included, it ends with the unit of cubic metres. *)
Theorem valid_form_is_displayed (skipAnimation : bool)
        (pause : list Action) (st : AppState) :
  snd (validateInputs st) = true ->
  let st' := calculateWaterVolume_with (perform pause) skipAnimation st in
  let v := waterVolume (formData st) in
  errors st' = ValidationErrors.empty /\
  formData st' = formData (if skipAnimation then st else perform pause st) /\
  isCalculating st' = false /\
  result st' = Some v /\
  resultCard st' = Some (formatResult v) /\
  (lt v (of_Z 1000) = true ->
   rendered 2 "mL" (formatResult v) \/ rendered 0 "mL" (formatResult v) \/
   rendered 2 "L" (formatResult v)) /\
  (lt v (of_Z 1000) = false ->
   formatResult v = toFixed (div v (of_Z 1000)) 2 ++ " " ++ cubic_metres).
Proof.
  intros Hv st' v. unfold st'.
  rewrite (calculateWaterVolume_with_valid (perform pause) skipAnimation st
             Hv).
  cbv zeta. cbn [errors formData isCalculating result]. unfold resultCard.
  cbn [result showResult].
  pose proof (proj1 (validateInputs_snd st) Hv) as He.
  set (started := mkAppState (formData st) (newErrors (formData st))
                    (result st) true false (isDropdownOpen st)
                    (showCreditsModal st)).
  split.
  { destruct skipAnimation; [exact He | ].
    apply perform_quiet; [reflexivity | exact He]. }
  split.
  { destruct skipAnimation; [reflexivity | ].
    now apply perform_formData. }
  repeat (split; [reflexivity | ]).
  split.
  - apply formatResult_below_1000; [apply waterVolume_wf | ].
    apply validateInputs_true in Hv.
    destruct Hv as (HM & HL & HE & HMC & HR & HF).
    now apply waterVolume_nonneg.
  - apply formatResult_from_1000.
Qed.

Lemma valid_form_is_displayed_witness :
  let st' := clickCalculate [TypeInto Field.totalMass "200"]
               (scenario "100") in
  snd (validateInputs (scenario "100")) = true /\
  resultCard st' = Some "5.08 L" /\
  FormData.totalMass (formData st') = "200" /\
  errors st' = ValidationErrors.empty.
Proof.
  intros st'.
  destruct (valid_form_is_displayed false [TypeInto Field.totalMass "200"]
              (scenario "100") ltac:(vm_compute; reflexivity))
    as (He & Hf & _ & _ & Hc & _).
  split; [vm_compute; reflexivity | ].
  split; [ | split; [ | exact He]].
  - unfold st', clickCalculate. rewrite Hc. vm_compute. reflexivity.
  - unfold st', clickCalculate. rewrite Hf. vm_compute. reflexivity.
Defined.

(** ** Rounding, measured against the exact result *)

Section Faithful.

(** A right shift is a division that rounds down. *)
Lemma shifted_floor (m e n : Z) :
0 <= m ->
let s := shifted m e n in
e <= snd s /\
fst s * 2 ^ (snd s - e) <= m < (fst s + 1) * 2 ^ (snd s - e).
Proof.
intros Hm s. subst s. unfold shifted.
destruct (0 <? n) eqn:En; cbn [fst snd].
- apply Z.ltb_lt in En.
  replace (e + n - e) with n by lia.
  assert (Hp : 0 < 2 ^ n) by (apply Z.pow_pos_nonneg; lia).
  split; [lia | ].
  pose proof (Z.mul_div_le m (2 ^ n) Hp).
  pose proof (Z.mul_succ_div_gt m (2 ^ n) Hp).
  lia.
- replace (e - e) with 0 by lia. change (2 ^ 0) with 1. lia.
Qed.

(** After a mantissa in canonical position has moved up by at most one,
  the second shift loses nothing. *)
Lemma shifted_again_exact (m1 e1 m2 : Z) :
in_format (m1, e1) -> m1 <= m2 <= m1 + 1 ->
let s := shifted m2 e1 (fexp prec emax (Zdigits2 m2 + e1) - e1) in
e1 <= snd s /\ fst s * 2 ^ (snd s - e1) = m2 /\
(fst s = 0 -> snd s = -1074).
Proof.
intros H Hb. pose proof H as ([H0 Hhi] & Hn & He). cbn [fst snd] in *.
change (2 ^ 53) with 9007199254740992 in *.
change (2 ^ 52) with 4503599627370496 in *.
destruct (Z.eq_dec m2 9007199254740992) as [-> | Hne].
- change (Zdigits2 9007199254740992) with 54.
  rewrite fexp_eq. replace (Z.max (54 + e1 - 53) (-1074)) with (e1 + 1) by lia.
  replace (e1 + 1 - e1) with 1 by lia.
  unfold shifted. cbn [Z.ltb Z.compare fst snd].
  change (9007199254740992 / 2 ^ 1) with 4503599627370496.
  replace (e1 + 1 - e1) with 1 by lia. change (2 ^ 1) with 2.
  repeat split; lia.
- destruct (Z.eq_dec m2 0) as [-> | Hpos].
  + change (Zdigits2 0) with 0. rewrite fexp_eq.
    assert (E : e1 = -1074) by lia. subst e1.
    unfold shifted. cbn. repeat split; lia.
  + assert (F : in_format (m2, e1)).
    { unfold in_format. cbn [fst snd].
      change (2 ^ 53) with 9007199254740992.
      change (2 ^ 52) with 4503599627370496. lia. }
    rewrite (fexp_in_format m2 e1 ltac:(lia) F).
    replace (e1 - e1) with 0 by lia.
    unfold shifted. cbn [Z.ltb Z.compare fst snd].
    replace (e1 - e1) with 0 by lia. change (2 ^ 0) with 1.
    repeat split; lia.
Qed.

(** What [binary_round_aux] returns lies within one unit of its last
  place of every value from its mantissa [mx] up to [mx + 1], at the
  exponent it was given. *)
Lemma binary_round_aux_faithful (sx : bool) (mx ex : Z) (lx : location) :
0 <= mx -> ex <= fexp prec emax (Zdigits2 mx + ex) ->
exists m e : Z,
  0 <= m /\ ex <= e /\
  (m - 1) * 2 ^ (e - ex) <= mx /\ mx + 1 <= (m + 1) * 2 ^ (e - ex) /\
  (m = 0 -> e = -1074) /\
  binary_round_aux prec emax sx mx ex lx =
  match m with
  | Z0 => S754_zero sx
  | Zpos p =>
      if e <=? emax - prec then S754_finite sx p e else S754_infinity sx
  | Zneg _ => S754_nan
  end.
Proof.
intros Hm Hp.
destruct (binary_round_aux_shape sx mx ex lx Hm) as [m2 [Hb ->]].
cbv zeta in Hb |- *.
pose proof (shifted_in_format mx ex Hm Hp) as H1.
pose proof (shifted_floor mx ex (fexp prec emax (Zdigits2 mx + ex) - ex)
              Hm) as Hf.
cbv zeta in Hf.
destruct (shifted mx ex _) as [m1 e1]. cbn [fst snd] in *.
pose proof (shifted_again_exact m1 e1 m2 H1 Hb) as H3. cbv zeta in H3.
destruct H1 as ([H10 _] & _). cbn [fst] in H10.
destruct (shifted m2 e1 _) as [m3 e3]. cbn [fst snd] in *.
destruct Hf as (He1 & Hlo & Hhi). destruct H3 as (He3 & Hv & Hz).
exists m3, e3.
assert (Hs : 2 ^ (e3 - ex) = 2 ^ (e3 - e1) * 2 ^ (e1 - ex)).
{ rewrite <- pow2_split by lia. f_equal. lia. }
assert (P1 : 0 < 2 ^ (e3 - e1)) by (apply Z.pow_pos_nonneg; lia).
assert (P2 : 0 < 2 ^ (e1 - ex)) by (apply Z.pow_pos_nonneg; lia).
assert (Hm3 : 0 <= m3).
{ destruct (Z_lt_le_dec m3 0) as [Hneg | ]; [exfalso | assumption].
  clear - Hneg Hv Hb H10 P1. nia. }
repeat split; try assumption; try lia.
- rewrite Hs. clear - Hv Hb Hlo P1 P2.
  generalize dependent (2 ^ (e3 - e1)). generalize dependent (2 ^ (e1 - ex)).
  intros; nia.
- rewrite Hs. clear - Hv Hb Hhi P1 P2.
  generalize dependent (2 ^ (e3 - e1)). generalize dependent (2 ^ (e1 - ex)).
  intros; nia.
Qed.

End Faithful.

(** ** The operators, measured against the exact result *)

Section Exact.

Lemma Qpow2_pos (e : Z) : (0 < 2 ^ e)%Q.
Proof. apply Qpower_0_lt. reflexivity. Qed.

Lemma Qpow2_add (a b : Z) : (2 ^ (a + b) == 2 ^ a * 2 ^ b)%Q.
Proof. apply Qpower_plus. discriminate. Qed.

Lemma Qpow2_split (e E : Z) :
E <= e -> (2 ^ e == inject_Z (2 ^ (e - E)) * 2 ^ E)%Q.
Proof.
intros H. rewrite Zpower_Qpower by lia.
change (inject_Z 2) with 2%Q. rewrite <- Qpow2_add.
replace (e - E + E) with e by lia. reflexivity.
Qed.

Lemma Qabs_diff_eq (a b u : Q) : (a == b -> 0 <= u -> Qabs (a - b) <= u)%Q.
Proof.
intros H Hu. apply Qabs_diff_Qle_condition. rewrite H.
split; lra.
Qed.

(** From bounds on mantissas to a bound on values. *)
Lemma within_ulp (m e M E : Z) (tq : Q) :
E <= e ->
(m - 1) * 2 ^ (e - E) <= M -> M + 1 <= (m + 1) * 2 ^ (e - E) ->
(inject_Z M * 2 ^ E <= tq)%Q -> (tq <= inject_Z (M + 1) * 2 ^ E)%Q ->
(Qabs (inject_Z m * 2 ^ e - tq) <= 2 ^ e)%Q.
Proof.
intros He Hlo Hhi Hl Hu.
rewrite (Qpow2_split e E He).
pose proof (Qpow2_pos E) as Hc.
set (K := 2 ^ (e - E)) in *.
replace (m - 1) with (m + -1) in Hlo by lia.
rewrite Zle_Qle in Hlo, Hhi.
rewrite inject_Z_mult in Hlo, Hhi.
rewrite !inject_Z_plus in Hlo. rewrite !inject_Z_plus in Hhi.
rewrite inject_Z_plus in Hu.
change (inject_Z 1) with 1%Q in *. change (inject_Z (-1)) with (-1)%Q in *.
set (k := inject_Z K) in *. set (c := (2 ^ E)%Q) in *.
set (a := inject_Z m) in *. set (b := inject_Z M) in *.
apply Qabs_diff_Qle_condition.
assert (H1 : ((a + -1) * k * c <= b * c)%Q)
  by (apply Qmult_le_compat_r; [exact Hlo | lra]).
assert (H2 : ((b + 1) * c <= (a + 1) * k * c)%Q)
  by (apply Qmult_le_compat_r; [exact Hhi | lra]).
split; lra.
Qed.

(** The value that [binary_round_aux] returns, when it is finite, lies
  within one unit of its last place of every rational from [mx] to
  [mx + 1] at the exponent given, with the sign given. *)
Lemma binary_round_aux_rounds (s : bool) (M E : Z) (lx : location)
    (tq : Q) :
0 <= M -> E <= fexp prec emax (Zdigits2 M + E) ->
(inject_Z M * 2 ^ E <= tq)%Q -> (tq <= inject_Z (M + 1) * 2 ^ E)%Q ->
is_finite (binary_round_aux prec emax s M E lx) = true ->
(Qabs (value (binary_round_aux prec emax s M E lx)
       - (if s then - tq else tq))
 <= ulp (binary_round_aux prec emax s M E lx))%Q.
Proof.
intros HM HP Hl Hu.
destruct (binary_round_aux_faithful s M E lx HM HP)
  as (m & e & Hm & He & Hlo & Hhi & Hz & ->).
pose proof (within_ulp m e M E tq He Hlo Hhi Hl Hu) as W.
destruct m as [ | p | p ]; try lia.
- intros _. cbn [value ulp]. specialize (Hz eq_refl). subst e.
  change (inject_Z 0) with 0%Q in W.
  apply Qabs_Qle_condition in W. apply Qabs_Qle_condition.
  destruct s; split; lra.
- destruct (e <=? emax - prec); [ | discriminate]. intros _.
  cbn [value ulp].
  destruct s; [ | exact W].
  change (Zneg p) with (- Zpos p). rewrite inject_Z_opp.
  apply Qabs_Qle_condition in W. apply Qabs_Qle_condition.
  split; lra.
Qed.

End Exact.

Section ExactOperators.

Lemma value_finite (s : bool) (m : positive) (e : Z) :
(value (S754_finite s m e)
 == (if s then - (inject_Z (Zpos m) * 2 ^ e)
     else inject_Z (Zpos m) * 2 ^ e))%Q.
Proof.
cbn [value]. destruct s; [ | reflexivity].
change (Zneg m) with (- Zpos m). rewrite inject_Z_opp. ring.
Qed.

Lemma inject_Z_sub (a b : Z) : inject_Z (a - b) = (inject_Z a - inject_Z b)%Q.
Proof. unfold Z.sub. now rewrite inject_Z_plus, inject_Z_opp. Qed.

Lemma ulp_nonneg (x : number) : (0 <= ulp x)%Q.
Proof.
destruct x; cbn [ulp]; apply Qlt_le_weak, Qpow2_pos.
Qed.

(** The product of two canonical mantissas does not have to move left. *)
Lemma mul_position (sx sy : bool) (mx my : positive) (ex ey : Z) :
wf (S754_finite sx mx ex) = true -> wf (S754_finite sy my ey) = true ->
ex + ey <= fexp prec emax (Zdigits2 (Zpos (mx * my)) + (ex + ey)).
Proof.
intros Hx Hy.
destruct (wf_finite _ _ _ Hx) as (Hmx & Hnx & Hex).
destruct (wf_finite _ _ _ Hy) as (Hmy & Hny & Hey).
rewrite fexp_eq, Pos2Z.inj_mul.
change (2 ^ 52) with 4503599627370496 in *.
clear Hmx Hmy Hx Hy.
assert (Hd : 0 < Zdigits2 (Zpos mx * Zpos my)).
{ apply (Zdigits2_gt _ 0); lia. }
assert (H52 : Zpos mx >= 4503599627370496 \/ Zpos my >= 4503599627370496 ->
              52 < Zdigits2 (Zpos mx * Zpos my)).
{ intros H. apply Zdigits2_gt; [lia | ].
  change (2 ^ 52) with 4503599627370496. nia. }
assert (H104 : Zpos mx >= 4503599627370496 -> Zpos my >= 4503599627370496 ->
               104 < Zdigits2 (Zpos mx * Zpos my)).
{ intros H H'. apply Zdigits2_gt; [lia | ].
  change (2 ^ 104) with (4503599627370496 * 4503599627370496). nia. }
destruct Hnx as [-> | Hnx], Hny as [-> | Hny].
- lia.
- specialize (H52 ltac:(lia)). lia.
- specialize (H52 ltac:(lia)). lia.
- specialize (H104 ltac:(lia) ltac:(lia)). lia.
Qed.

(** A finite product is within one unit of its last place of the exact
  product of its factors. *)
Lemma mul_rounds (x y : number) :
wf x = true -> wf y = true ->
is_finite x = true -> is_finite y = true ->
is_finite (mul x y) = true ->
(Qabs (value (mul x y) - value x * value y) <= ulp (mul x y))%Q.
Proof.
destruct x as [sx | sx | | sx mx ex], y as [sy | sy | | sy my ey];
  intros Hx Hy Fx Fy; try discriminate Fx; try discriminate Fy.
- intros _. apply Qabs_diff_eq; [ | apply ulp_nonneg].
  cbn [mul SFmul value]. ring.
- intros _. apply Qabs_diff_eq; [ | apply ulp_nonneg].
  unfold mul, SFmul. cbn [value]. ring.
- intros _. apply Qabs_diff_eq; [ | apply ulp_nonneg].
  unfold mul, SFmul. cbn [value]. ring.
- unfold mul, SFmul. intros F.
  set (tq := (inject_Z (Zpos (mx * my)) * 2 ^ (ex + ey))%Q).
  assert (E : (value (S754_finite sx mx ex) * value (S754_finite sy my ey)
               == (if xorb sx sy then - tq else tq))%Q).
  { rewrite !value_finite. unfold tq.
    rewrite Pos2Z.inj_mul, inject_Z_mult.
    destruct sx, sy; cbn [xorb]; rewrite Qpow2_add; ring. }
  rewrite E.
  apply binary_round_aux_rounds.
  + lia.
  + now apply (mul_position sx sy).
  + apply Qle_refl.
  + unfold tq. rewrite inject_Z_plus.
    pose proof (Qpow2_pos (ex + ey)).
    change (inject_Z 1) with 1%Q.
    set (c := (2 ^ (ex + ey))%Q) in *. lra.
  + exact F.
Qed.

(** The same for a finite quotient. *)
Lemma div_rounds (x y : number) :
is_finite x = true -> is_finite y = true ->
is_finite (div x y) = true ->
(Qabs (value (div x y) - value x / value y) <= ulp (div x y))%Q.
Proof.
destruct x as [sx | sx | | sx mx ex], y as [sy | sy | | sy my ey];
  intros Fx Fy; try discriminate Fx; try discriminate Fy;
  try (intros F; discriminate F).
- intros _. apply Qabs_diff_eq; [ | apply ulp_nonneg].
  unfold div, SFdiv. cbn [value]. unfold Qdiv. ring.
- unfold div, SFdiv. intros F.
  destruct (SFdiv_core_binary_spec (Zpos mx) ex (Zpos my) ey
              ltac:(lia) ltac:(lia)) as [l El].
  rewrite El in F |- *.
  destruct (SFdiv_core_binary_position (Zpos mx) ex (Zpos my) ey
              ltac:(lia) ltac:(lia)) as [Hq Hp].
  cbv zeta in Hq, Hp.
  pose proof (div_exponent_le (Zpos mx) ex (Zpos my) ey) as Hle.
  set (e' := div_exponent (Zpos mx) ex (Zpos my) ey) in *. clearbody e'.
  set (s := ex - ey - e') in *.
  set (q := Zpos mx * 2 ^ s / Zpos my) in *.
  set (n := (inject_Z (Zpos mx) * 2 ^ ex)%Q).
  set (d := (inject_Z (Zpos my) * 2 ^ ey)%Q).
  assert (Hd : (0 < d)%Q).
  { unfold d. pose proof (Qpow2_pos ey).
    assert (0 < inject_Z (Zpos my))%Q by reflexivity.
    apply Qmult_lt_0_compat; assumption. }
  assert (E : (value (S754_finite sx mx ex) / value (S754_finite sy my ey)
               == (if xorb sx sy then - (n / d) else n / d))%Q).
  { rewrite !value_finite. fold n. fold d.
    assert (~ d == 0)%Q by lra.
    destruct sx, sy; cbn [xorb]; field; lra. }
  rewrite E.
  assert (Hs : 0 <= s) by (unfold s; lia).
  assert (Hp2 : 0 < 2 ^ s) by (apply Z.pow_pos_nonneg; lia).
  assert (Zlo : q * Zpos my <= Zpos mx * 2 ^ s).
  { pose proof (Z.mul_div_le (Zpos mx * 2 ^ s) (Zpos my) ltac:(lia)) as H.
    fold q in H. clearbody q. lia. }
  assert (Zhi : Zpos mx * 2 ^ s <= (q + 1) * Zpos my).
  { pose proof (Z.mul_succ_div_gt (Zpos mx * 2 ^ s) (Zpos my)
                  ltac:(lia)) as H.
    fold q in H. clearbody q. lia. }
  assert (Ex : (2 ^ ex == inject_Z (2 ^ s) * (2 ^ e' * 2 ^ ey))%Q).
  { rewrite <- Qpow2_add, (Qpow2_split ex (e' + ey)) by (unfold s in Hs; lia).
    replace (ex - (e' + ey)) with s by (unfold s; lia). reflexivity. }
  rewrite Zle_Qle in Zlo, Zhi. rewrite !inject_Z_mult in Zlo, Zhi.
  pose proof (Qpow2_pos e') as P1. pose proof (Qpow2_pos ey) as P2.
  assert (Pc : (0 <= 2 ^ e' * 2 ^ ey)%Q).
  { apply Qlt_le_weak, Qmult_lt_0_compat; assumption. }
  pose proof (Qmult_le_compat_r _ _ _ Zlo Pc) as Qlo.
  pose proof (Qmult_le_compat_r _ _ _ Zhi Pc) as Qhi.
  apply binary_round_aux_rounds; try assumption.
  + apply Qle_shift_div_l; [exact Hd | ].
    unfold n, d. rewrite Ex.
    set (a := inject_Z q) in *. set (b := inject_Z (Zpos my)) in *.
    set (c := inject_Z (Zpos mx)) in *. set (k := inject_Z (2 ^ s)) in *.
    set (u := (2 ^ e')%Q) in *. set (v := (2 ^ ey)%Q) in *.
    lra.
  + apply Qle_shift_div_r; [exact Hd | ].
    unfold n, d. rewrite Ex.
    set (a := inject_Z (q + 1)) in *. set (b := inject_Z (Zpos my)) in *.
    set (c := inject_Z (Zpos mx)) in *. set (k := inject_Z (2 ^ s)) in *.
    set (u := (2 ^ e')%Q) in *. set (v := (2 ^ ey)%Q) in *.
    lra.
Qed.

(** [binary_round] first moves a short mantissa left, which changes no
  value, and then rounds. *)
Lemma binary_round_rounds (s : bool) (p : positive) (e : Z) :
let tq := (inject_Z (Zpos p) * 2 ^ e)%Q in
is_finite (binary_round prec emax s p e) = true ->
(Qabs (value (binary_round prec emax s p e) - (if s then - tq else tq))
 <= ulp (binary_round prec emax s p e))%Q.
Proof.
intros tq. unfold binary_round.
set (e' := fexp prec emax (Zpos (digits2_pos p) + e)).
destruct (shl_align p e e') as [mz ez] eqn:E.
unfold shl_align in E.
assert (H : ez <= e /\ Zpos mz = Zpos p * 2 ^ (e - ez) /\
            ez <= fexp prec emax (Zdigits2 (Zpos mz) + ez)).
{ destruct (e' - e) as [ | d | d ] eqn:Ed; injection E as <- <-.
  - replace (e - e) with 0 by lia. change (2 ^ 0) with 1.
    change (Zdigits2 (Zpos p)) with (Zpos (digits2_pos p)). fold e'. lia.
  - replace (e - e) with 0 by lia. change (2 ^ 0) with 1.
    change (Zdigits2 (Zpos p)) with (Zpos (digits2_pos p)). fold e'. lia.
  - rewrite iter_xO_pow2.
    replace (e - e') with (Zpos d) by lia.
    split; [lia | split; [reflexivity | ]].
    rewrite Zdigits2_shift by lia.
    change (Zdigits2 (Zpos p)) with (Zpos (digits2_pos p)).
    replace (Zpos (digits2_pos p) + Zpos d + e')
      with (Zpos (digits2_pos p) + e) by lia.
    fold e'. lia. }
destruct H as (Hle & Hv & Hp).
assert (Et : (tq == inject_Z (Zpos mz) * 2 ^ ez)%Q).
{ unfold tq. rewrite Hv, inject_Z_mult, (Qpow2_split e ez Hle). ring. }
intros F.
apply binary_round_aux_rounds; try assumption; try lia.
- rewrite Et. apply Qle_refl.
- rewrite Et, inject_Z_plus. pose proof (Qpow2_pos ez).
  change (inject_Z 1) with 1%Q.
  set (c := (2 ^ ez)%Q) in *. lra.
Qed.

(** The same for a finite difference. *)
Lemma sub_rounds (x y : number) :
is_finite x = true -> is_finite y = true ->
is_finite (sub x y) = true ->
(Qabs (value (sub x y) - (value x - value y)) <= ulp (sub x y))%Q.
Proof.
destruct x as [sx | sx | | sx mx ex], y as [sy | sy | | sy my ey];
  intros Fx Fy; try discriminate Fx; try discriminate Fy.
- intros _. apply Qabs_diff_eq; [ | apply ulp_nonneg].
  unfold sub, SFsub. destruct sx, sy; cbn [value]; ring.
- intros _. apply Qabs_diff_eq; [ | apply ulp_nonneg].
  unfold sub, SFsub. rewrite !value_finite. cbn [value].
  destruct sy; cbn [negb]; ring.
- intros _. apply Qabs_diff_eq; [ | apply ulp_nonneg].
  unfold sub, SFsub. cbn [value]. ring.
- unfold sub, SFsub. cbv zeta.
  set (ez := Z.min ex ey).
  rewrite !shl_align_fst by (unfold ez; lia).
  set (z := cond_Zopp sx (Zpos mx * 2 ^ (ex - ez))
            - cond_Zopp sy (Zpos my * 2 ^ (ey - ez))).
  assert (E : (value (S754_finite sx mx ex) - value (S754_finite sy my ey)
               == inject_Z z * 2 ^ ez)%Q).
  { rewrite !value_finite. unfold z.
    assert (Hx : ez <= ex) by (unfold ez; lia).
    assert (Hy : ez <= ey) by (unfold ez; lia).
    destruct sx, sy; cbn [cond_Zopp];
      rewrite inject_Z_sub, ?inject_Z_opp, !inject_Z_mult,
        (Qpow2_split ex ez Hx), (Qpow2_split ey ez Hy); ring. }
  rewrite E. clearbody z.
  destruct z as [ | p | p ]; cbn [binary_normalize]; intros F.
  + apply Qabs_diff_eq; [ | apply ulp_nonneg].
    cbn [value]. change (inject_Z 0) with 0%Q. ring.
  + apply (binary_round_rounds false p ez F).
  + change (Zneg p) with (- Zpos p). rewrite inject_Z_opp.
    pose proof (binary_round_rounds true p ez F) as H. cbv zeta in H.
    assert (E2 : (- inject_Z (Zpos p) * 2 ^ ez
                  == - (inject_Z (Zpos p) * 2 ^ ez))%Q) by ring.
    rewrite E2. exact H.
Qed.

End ExactOperators.

(** ** The calculation and the exact formula *)

(** C1, as the code has it.  For every form whose six numeric fields
    pass [validateInputs], [calculateWaterVolume] stores the formula of the
    specification evaluated in binary64 arithmetic in the order written:
    the mass times the biomass factor times one minus the loss fraction
    times the processing factor times the moisture fraction times the
    recovery fraction, over the water density 1; the form is the one the
    function was called with, whatever happens during its pause.  The
    division by the density returns the product itself, and nothing is
    rounded to decimals.  But the operators round: each finite product,
    difference and quotient of the formula is the exact result of that
    operation on its operands moved by at most one unit in the last place,
    so the value stored is not, in general, the product over the reals. *)
Theorem calculate_is_formula (skipAnimation : bool) (pause : list Action)
        (st : AppState) :
  snd (validateInputs st) = true ->
  let totalMassKg := parseFloat (FormData.totalMass (formData st)) in
  let biomassFactor := parseFloat (FormData.biomassFactor (formData st)) in
  let lossFractionPercent :=
    parseFloat (FormData.lossFraction (formData st)) in
  let processingFactor :=
    parseFloat (FormData.processingFactor (formData st)) in
  let moistureContentPercent :=
    parseFloat (FormData.moistureContent (formData st)) in
  let recoveryEfficiencyPercent :=
    parseFloat (FormData.recoveryEfficiency (formData st)) in
  let st' := calculateWaterVolume_with (perform pause) skipAnimation st in
  result st' =
  Some (waterVolumeLiters totalMassKg biomassFactor lossFractionPercent
          processingFactor moistureContentPercent
          recoveryEfficiencyPercent) /\
  waterVolumeLiters totalMassKg biomassFactor lossFractionPercent
    processingFactor moistureContentPercent recoveryEfficiencyPercent
  = mul (mul (mul (mul (mul totalMassKg biomassFactor)
                       (sub (of_Z 1) (div lossFractionPercent (of_Z 100))))
                  processingFactor)
             (div moistureContentPercent (of_Z 100)))
        (div recoveryEfficiencyPercent (of_Z 100)) /\
  showResult st' = true /\
  (forall x y : number,
     wf x = true -> wf y = true ->
     is_finite x = true -> is_finite y = true ->
     is_finite (mul x y) = true ->
     (Qabs (value (mul x y) - value x * value y) <= ulp (mul x y))%Q) /\
  (forall x y : number,
     is_finite x = true -> is_finite y = true ->
     is_finite (sub x y) = true ->
     (Qabs (value (sub x y) - (value x - value y)) <= ulp (sub x y))%Q) /\
  (forall x y : number,
     is_finite x = true -> is_finite y = true ->
     is_finite (div x y) = true ->
     (Qabs (value (div x y) - value x / value y) <= ulp (div x y))%Q).
Proof.
  intros Hv. cbv zeta.
  rewrite (calculateWaterVolume_with_valid (perform pause) skipAnimation st
             Hv).
  cbv zeta. cbn [result showResult]. rewrite waterVolume_is_formula.
  split; [reflexivity | ].
  split; [apply waterVolumeLiters_is_product; apply parseFloat_wf | ].
  split; [reflexivity | ].
  split; [exact mul_rounds | split; [exact sub_rounds | exact div_rounds]].
Qed.

Lemma calculate_is_formula_witness :
  snd (validateInputs (scenario "100")) = true /\
  result (clickCalculate [TypeInto Field.totalMass "200"] (scenario "100")) =
  Some (waterVolumeLiters (parseFloat "100") (parseFloat "0.175")
          (parseFloat "20") (parseFloat "1.0") (parseFloat "72.5")
          (parseFloat "50")).
Proof.
  split; [vm_compute; reflexivity | ].
  apply (calculate_is_formula false [TypeInto Field.totalMass "200"]
           (scenario "100")).
  vm_compute; reflexivity.
Defined.

(** C1, as stated, fails: what is stored is not exactly the product.  For
    the Tunisian-olive defaults and mass 10 the form is valid and the value
    stored is finite, but it is not the product of the six numbers of the
    form over the rationals, neither of the numbers that [parseFloat] reads
    nor of the decimals typed, whose product is 203/400; it is not even the
    binary64 number nearest to either product, the number next below being
    nearer. *)
Lemma calculate_is_not_the_exact_product :
  let st := scenario "10" in
  let fd := formData st in
  let parsed :=
    exactVolume (value (parseFloat (FormData.totalMass fd)))
      (value (parseFloat (FormData.biomassFactor fd)))
      (value (parseFloat (FormData.lossFraction fd)))
      (value (parseFloat (FormData.processingFactor fd)))
      (value (parseFloat (FormData.moistureContent fd)))
      (value (parseFloat (FormData.recoveryEfficiency fd))) in
  let typed := exactVolume 10 0.175 20 1.0 72.5 50 in
  let below := S754_finite false 4571153621781053 (-53) in
  snd (validateInputs st) = true /\
  (typed == 203 # 400)%Q /\
  exists v : number,
    result (calculateWaterVolume false st) = Some v /\
    is_finite v = true /\
    ~ (value v == parsed)%Q /\ ~ (value v == typed)%Q /\
    (Qabs (value below - parsed) < Qabs (value v - parsed))%Q /\
    (Qabs (value below - typed) < Qabs (value v - typed))%Q.
Proof.
  cbv zeta. split; [vm_compute; reflexivity | ].
  split; [vm_compute; reflexivity | ].
  exists (S754_finite false 4571153621781054 (-53)).
  split; [vm_compute; reflexivity | ].
  split; [reflexivity | ].
  repeat split; vm_compute; try reflexivity; discriminate.
Qed.
